(** * smart-cleaner: a verification development for [main.py]

    [main.py] is one class, [SmartCleaner], with seven straight-line
    methods over a pandas [DataFrame], and a driver that calls them in a
    fixed order.  This file embeds the class and the driver, together with
    the part of Python, NumPy and pandas they run on, and proves the
    properties of the cleaning pipeline.

    Modelling conventions.

    - pandas is a library, not code of the repository.  Its operations are
      modelled from their behaviour in pandas 1.x (the series the idiom
      [df[col].fillna(v, inplace=True)] was written for: the call updates
      the column of the frame, and [fillna] on an [object] column infers
      the dtype of the result again).
    - A column is a tagged variant, by the kind of value that [read_csv]
      can put in it: 64-bit integers, floats, Python booleans, Python
      strings, timestamps.  [NaN], [None] and [NaT] are the missing value.
      A column of booleans has dtype [bool] when it is complete and dtype
      [object] when it has a missing cell, as [read_csv] has it.
    - [float64] values are IEEE 754 binary64 numbers, with their rounding,
      their infinities and [NaN], which is the missing value of a float
      column.  The sum of a column is NumPy's pairwise summation.
    - A Python [str] is represented by its UTF-8 encoding, a sequence of
      bytes; the order of the bytes is the order of the code points.  The
      case of a character is that of the Unicode Character Database,
      version 14.0, as CPython 3.11 has it.
    - Column labels are unique ([read_csv] mangles repeated labels), so
      [self.data[column]] is the column with that label and the loop over
      [self.data.columns] is a traversal of the columns.
    - The outside world is explicit: what [pd.read_csv] does on a path, what
      opening a path for writing does, the files written and the lines
      printed are fields of [World].  Asynchronous exceptions
      ([KeyboardInterrupt], [SystemExit]) are not modelled. *)

From Stdlib Require Import List String Ascii Bool Arith NArith ZArith Lia.
From Stdlib Require Import DecimalString DecimalPos DecimalZ Permutation Floats.
Import ListNotations.

(** Decimal literals of floats denote the nearest binary64 number, as in
    Python. *)
#[local] Set Warnings "-inexact-float".

Local Open Scope string_scope.
Local Open Scope list_scope.

(* ================================================================== *)
(** * Part I: the model *)
(* ================================================================== *)

(** ** Unicode: the case of a character

    The properties [Cased] and [Case_Ignorable] and the full lower-case
    and title-case mappings, as ranges of code points. *)

Module Unicode.

Definition cased_ranges : list (N * N) :=
  [
    (65, 90); (97, 122); (170, 170); (181, 181); (186, 186); (192, 214);
    (216, 246); (248, 442); (444, 447); (452, 659); (661, 696); (704, 705);
    (736, 740); (837, 837); (880, 883); (886, 887); (890, 893); (895, 895);
    (902, 902); (904, 906); (908, 908); (910, 929); (931, 1013); (1015, 1153);
    (1162, 1327); (1329, 1366); (1376, 1416); (4256, 4293); (4295, 4295);
    (4301, 4301); (4304, 4346); (4349, 4351); (5024, 5109); (5112, 5117);
    (7296, 7304); (7312, 7354); (7357, 7359); (7424, 7615); (7680, 7957);
    (7960, 7965); (7968, 8005); (8008, 8013); (8016, 8023); (8025, 8025);
    (8027, 8027); (8029, 8029); (8031, 8061); (8064, 8116); (8118, 8124);
    (8126, 8126); (8130, 8132); (8134, 8140); (8144, 8147); (8150, 8155);
    (8160, 8172); (8178, 8180); (8182, 8188); (8305, 8305); (8319, 8319);
    (8336, 8348); (8450, 8450); (8455, 8455); (8458, 8467); (8469, 8469);
    (8473, 8477); (8484, 8484); (8486, 8486); (8488, 8488); (8490, 8493);
    (8495, 8500); (8505, 8505); (8508, 8511); (8517, 8521); (8526, 8526);
    (8544, 8575); (8579, 8580); (9398, 9449); (11264, 11492); (11499, 11502);
    (11506, 11507); (11520, 11557); (11559, 11559); (11565, 11565);
    (42560, 42605); (42624, 42653); (42786, 42887); (42891, 42894);
    (42896, 42954); (42960, 42961); (42963, 42963); (42965, 42969);
    (42997, 42998); (43000, 43002); (43824, 43866); (43868, 43880);
    (43888, 43967); (64256, 64262); (64275, 64279); (65313, 65338);
    (65345, 65370); (66560, 66639); (66736, 66771); (66776, 66811);
    (66928, 66938); (66940, 66954); (66956, 66962); (66964, 66965);
    (66967, 66977); (66979, 66993); (66995, 67001); (67003, 67004);
    (67456, 67456); (67459, 67461); (67463, 67504); (67506, 67514);
    (68736, 68786); (68800, 68850); (71840, 71903); (93760, 93823);
    (119808, 119892); (119894, 119964); (119966, 119967); (119970, 119970);
    (119973, 119974); (119977, 119980); (119982, 119993); (119995, 119995);
    (119997, 120003); (120005, 120069); (120071, 120074); (120077, 120084);
    (120086, 120092); (120094, 120121); (120123, 120126); (120128, 120132);
    (120134, 120134); (120138, 120144); (120146, 120485); (120488, 120512);
    (120514, 120538); (120540, 120570); (120572, 120596); (120598, 120628);
    (120630, 120654); (120656, 120686); (120688, 120712); (120714, 120744);
    (120746, 120770); (120772, 120779); (122624, 122633); (122635, 122654);
    (125184, 125251); (127280, 127305); (127312, 127337); (127344, 127369) ]%N.

Definition case_ignorable_ranges : list (N * N) :=
  [
    (39, 39); (46, 46); (58, 58); (94, 94); (96, 96); (168, 168); (173, 173);
    (175, 175); (180, 180); (183, 184); (688, 879); (884, 885); (890, 890);
    (900, 901); (903, 903); (1155, 1161); (1369, 1369); (1375, 1375);
    (1425, 1469); (1471, 1471); (1473, 1474); (1476, 1477); (1479, 1479);
    (1524, 1524); (1536, 1541); (1552, 1562); (1564, 1564); (1600, 1600);
    (1611, 1631); (1648, 1648); (1750, 1757); (1759, 1768); (1770, 1773);
    (1807, 1807); (1809, 1809); (1840, 1866); (1958, 1968); (2027, 2037);
    (2042, 2042); (2045, 2045); (2070, 2093); (2137, 2139); (2184, 2184);
    (2192, 2193); (2200, 2207); (2249, 2306); (2362, 2362); (2364, 2364);
    (2369, 2376); (2381, 2381); (2385, 2391); (2402, 2403); (2417, 2417);
    (2433, 2433); (2492, 2492); (2497, 2500); (2509, 2509); (2530, 2531);
    (2558, 2558); (2561, 2562); (2620, 2620); (2625, 2626); (2631, 2632);
    (2635, 2637); (2641, 2641); (2672, 2673); (2677, 2677); (2689, 2690);
    (2748, 2748); (2753, 2757); (2759, 2760); (2765, 2765); (2786, 2787);
    (2810, 2815); (2817, 2817); (2876, 2876); (2879, 2879); (2881, 2884);
    (2893, 2893); (2901, 2902); (2914, 2915); (2946, 2946); (3008, 3008);
    (3021, 3021); (3072, 3072); (3076, 3076); (3132, 3132); (3134, 3136);
    (3142, 3144); (3146, 3149); (3157, 3158); (3170, 3171); (3201, 3201);
    (3260, 3260); (3263, 3263); (3270, 3270); (3276, 3277); (3298, 3299);
    (3328, 3329); (3387, 3388); (3393, 3396); (3405, 3405); (3426, 3427);
    (3457, 3457); (3530, 3530); (3538, 3540); (3542, 3542); (3633, 3633);
    (3636, 3642); (3654, 3662); (3761, 3761); (3764, 3772); (3782, 3782);
    (3784, 3789); (3864, 3865); (3893, 3893); (3895, 3895); (3897, 3897);
    (3953, 3966); (3968, 3972); (3974, 3975); (3981, 3991); (3993, 4028);
    (4038, 4038); (4141, 4144); (4146, 4151); (4153, 4154); (4157, 4158);
    (4184, 4185); (4190, 4192); (4209, 4212); (4226, 4226); (4229, 4230);
    (4237, 4237); (4253, 4253); (4348, 4348); (4957, 4959); (5906, 5908);
    (5938, 5939); (5970, 5971); (6002, 6003); (6068, 6069); (6071, 6077);
    (6086, 6086); (6089, 6099); (6103, 6103); (6109, 6109); (6155, 6159);
    (6211, 6211); (6277, 6278); (6313, 6313); (6432, 6434); (6439, 6440);
    (6450, 6450); (6457, 6459); (6679, 6680); (6683, 6683); (6742, 6742);
    (6744, 6750); (6752, 6752); (6754, 6754); (6757, 6764); (6771, 6780);
    (6783, 6783); (6823, 6823); (6832, 6862); (6912, 6915); (6964, 6964);
    (6966, 6970); (6972, 6972); (6978, 6978); (7019, 7027); (7040, 7041);
    (7074, 7077); (7080, 7081); (7083, 7085); (7142, 7142); (7144, 7145);
    (7149, 7149); (7151, 7153); (7212, 7219); (7222, 7223); (7288, 7293);
    (7376, 7378); (7380, 7392); (7394, 7400); (7405, 7405); (7412, 7412);
    (7416, 7417); (7468, 7530); (7544, 7544); (7579, 7679); (8125, 8125);
    (8127, 8129); (8141, 8143); (8157, 8159); (8173, 8175); (8189, 8190);
    (8203, 8207); (8216, 8217); (8228, 8228); (8231, 8231); (8234, 8238);
    (8288, 8292); (8294, 8303); (8305, 8305); (8319, 8319); (8336, 8348);
    (8400, 8432); (11388, 11389); (11503, 11505); (11631, 11631);
    (11647, 11647); (11744, 11775); (11823, 11823); (12293, 12293);
    (12330, 12333); (12337, 12341); (12347, 12347); (12441, 12446);
    (12540, 12542); (40981, 40981); (42232, 42237); (42508, 42508);
    (42607, 42610); (42612, 42621); (42623, 42623); (42652, 42655);
    (42736, 42737); (42752, 42785); (42864, 42864); (42888, 42890);
    (42994, 42996); (43000, 43001); (43010, 43010); (43014, 43014);
    (43019, 43019); (43045, 43046); (43052, 43052); (43204, 43205);
    (43232, 43249); (43263, 43263); (43302, 43309); (43335, 43345);
    (43392, 43394); (43443, 43443); (43446, 43449); (43452, 43453);
    (43471, 43471); (43493, 43494); (43561, 43566); (43569, 43570);
    (43573, 43574); (43587, 43587); (43596, 43596); (43632, 43632);
    (43644, 43644); (43696, 43696); (43698, 43700); (43703, 43704);
    (43710, 43711); (43713, 43713); (43741, 43741); (43756, 43757);
    (43763, 43764); (43766, 43766); (43867, 43871); (43881, 43883);
    (44005, 44005); (44008, 44008); (44013, 44013); (64286, 64286);
    (64434, 64450); (65024, 65039); (65043, 65043); (65056, 65071);
    (65106, 65106); (65109, 65109); (65279, 65279); (65287, 65287);
    (65294, 65294); (65306, 65306); (65342, 65342); (65344, 65344);
    (65392, 65392); (65438, 65439); (65507, 65507); (65529, 65531);
    (66045, 66045); (66272, 66272); (66422, 66426); (67456, 67461);
    (67463, 67504); (67506, 67514); (68097, 68099); (68101, 68102);
    (68108, 68111); (68152, 68154); (68159, 68159); (68325, 68326);
    (68900, 68903); (69291, 69292); (69446, 69456); (69506, 69509);
    (69633, 69633); (69688, 69702); (69744, 69744); (69747, 69748);
    (69759, 69761); (69811, 69814); (69817, 69818); (69821, 69821);
    (69826, 69826); (69837, 69837); (69888, 69890); (69927, 69931);
    (69933, 69940); (70003, 70003); (70016, 70017); (70070, 70078);
    (70089, 70092); (70095, 70095); (70191, 70193); (70196, 70196);
    (70198, 70199); (70206, 70206); (70367, 70367); (70371, 70378);
    (70400, 70401); (70459, 70460); (70464, 70464); (70502, 70508);
    (70512, 70516); (70712, 70719); (70722, 70724); (70726, 70726);
    (70750, 70750); (70835, 70840); (70842, 70842); (70847, 70848);
    (70850, 70851); (71090, 71093); (71100, 71101); (71103, 71104);
    (71132, 71133); (71219, 71226); (71229, 71229); (71231, 71232);
    (71339, 71339); (71341, 71341); (71344, 71349); (71351, 71351);
    (71453, 71455); (71458, 71461); (71463, 71467); (71727, 71735);
    (71737, 71738); (71995, 71996); (71998, 71998); (72003, 72003);
    (72148, 72151); (72154, 72155); (72160, 72160); (72193, 72202);
    (72243, 72248); (72251, 72254); (72263, 72263); (72273, 72278);
    (72281, 72283); (72330, 72342); (72344, 72345); (72752, 72758);
    (72760, 72765); (72767, 72767); (72850, 72871); (72874, 72880);
    (72882, 72883); (72885, 72886); (73009, 73014); (73018, 73018);
    (73020, 73021); (73023, 73029); (73031, 73031); (73104, 73105);
    (73109, 73109); (73111, 73111); (73459, 73460); (78896, 78904);
    (92912, 92916); (92976, 92982); (92992, 92995); (94031, 94031);
    (94095, 94111); (94176, 94177); (94179, 94180); (110576, 110579);
    (110581, 110587); (110589, 110590); (113821, 113822); (113824, 113827);
    (118528, 118573); (118576, 118598); (119143, 119145); (119155, 119170);
    (119173, 119179); (119210, 119213); (119362, 119364); (121344, 121398);
    (121403, 121452); (121461, 121461); (121476, 121476); (121499, 121503);
    (121505, 121519); (122880, 122886); (122888, 122904); (122907, 122913);
    (122915, 122916); (122918, 122922); (123184, 123197); (123566, 123566);
    (123628, 123631); (125136, 125142); (125252, 125259); (127995, 127999);
    (917505, 917505); (917536, 917631); (917760, 917999) ]%N.

Definition lower_ranges : list (N * N * N * N) :=
  [
    (65, 90, 1, 97); (192, 214, 1, 224); (216, 222, 1, 248);
    (256, 302, 2, 257); (306, 310, 2, 307); (313, 327, 2, 314);
    (330, 374, 2, 331); (376, 376, 1, 255); (377, 381, 2, 378);
    (385, 385, 1, 595); (386, 388, 2, 387); (390, 390, 1, 596);
    (391, 391, 1, 392); (393, 394, 1, 598); (395, 395, 1, 396);
    (398, 398, 1, 477); (399, 399, 1, 601); (400, 400, 1, 603);
    (401, 401, 1, 402); (403, 403, 1, 608); (404, 404, 1, 611);
    (406, 406, 1, 617); (407, 407, 1, 616); (408, 408, 1, 409);
    (412, 412, 1, 623); (413, 413, 1, 626); (415, 415, 1, 629);
    (416, 420, 2, 417); (422, 422, 1, 640); (423, 423, 1, 424);
    (425, 425, 1, 643); (428, 428, 1, 429); (430, 430, 1, 648);
    (431, 431, 1, 432); (433, 434, 1, 650); (435, 437, 2, 436);
    (439, 439, 1, 658); (440, 440, 1, 441); (444, 444, 1, 445);
    (452, 452, 1, 454); (453, 453, 1, 454); (455, 455, 1, 457);
    (456, 456, 1, 457); (458, 458, 1, 460); (459, 475, 2, 460);
    (478, 494, 2, 479); (497, 497, 1, 499); (498, 500, 2, 499);
    (502, 502, 1, 405); (503, 503, 1, 447); (504, 542, 2, 505);
    (544, 544, 1, 414); (546, 562, 2, 547); (570, 570, 1, 11365);
    (571, 571, 1, 572); (573, 573, 1, 410); (574, 574, 1, 11366);
    (577, 577, 1, 578); (579, 579, 1, 384); (580, 580, 1, 649);
    (581, 581, 1, 652); (582, 590, 2, 583); (880, 882, 2, 881);
    (886, 886, 1, 887); (895, 895, 1, 1011); (902, 902, 1, 940);
    (904, 906, 1, 941); (908, 908, 1, 972); (910, 911, 1, 973);
    (913, 929, 1, 945); (931, 939, 1, 963); (975, 975, 1, 983);
    (984, 1006, 2, 985); (1012, 1012, 1, 952); (1015, 1015, 1, 1016);
    (1017, 1017, 1, 1010); (1018, 1018, 1, 1019); (1021, 1023, 1, 891);
    (1024, 1039, 1, 1104); (1040, 1071, 1, 1072); (1120, 1152, 2, 1121);
    (1162, 1214, 2, 1163); (1216, 1216, 1, 1231); (1217, 1229, 2, 1218);
    (1232, 1326, 2, 1233); (1329, 1366, 1, 1377); (4256, 4293, 1, 11520);
    (4295, 4295, 1, 11559); (4301, 4301, 1, 11565); (5024, 5103, 1, 43888);
    (5104, 5109, 1, 5112); (7312, 7354, 1, 4304); (7357, 7359, 1, 4349);
    (7680, 7828, 2, 7681); (7838, 7838, 1, 223); (7840, 7934, 2, 7841);
    (7944, 7951, 1, 7936); (7960, 7965, 1, 7952); (7976, 7983, 1, 7968);
    (7992, 7999, 1, 7984); (8008, 8013, 1, 8000); (8025, 8031, 2, 8017);
    (8040, 8047, 1, 8032); (8072, 8079, 1, 8064); (8088, 8095, 1, 8080);
    (8104, 8111, 1, 8096); (8120, 8121, 1, 8112); (8122, 8123, 1, 8048);
    (8124, 8124, 1, 8115); (8136, 8139, 1, 8050); (8140, 8140, 1, 8131);
    (8152, 8153, 1, 8144); (8154, 8155, 1, 8054); (8168, 8169, 1, 8160);
    (8170, 8171, 1, 8058); (8172, 8172, 1, 8165); (8184, 8185, 1, 8056);
    (8186, 8187, 1, 8060); (8188, 8188, 1, 8179); (8486, 8486, 1, 969);
    (8490, 8490, 1, 107); (8491, 8491, 1, 229); (8498, 8498, 1, 8526);
    (8544, 8559, 1, 8560); (8579, 8579, 1, 8580); (9398, 9423, 1, 9424);
    (11264, 11311, 1, 11312); (11360, 11360, 1, 11361);
    (11362, 11362, 1, 619); (11363, 11363, 1, 7549); (11364, 11364, 1, 637);
    (11367, 11371, 2, 11368); (11373, 11373, 1, 593); (11374, 11374, 1, 625);
    (11375, 11375, 1, 592); (11376, 11376, 1, 594); (11378, 11378, 1, 11379);
    (11381, 11381, 1, 11382); (11390, 11391, 1, 575);
    (11392, 11490, 2, 11393); (11499, 11501, 2, 11500);
    (11506, 11506, 1, 11507); (42560, 42604, 2, 42561);
    (42624, 42650, 2, 42625); (42786, 42798, 2, 42787);
    (42802, 42862, 2, 42803); (42873, 42875, 2, 42874);
    (42877, 42877, 1, 7545); (42878, 42886, 2, 42879);
    (42891, 42891, 1, 42892); (42893, 42893, 1, 613);
    (42896, 42898, 2, 42897); (42902, 42920, 2, 42903);
    (42922, 42922, 1, 614); (42923, 42923, 1, 604); (42924, 42924, 1, 609);
    (42925, 42925, 1, 620); (42926, 42926, 1, 618); (42928, 42928, 1, 670);
    (42929, 42929, 1, 647); (42930, 42930, 1, 669); (42931, 42931, 1, 43859);
    (42932, 42946, 2, 42933); (42948, 42948, 1, 42900);
    (42949, 42949, 1, 642); (42950, 42950, 1, 7566); (42951, 42953, 2, 42952);
    (42960, 42960, 1, 42961); (42966, 42968, 2, 42967);
    (42997, 42997, 1, 42998); (65313, 65338, 1, 65345);
    (66560, 66599, 1, 66600); (66736, 66771, 1, 66776);
    (66928, 66938, 1, 66967); (66940, 66954, 1, 66979);
    (66956, 66962, 1, 66995); (66964, 66965, 1, 67003);
    (68736, 68786, 1, 68800); (71840, 71871, 1, 71872);
    (93760, 93791, 1, 93792); (125184, 125217, 1, 125218) ]%N.

Definition lower_special : list (N * list N) :=
  [
    (304, [105; 775]) ]%N.

Definition title_ranges : list (N * N * N * N) :=
  [
    (97, 122, 1, 65); (181, 181, 1, 924); (224, 246, 1, 192);
    (248, 254, 1, 216); (255, 255, 1, 376); (257, 303, 2, 256);
    (305, 305, 1, 73); (307, 311, 2, 306); (314, 328, 2, 313);
    (331, 375, 2, 330); (378, 382, 2, 377); (383, 383, 1, 83);
    (384, 384, 1, 579); (387, 389, 2, 386); (392, 392, 1, 391);
    (396, 396, 1, 395); (402, 402, 1, 401); (405, 405, 1, 502);
    (409, 409, 1, 408); (410, 410, 1, 573); (414, 414, 1, 544);
    (417, 421, 2, 416); (424, 424, 1, 423); (429, 429, 1, 428);
    (432, 432, 1, 431); (436, 438, 2, 435); (441, 441, 1, 440);
    (445, 445, 1, 444); (447, 447, 1, 503); (452, 452, 1, 453);
    (454, 454, 1, 453); (455, 455, 1, 456); (457, 457, 1, 456);
    (458, 458, 1, 459); (460, 476, 2, 459); (477, 477, 1, 398);
    (479, 495, 2, 478); (497, 497, 1, 498); (499, 501, 2, 498);
    (505, 543, 2, 504); (547, 563, 2, 546); (572, 572, 1, 571);
    (575, 576, 1, 11390); (578, 578, 1, 577); (583, 591, 2, 582);
    (592, 592, 1, 11375); (593, 593, 1, 11373); (594, 594, 1, 11376);
    (595, 595, 1, 385); (596, 596, 1, 390); (598, 599, 1, 393);
    (601, 601, 1, 399); (603, 603, 1, 400); (604, 604, 1, 42923);
    (608, 608, 1, 403); (609, 609, 1, 42924); (611, 611, 1, 404);
    (613, 613, 1, 42893); (614, 614, 1, 42922); (616, 616, 1, 407);
    (617, 617, 1, 406); (618, 618, 1, 42926); (619, 619, 1, 11362);
    (620, 620, 1, 42925); (623, 623, 1, 412); (625, 625, 1, 11374);
    (626, 626, 1, 413); (629, 629, 1, 415); (637, 637, 1, 11364);
    (640, 640, 1, 422); (642, 642, 1, 42949); (643, 643, 1, 425);
    (647, 647, 1, 42929); (648, 648, 1, 430); (649, 649, 1, 580);
    (650, 651, 1, 433); (652, 652, 1, 581); (658, 658, 1, 439);
    (669, 669, 1, 42930); (670, 670, 1, 42928); (837, 837, 1, 921);
    (881, 883, 2, 880); (887, 887, 1, 886); (891, 893, 1, 1021);
    (940, 940, 1, 902); (941, 943, 1, 904); (945, 961, 1, 913);
    (962, 962, 1, 931); (963, 971, 1, 931); (972, 972, 1, 908);
    (973, 974, 1, 910); (976, 976, 1, 914); (977, 977, 1, 920);
    (981, 981, 1, 934); (982, 982, 1, 928); (983, 983, 1, 975);
    (985, 1007, 2, 984); (1008, 1008, 1, 922); (1009, 1009, 1, 929);
    (1010, 1010, 1, 1017); (1011, 1011, 1, 895); (1013, 1013, 1, 917);
    (1016, 1016, 1, 1015); (1019, 1019, 1, 1018); (1072, 1103, 1, 1040);
    (1104, 1119, 1, 1024); (1121, 1153, 2, 1120); (1163, 1215, 2, 1162);
    (1218, 1230, 2, 1217); (1231, 1231, 1, 1216); (1233, 1327, 2, 1232);
    (1377, 1414, 1, 1329); (5112, 5117, 1, 5104); (7296, 7296, 1, 1042);
    (7297, 7297, 1, 1044); (7298, 7298, 1, 1054); (7299, 7300, 1, 1057);
    (7301, 7301, 1, 1058); (7302, 7302, 1, 1066); (7303, 7303, 1, 1122);
    (7304, 7304, 1, 42570); (7545, 7545, 1, 42877); (7549, 7549, 1, 11363);
    (7566, 7566, 1, 42950); (7681, 7829, 2, 7680); (7835, 7835, 1, 7776);
    (7841, 7935, 2, 7840); (7936, 7943, 1, 7944); (7952, 7957, 1, 7960);
    (7968, 7975, 1, 7976); (7984, 7991, 1, 7992); (8000, 8005, 1, 8008);
    (8017, 8023, 2, 8025); (8032, 8039, 1, 8040); (8048, 8049, 1, 8122);
    (8050, 8053, 1, 8136); (8054, 8055, 1, 8154); (8056, 8057, 1, 8184);
    (8058, 8059, 1, 8170); (8060, 8061, 1, 8186); (8064, 8071, 1, 8072);
    (8080, 8087, 1, 8088); (8096, 8103, 1, 8104); (8112, 8113, 1, 8120);
    (8115, 8115, 1, 8124); (8126, 8126, 1, 921); (8131, 8131, 1, 8140);
    (8144, 8145, 1, 8152); (8160, 8161, 1, 8168); (8165, 8165, 1, 8172);
    (8179, 8179, 1, 8188); (8526, 8526, 1, 8498); (8560, 8575, 1, 8544);
    (8580, 8580, 1, 8579); (9424, 9449, 1, 9398); (11312, 11359, 1, 11264);
    (11361, 11361, 1, 11360); (11365, 11365, 1, 570); (11366, 11366, 1, 574);
    (11368, 11372, 2, 11367); (11379, 11379, 1, 11378);
    (11382, 11382, 1, 11381); (11393, 11491, 2, 11392);
    (11500, 11502, 2, 11499); (11507, 11507, 1, 11506);
    (11520, 11557, 1, 4256); (11559, 11559, 1, 4295); (11565, 11565, 1, 4301);
    (42561, 42605, 2, 42560); (42625, 42651, 2, 42624);
    (42787, 42799, 2, 42786); (42803, 42863, 2, 42802);
    (42874, 42876, 2, 42873); (42879, 42887, 2, 42878);
    (42892, 42892, 1, 42891); (42897, 42899, 2, 42896);
    (42900, 42900, 1, 42948); (42903, 42921, 2, 42902);
    (42933, 42947, 2, 42932); (42952, 42954, 2, 42951);
    (42961, 42961, 1, 42960); (42967, 42969, 2, 42966);
    (42998, 42998, 1, 42997); (43859, 43859, 1, 42931);
    (43888, 43967, 1, 5024); (65345, 65370, 1, 65313);
    (66600, 66639, 1, 66560); (66776, 66811, 1, 66736);
    (66967, 66977, 1, 66928); (66979, 66993, 1, 66940);
    (66995, 67001, 1, 66956); (67003, 67004, 1, 66964);
    (68800, 68850, 1, 68736); (71872, 71903, 1, 71840);
    (93792, 93823, 1, 93760); (125218, 125251, 1, 125184) ]%N.

Definition title_special : list (N * list N) :=
  [
    (223, [83; 115]); (329, [700; 78]); (496, [74; 780]);
    (912, [921; 776; 769]); (944, [933; 776; 769]); (1415, [1333; 1410]);
    (7830, [72; 817]); (7831, [84; 776]); (7832, [87; 778]);
    (7833, [89; 778]); (7834, [65; 702]); (8016, [933; 787]);
    (8018, [933; 787; 768]); (8020, [933; 787; 769]); (8022, [933; 787; 834]);
    (8114, [8122; 837]); (8116, [902; 837]); (8118, [913; 834]);
    (8119, [913; 834; 837]); (8130, [8138; 837]); (8132, [905; 837]);
    (8134, [919; 834]); (8135, [919; 834; 837]); (8146, [921; 776; 768]);
    (8147, [921; 776; 769]); (8150, [921; 834]); (8151, [921; 776; 834]);
    (8162, [933; 776; 768]); (8163, [933; 776; 769]); (8164, [929; 787]);
    (8166, [933; 834]); (8167, [933; 776; 834]); (8178, [8186; 837]);
    (8180, [911; 837]); (8182, [937; 834]); (8183, [937; 834; 837]);
    (64256, [70; 102]); (64257, [70; 105]); (64258, [70; 108]);
    (64259, [70; 102; 105]); (64260, [70; 102; 108]); (64261, [83; 116]);
    (64262, [83; 116]); (64275, [1348; 1398]); (64276, [1348; 1381]);
    (64277, [1348; 1387]); (64278, [1358; 1398]); (64279, [1348; 1389]) ]%N.

(** [c] lies in one of the ranges [(first, last)]. *)
Definition in_ranges (c : N) (ranges : list (N * N)) : bool :=
  existsb (fun r => (fst r <=? c)%N && (c <=? snd r)%N) ranges.

(** A run [(first, last, step, image)] sends [first], [first + step], ...,
    [last] to [image], [image + step], ... *)
Fixpoint shifted (c : N) (runs : list (N * N * N * N)) : option N :=
  match runs with
  | [] => None
  | (first, last, step, image) :: runs' =>
      if (first <=? c)%N && (c <=? last)%N && ((c - first) mod step =? 0)%N
      then Some (image + (c - first))%N
      else shifted c runs'
  end.

Fixpoint special (c : N) (table : list (N * list N)) : option (list N) :=
  match table with
  | [] => None
  | (d, image) :: table' => if (c =? d)%N then Some image else special c table'
  end.

(** The image of [c]: several code points when the table of special
    mappings says so, one when a run moves it, and [c] itself otherwise. *)
Definition mapped (c : N) (table : list (N * list N))
    (runs : list (N * N * N * N)) : list N :=
  match special c table with
  | Some image => image
  | None => match shifted c runs with
            | Some d => [d]
            | None => [c]
            end
  end.

Definition is_cased (c : N) : bool := in_ranges c cased_ranges.

Definition is_case_ignorable (c : N) : bool := in_ranges c case_ignorable_ranges.

Definition to_lower_full (c : N) : list N := mapped c lower_special lower_ranges.

Definition to_title_full (c : N) : list N := mapped c title_special title_ranges.

End Unicode.

(** ** Python: exceptions, results and strings *)

Module Py.

(** The exception classes that the program names or that the library
    calls it makes can raise. *)
Inductive exn_class : Type :=
| Exception
| AttributeError
| LookupError
| KeyError
| ValueError
| UnicodeDecodeError
| OSError
| FileNotFoundError
| PermissionError
| IsADirectoryError
| EmptyDataError      (* pandas.errors.EmptyDataError *)
| ParserError.        (* pandas.errors.ParserError *)

(** The direct base class ([Exception] derives from [BaseException],
    which is not modelled). *)
Definition base (c : exn_class) : option exn_class :=
  match c with
  | Exception => None
  | AttributeError => Some Exception
  | LookupError => Some Exception
  | KeyError => Some LookupError
  | ValueError => Some Exception
  | UnicodeDecodeError => Some ValueError
  | OSError => Some Exception
  | FileNotFoundError => Some OSError
  | PermissionError => Some OSError
  | IsADirectoryError => Some OSError
  | EmptyDataError => Some ValueError
  | ParserError => Some ValueError
  end.

Definition exn_class_eqb (c d : exn_class) : bool :=
  match c, d with
  | Exception, Exception | AttributeError, AttributeError
  | LookupError, LookupError | KeyError, KeyError
  | ValueError, ValueError | UnicodeDecodeError, UnicodeDecodeError
  | OSError, OSError | FileNotFoundError, FileNotFoundError
  | PermissionError, PermissionError
  | IsADirectoryError, IsADirectoryError
  | EmptyDataError, EmptyDataError | ParserError, ParserError => true
  | _, _ => false
  end.

Fixpoint issubclass_upto (depth : nat) (c d : exn_class) : bool :=
  exn_class_eqb c d ||
  match depth, base c with
  | S depth', Some b => issubclass_upto depth' b d
  | _, _ => false
  end.

(** The hierarchy above is three levels deep. *)
Definition issubclass (c d : exn_class) : bool := issubclass_upto 3 c d.

(** An exception object: its class and [str(e)]. *)
Record exn : Type := mk_exn { exn_cls : exn_class; exn_msg : string }.

Definition isinstance (e : exn) (c : exn_class) : bool :=
  issubclass (exn_cls e) c.

(** The outcome of evaluating an expression or running a statement. *)
Inductive result (A : Type) : Type :=
| Ok (a : A)
| Raise (e : exn).

Arguments Ok {A} a.
Arguments Raise {A} e.

Definition result_bind {A B} (r : result A) (k : A -> result B) : result B :=
  match r with
  | Ok a => k a
  | Raise e => Raise e
  end.

(** A loop body run over a list, left to right; the first exception
    ends the loop. *)
Fixpoint for_each {A B} (body : A -> result B) (l : list A) : result (list B) :=
  match l with
  | [] => Ok []
  | x :: l' =>
      result_bind (body x) (fun y =>
      result_bind (for_each body l') (fun ys => Ok (y :: ys)))
  end.

(** [str(n)] for an integer. *)
Definition str_of_Z (z : Z) : string := NilZero.string_of_int (Z.to_int z).

(** *** The code points of a string

    A code point below 128 is one byte; the others are two to four bytes,
    a leading byte that tells how many follow and continuation bytes of
    six bits each.  The text of a cell is well-formed UTF-8; on other
    byte strings the decoder is not meaningful. *)

Fixpoint decode_utf8_from (more : nat) (point : N) (s : string) : list N :=
  match s with
  | EmptyString => []
  | String a s' =>
      let b := N_of_ascii a in
      match more with
      | S more' =>
          let point' := (point * 64 + b mod 64)%N in
          match more' with
          | O => point' :: decode_utf8_from 0 0%N s'
          | S _ => decode_utf8_from more' point' s'
          end
      | O =>
          if (b <? 128)%N then b :: decode_utf8_from 0 0%N s'
          else if (b <? 224)%N then decode_utf8_from 1 (b mod 32)%N s'
          else if (b <? 240)%N then decode_utf8_from 2 (b mod 16)%N s'
          else decode_utf8_from 3 (b mod 8)%N s'
      end
  end.

Definition decode_utf8 (s : string) : list N := decode_utf8_from 0 0%N s.

Definition continuation (bits : N) : ascii := ascii_of_N (128 + bits mod 64)%N.

Definition encode_point (c : N) : string :=
  if (c <? 128)%N then String (ascii_of_N c) EmptyString
  else if (c <? 2048)%N then
    String (ascii_of_N (192 + c / 64)%N)
      (String (continuation c) EmptyString)
  else if (c <? 65536)%N then
    String (ascii_of_N (224 + c / 4096)%N)
      (String (continuation (c / 64))
         (String (continuation c) EmptyString))
  else
    String (ascii_of_N (240 + c / 262144)%N)
      (String (continuation (c / 4096))
         (String (continuation (c / 64))
            (String (continuation c) EmptyString))).

Fixpoint encode_utf8 (points : list N) : string :=
  match points with
  | [] => EmptyString
  | c :: points' => encode_point c ++ encode_utf8 points'
  end.

(** *** [str.title]

    CPython walks the code points once; a character is mapped to title
    case when the character before it is not cased and to lower case when
    it is.  The lower case of a capital sigma depends on its context. *)

Fixpoint skip_case_ignorable (l : list N) : list N :=
  match l with
  | [] => []
  | c :: l' => if Unicode.is_case_ignorable c then skip_case_ignorable l' else l
  end.

(** The sigma is the last letter of a word: a cased character comes
    before it and none comes after it, case-ignorable characters apart.
    [before] holds the characters before the sigma, the nearest first. *)
Definition final_sigma (before after : list N) : bool :=
  match skip_case_ignorable before with
  | c :: _ => Unicode.is_cased c
  | [] => false
  end &&
  match skip_case_ignorable after with
  | c :: _ => negb (Unicode.is_cased c)
  | [] => true
  end.

Definition lower_at (before : list N) (c : N) (after : list N) : list N :=
  if (c =? 931)%N then [if final_sigma before after then 962%N else 963%N]
  else Unicode.to_lower_full c.

Fixpoint title_points (previous_is_cased : bool) (before s : list N) : list N :=
  match s with
  | [] => []
  | c :: s' =>
      (if previous_is_cased then lower_at before c s' else Unicode.to_title_full c)
      ++ title_points (Unicode.is_cased c) (c :: before) s'
  end.

Definition title (s : string) : string :=
  encode_utf8 (title_points false [] (decode_utf8 s)).

(** [str.isspace] on one ASCII character: space, and the controls
    [\t \n \v \f \r] and [\x1c .. \x1f]. *)
Definition is_space (c : ascii) : bool :=
  let n := nat_of_ascii c in
  (n =? 32)%nat || ((9 <=? n)%nat && (n <=? 13)%nat)
  || ((28 <=? n)%nat && (n <=? 31)%nat).

End Py.

Import Py.


(** ** NumPy and pandas: columns, frames and the operations the program calls *)

Module Pandas.

Inductive dtype : Type := int64 | float64 | bool_ | object_ | datetime64.

Definition dtype_eqb (a b : dtype) : bool :=
  match a, b with
  | int64, int64 | float64, float64 | bool_, bool_
  | object_, object_ | datetime64, datetime64 => true
  | _, _ => false
  end.

(** The values of a column, by the kind of value it holds.  In a column
    of floats the missing value is [NaN]; in the others it is [None].
    Timestamps are nanoseconds since the epoch. *)
Inductive column_data : Type :=
| Int64Col (v : list Z)
| Float64Col (v : list float)
| BoolCol (v : list (option bool))
| ObjectCol (v : list (option string))
| DatetimeCol (v : list (option Z)).

Record Series : Type := mk_series { name : string; values : column_data }.

Definition isnull {A} (x : option A) : bool :=
  match x with None => true | Some _ => false end.

(** A column of booleans is a [bool] column as long as no cell is
    missing; with a missing cell it is an [object] column. *)
Definition dtype_of (s : Series) : dtype :=
  match values s with
  | Int64Col _ => int64
  | Float64Col _ => float64
  | BoolCol v => if existsb isnull v then object_ else bool_
  | ObjectCol _ => object_
  | DatetimeCol _ => datetime64
  end.

(** [d in [d1, ..., dn]] on dtypes. *)
Definition dtype_in (d : dtype) (l : list dtype) : bool :=
  existsb (dtype_eqb d) l.

(** [pd.api.types.is_datetime64_any_dtype] and
    [pd.api.types.is_string_dtype] (true of every [object] column in
    pandas 1.x). *)
Definition is_datetime64_any_dtype (s : Series) : bool :=
  dtype_eqb (dtype_of s) datetime64.

Definition is_string_dtype (s : Series) : bool :=
  dtype_eqb (dtype_of s) object_.

(** A cell seen without its column: the element of a row. *)
Inductive scalar : Type :=
| SInt (z : Z)
| SFloat (x : float)
| SBool (b : bool)
| SStr (s : string)
| STime (t : Z).

Definition cell : Type := option scalar.
Definition row : Type := list cell.

(** The cell of a float: [NaN] is the missing cell.  pandas compares
    the two zeros equal, and a cell holds the value as pandas compares
    it, so both zeros are the cell [0.0]. *)
Definition float_cell (x : float) : cell :=
  if PrimFloat.is_nan x then None
  else Some (SFloat (if PrimFloat.eqb x 0 then 0%float else x)).

Definition cells (c : column_data) : list cell :=
  match c with
  | Int64Col v => map (fun z => Some (SInt z)) v
  | Float64Col v => map float_cell v
  | BoolCol v => map (option_map SBool) v
  | ObjectCol v => map (option_map SStr) v
  | DatetimeCol v => map (option_map STime) v
  end.

(** The same number: the same sign, mantissa and exponent. *)
Definition same_number (a b : spec_float) : bool :=
  match a, b with
  | S754_zero s, S754_zero t => Bool.eqb s t
  | S754_infinity s, S754_infinity t => Bool.eqb s t
  | S754_nan, S754_nan => true
  | S754_finite s m e, S754_finite t n f =>
      Bool.eqb s t && Pos.eqb m n && Z.eqb e f
  | _, _ => false
  end.

Definition float_eqb (x y : float) : bool := same_number (Prim2SF x) (Prim2SF y).

Definition scalar_eqb (a b : scalar) : bool :=
  match a, b with
  | SInt x, SInt y => Z.eqb x y
  | SFloat x, SFloat y => float_eqb x y
  | SBool x, SBool y => Bool.eqb x y
  | SStr x, SStr y => String.eqb x y
  | STime x, STime y => Z.eqb x y
  | _, _ => false
  end.

(** Two missing cells count as equal when rows are compared. *)
Definition cell_eqb (a b : cell) : bool :=
  match a, b with
  | Some x, Some y => scalar_eqb x y
  | None, None => true
  | _, _ => false
  end.

Fixpoint row_eqb (r1 r2 : row) : bool :=
  match r1, r2 with
  | [], [] => true
  | a :: r1', b :: r2' => cell_eqb a b && row_eqb r1' r2'
  | _, _ => false
  end.

(** A frame: the row labels and the columns, every column as long as
    the index. *)
Record DataFrame : Type := mk_df { index : list nat; columns : list Series }.

Definition column_length (s : Series) : nat := List.length (cells (values s)).

(** [df.shape[0]] *)
Definition shape0 (df : DataFrame) : nat := List.length (index df).

(** [df.empty]: some axis has length 0. *)
Definition empty (df : DataFrame) : bool :=
  (shape0 df =? 0)%nat || (List.length (columns df) =? 0)%nat.

(** The first [n] rows of a list of columns. *)
Fixpoint transpose (n : nat) (cols : list (list cell)) : list row :=
  match n with
  | O => []
  | S n' => map (hd None) cols :: transpose n' (map (@tl cell) cols)
  end.

Definition rows (df : DataFrame) : list row :=
  transpose (shape0 df) (map (fun s => cells (values s)) (columns df)).

(** *** Missing values *)

(** [Series.isnull().sum()] *)
Definition null_count (s : Series) : nat :=
  List.length (filter isnull (cells (values s))).

Fixpoint dropna {A} (v : list (option A)) : list A :=
  match v with
  | [] => []
  | Some x :: v' => x :: dropna v'
  | None :: v' => dropna v'
  end.

(** [Series.fillna(value)] on a column of booleans, strings or
    timestamps, and on a column of floats, where filling with [NaN]
    changes nothing. *)
Definition fillna {A} (value : A) (v : list (option A)) : list (option A) :=
  map (fun x => match x with Some _ => x | None => Some value end) v.

Definition fillna_float (value : float) (v : list float) : list float :=
  map (fun x => if PrimFloat.is_nan x then value else x) v.

(** *** [ndarray.sum]

    NumPy adds the elements of a float array pairwise: up to 7 elements
    one after the other; up to 128 elements in eight running sums that
    take every eighth element each and are added up at the end, before the
    elements left over; beyond that, the two halves are summed on their
    own, the first half being a multiple of 8 long. *)

Definition add_all (start : float) (a : list float) : float :=
  fold_left PrimFloat.add a start.

Definition add_lanes (r block : list float) : list float :=
  map (fun p => (fst p + snd p)%float) (combine r block).

Fixpoint unrolled_sum (r a : list float) : float :=
  match a with
  | a0 :: a1 :: a2 :: a3 :: a4 :: a5 :: a6 :: a7 :: a' =>
      unrolled_sum (add_lanes r [a0; a1; a2; a3; a4; a5; a6; a7]) a'
  | _ =>
      match r with
      | [r0; r1; r2; r3; r4; r5; r6; r7] =>
          add_all (((r0 + r1) + (r2 + r3)) + ((r4 + r5) + (r6 + r7)))%float a
      | _ => add_all (add_all 0%float r) a
      end
  end.

(** [depth] bounds the number of times the array is halved. *)
Fixpoint pairwise_sum (depth : nat) (a : list float) : float :=
  let n := List.length a in
  if (n <? 8)%nat then add_all 0%float a
  else
    match depth with
    | S depth' =>
        if (n <=? 128)%nat then unrolled_sum (firstn 8 a) (skipn 8 a)
        else
          let n2 := (n / 2 - (n / 2) mod 8)%nat in
          (pairwise_sum depth' (firstn n2 a) + pairwise_sum depth' (skipn n2 a))%float
    | O => unrolled_sum (firstn 8 a) (skipn 8 a)
    end.

(** The reduction starts from the identity of the addition. *)
Definition np_sum (a : list float) : float :=
  (0 + pairwise_sum (List.length a) a)%float.

(** *** [Series.mean]

    The missing cells count as 0 in the sum and not at all in the
    count; without a present value the mean is [NaN]. *)

Definition notna (v : list float) : list float :=
  filter (fun x => negb (PrimFloat.is_nan x)) v.

Definition float_of_nat (n : nat) : float :=
  PrimFloat.of_uint63 (Uint63.of_Z (Z.of_nat n)).

Definition mean (v : list float) : float :=
  let count := List.length (notna v) in
  let the_sum := np_sum (fillna_float 0%float v) in
  if (0 <? count)%nat then (the_sum / float_of_nat count)%float else nan.

(** *** [Series.mode]

    The values that occur most often among the present ones, sorted. *)

Class Ordered (A : Type) : Type := { eqb : A -> A -> bool; leb : A -> A -> bool }.

#[export] Instance Ordered_string : Ordered string :=
  {| eqb := String.eqb; leb := String.leb |}.
#[export] Instance Ordered_bool : Ordered bool :=
  {| eqb := Bool.eqb; leb := implb |}.
#[export] Instance Ordered_Z : Ordered Z :=
  {| eqb := Z.eqb; leb := Z.leb |}.

Section Mode.
Context {A : Type} `{Ordered A}.

Definition count (x : A) (l : list A) : nat := List.length (filter (eqb x) l).

(** The distinct values, in order of first appearance. *)
Fixpoint unique_from (seen l : list A) : list A :=
  match l with
  | [] => []
  | x :: l' =>
      if existsb (eqb x) seen then unique_from seen l'
      else x :: unique_from (x :: seen) l'
  end.

Definition unique (l : list A) : list A := unique_from [] l.

Definition max_count (l : list A) : nat :=
  fold_right Nat.max 0%nat (map (fun x => count x l) l).

Fixpoint insert_sorted (x : A) (l : list A) : list A :=
  match l with
  | [] => [x]
  | y :: l' => if leb x y then x :: y :: l' else y :: insert_sorted x l'
  end.

Definition sort (l : list A) : list A := fold_right insert_sorted [] l.

Definition mode (v : list (option A)) : list A :=
  let present := dropna v in
  sort (filter (fun x => (count x present =? max_count present)%nat)
               (unique present)).
End Mode.

(** [s[0]] on the result of [mode()], whose index is [0 .. n-1]. *)
Definition getitem0 {A} (l : list A) : result A :=
  match l with
  | x :: _ => Ok x
  | [] => Raise (mk_exn KeyError "0")
  end.

(** *** [DataFrame.drop_duplicates] *)

(** [duplicated(keep='first')]: one pass that remembers the rows seen. *)
Fixpoint duplicated_from (seen rs : list row) : list bool :=
  match rs with
  | [] => []
  | r :: rs' =>
      if existsb (row_eqb r) seen then true :: duplicated_from seen rs'
      else false :: duplicated_from (r :: seen) rs'
  end.

Definition duplicated (df : DataFrame) : list bool := duplicated_from [] (rows df).

(** Boolean indexing: the elements whose mask is [true]. *)
Fixpoint select {A} (mask : list bool) (l : list A) : list A :=
  match mask, l with
  | b :: mask', x :: l' => if b then x :: select mask' l' else select mask' l'
  | _, _ => []
  end.

Definition select_column (mask : list bool) (s : Series) : Series :=
  mk_series (name s)
    match values s with
    | Int64Col v => Int64Col (select mask v)
    | Float64Col v => Float64Col (select mask v)
    | BoolCol v => BoolCol (select mask v)
    | ObjectCol v => ObjectCol (select mask v)
    | DatetimeCol v => DatetimeCol (select mask v)
    end.

Definition drop_duplicates (df : DataFrame) : DataFrame :=
  if empty df then df
  else
    let keep := map negb (duplicated df) in
    mk_df (select keep (index df)) (map (select_column keep) (columns df)).

(** *** [Series.str.title] and [pd.to_datetime] *)

(** The [.str] accessor of a column whose dtype is [object] looks at the
    present values: it takes strings, and a column without a present
    value; it refuses booleans. *)
Definition str_title (c : column_data) : result column_data :=
  match c with
  | ObjectCol v => Ok (ObjectCol (map (option_map title) v))
  | BoolCol v =>
      match dropna v with
      | [] => Ok c
      | _ :: _ =>
          Raise (mk_exn AttributeError
                   "Can only use .str accessor with string values!")
      end
  | _ => Ok c
  end.

(** [pd.to_datetime(s, errors='coerce')] on a column whose dtype is
    already datetime64: every cell is a timestamp or [NaT]; a timestamp
    converts to itself and [NaT] to [NaT]. *)
Definition to_datetime_coerce (c : column_data) : column_data :=
  match c with
  | DatetimeCol v =>
      DatetimeCol (map (fun x => match x with Some t => Some t | None => None end) v)
  | _ => c
  end.

(** *** [DataFrame.to_csv]

    The file is described by its records, each a list of fields; how a
    field is spelled (number formatting, quoting) is below the model. *)
Inductive field : Type :=
| Label (s : string)      (* a column label, or the empty index label *)
| RowLabel (n : nat)      (* an element of the index *)
| Value (c : cell).

Definition csv : Type := list (list field).

Definition to_csv (with_index : bool) (df : DataFrame) : csv :=
  ((if with_index then [Label EmptyString] else []) ++ map (fun s => Label (name s)) (columns df))
  :: map (fun p => (if with_index then [RowLabel (fst p)] else []) ++ map Value (snd p))
         (combine (index df) (rows df)).

End Pandas.

Import Pandas.

(** ** The process: what it prints, the files it reads and writes *)

(** One [print] call.  A table that pandas renders is kept as the object
    it renders. *)
Inductive printed : Type :=
| Line (s : string)
| InfoTable (df : DataFrame)           (* written by [df.info()] *)
| DescribeTable (df : DataFrame)       (* [print(df.describe())] *)
| CountTable (t : list (string * nat)). (* [print] of a Series of counts *)

Record World : Type := mk_world {
  pd_read_csv : string -> result DataFrame;   (* what [pd.read_csv(path)] does *)
  open_for_writing : string -> option exn;    (* the error of writing to a path, if any *)
  files : list (string * csv);                (* the files written, latest first *)
  stdout : list printed                       (* the calls to [print], in order *)
}.

(** A statement: it runs in a world, returns or raises, and leaves a
    world. *)
Definition M (A : Type) : Type := World -> result A * World.

Definition ret {A} (a : A) : M A := fun w => (Ok a, w).

Definition bind {A B} (c : M A) (k : A -> M B) : M B :=
  fun w => match c w with
           | (Ok a, w') => k a w'
           | (Raise e, w') => (Raise e, w')
           end.

Notation "x <- c ;; k" := (bind c (fun x => k))
  (at level 61, c at next level, right associativity).
Notation "c ;; k" := (bind c (fun _ => k))
  (at level 61, right associativity).

Definition lift {A} (r : result A) : M A := fun w => (r, w).

Definition print (p : printed) : M unit :=
  fun w => (Ok tt, mk_world (pd_read_csv w) (open_for_writing w) (files w)
                            (stdout w ++ [p])).

Definition read_csv (path : string) : M DataFrame :=
  fun w => (pd_read_csv w path, w).

(** [df.to_csv(path, index=False)] *)
Definition write_csv (path : string) (df : DataFrame) : M unit :=
  fun w => match open_for_writing w path with
           | Some e => (Raise e, w)
           | None => (Ok tt, mk_world (pd_read_csv w) (open_for_writing w)
                                      ((path, to_csv false df) :: files w)
                                      (stdout w))
           end.

(** [try: body  except C1: h1  except C2: h2 ...]: the first clause whose
    class the exception is an instance of handles it; with none, the
    exception goes on. *)
Definition try_except {A} (body : M A) (clauses : list (exn_class * (exn -> M A))) : M A :=
  fun w => match body w with
           | (Ok a, w') => (Ok a, w')
           | (Raise e, w') =>
               match find (fun cl => isinstance e (fst cl)) clauses with
               | Some cl => snd cl e w'
               | None => (Raise e, w')
               end
           end.

(** [df.describe()] refuses a frame without columns. *)
Definition describe (df : DataFrame) : M printed :=
  match columns df with
  | [] => lift (Raise (mk_exn ValueError "Cannot describe a DataFrame without columns"))
  | _ => ret (DescribeTable df)
  end.

(** ** [class SmartCleaner] *)

Module SmartCleaner.

Record self : Type := mk_self { file_path : string; data : option DataFrame }.

Definition __init__ (file_path : string) : M self :=
  try_except
    (df <- read_csv file_path ;;
     print (Line "Data successfully loaded.") ;;
     ret (mk_self file_path (Some df)))
    [ (FileNotFoundError, fun _ =>
         print (Line ("Error: File not found at " ++ file_path)) ;;
         ret (mk_self file_path None));
      (EmptyDataError, fun _ =>
         print (Line "Error: The file is empty.") ;;
         ret (mk_self file_path None));
      (ParserError, fun _ =>
         print (Line "Error: Could not parse the file.") ;;
         ret (mk_self file_path None)) ].

Definition summarize_data (s : self) : M self :=
  match data s with
  | Some df =>
      print (Line "Dataset Summary:") ;;
      print (Line "===================================") ;;
      print (InfoTable df) ;;
      print (Line "None") ;;           (* [info()] returns [None] *)
      print (Line "Descriptive Statistics:") ;;
      t <- describe df ;;
      print t ;;
      ret s
  | None =>
      print (Line "No data to summarize.") ;;
      ret s
  end.

Definition identify_missing_values (s : self) : M self :=
  match data s with
  | Some df =>
      let missing_values := map (fun c => (name c, null_count c)) (columns df) in
      print (Line "Missing Values Summary:") ;;
      print (Line "===================================") ;;
      print (CountTable (filter (fun p => (0 <? snd p)%nat) missing_values)) ;;
      ret s
  | None =>
      print (Line "No data to analyze for missing values.") ;;
      ret s
  end.

(** The body of the loop of [handle_missing_values], on one column.  The
    test [dtype in [np.float64, np.int64]] holds of the first two
    variants ([numeric_dtypes] below).  An [int64] column has no missing
    cell: its mean is computed and nothing is filled.  A column of
    booleans that had a missing cell has none once it is filled, so its
    dtype, inferred again, is [bool]. *)
Definition impute_column (c : Series) : result Series :=
  match values c with
  | Float64Col v =>
      let mean_value := mean v in
      Ok (mk_series (name c) (Float64Col (fillna_float mean_value v)))
  | Int64Col v =>
      Ok c
  | ObjectCol v =>
      result_bind (getitem0 (mode v)) (fun mode_value =>
      Ok (mk_series (name c) (ObjectCol (fillna mode_value v))))
  | BoolCol v =>
      result_bind (getitem0 (mode v)) (fun mode_value =>
      Ok (mk_series (name c) (BoolCol (fillna mode_value v))))
  | DatetimeCol v =>
      result_bind (getitem0 (mode v)) (fun mode_value =>
      Ok (mk_series (name c) (DatetimeCol (fillna mode_value v))))
  end.

(** The loop fills the columns of the frame in place, one after the
    other.  When the body raises, the exception leaves the method; the
    columns filled so far are not read again, and the model keeps no
    frame for that case. *)
Definition handle_missing_values (s : self) : M self :=
  match data s with
  | Some df =>
      cols <- lift (for_each impute_column (columns df)) ;;
      print (Line "Missing values handled by mean/mode imputation.") ;;
      ret (mk_self (file_path s) (Some (mk_df (index df) cols)))
  | None =>
      print (Line "No data to handle missing values.") ;;
      ret s
  end.

Definition remove_duplicates (s : self) : M self :=
  match data s with
  | Some df =>
      let initial_rows := shape0 df in
      let df' := drop_duplicates df in
      let final_rows := shape0 df' in
      print (Line ("Duplicates removed: "
                   ++ str_of_Z (Z.of_nat initial_rows - Z.of_nat final_rows))) ;;
      ret (mk_self (file_path s) (Some df'))
  | None =>
      print (Line "No data from which to remove duplicates.") ;;
      ret s
  end.

(** The body of the loop of [fix_inconsistent_formats], on one column. *)
Definition fix_column (c : Series) : result Series :=
  if is_datetime64_any_dtype c then
    Ok (mk_series (name c) (to_datetime_coerce (values c)))
  else if is_string_dtype c then
    result_bind (str_title (values c)) (fun titled =>
    Ok (mk_series (name c) titled))
  else Ok c.

(** The loop assigns the columns of the frame one after the other; when
    the body raises, the exception leaves the method, as in
    [handle_missing_values]. *)
Definition fix_inconsistent_formats (s : self) : M self :=
  match data s with
  | Some df =>
      cols <- lift (for_each fix_column (columns df)) ;;
      print (Line "Inconsistent formats fixed where applicable.") ;;
      ret (mk_self (file_path s) (Some (mk_df (index df) cols)))
  | None =>
      print (Line "No data to fix formats.") ;;
      ret s
  end.

Definition save_clean_data (output_path : string) (s : self) : M self :=
  match data s with
  | Some df =>
      try_except
        (write_csv output_path df ;;
         print (Line ("Cleaned data saved to " ++ output_path)) ;;
         ret s)
        [ (Exception, fun e =>
             print (Line ("Error when saving data: " ++ exn_msg e)) ;;
             ret s) ]
  | None =>
      print (Line "No data to save.") ;;
      ret s
  end.

End SmartCleaner.

Import SmartCleaner.

(** ** The driver ([if __name__ == "__main__"]) *)

Definition main : M self :=
  cleaner <- __init__ "path_to_dirty_dataset.csv" ;;
  cleaner <- summarize_data cleaner ;;
  cleaner <- identify_missing_values cleaner ;;
  cleaner <- handle_missing_values cleaner ;;
  cleaner <- remove_duplicates cleaner ;;
  cleaner <- fix_inconsistent_formats cleaner ;;
  save_clean_data "path_to_clean_dataset.csv" cleaner.

(** The exit status of the interpreter: 0 when the script runs to its
    end, 1 when an exception reaches the top level. *)
Definition exit_status (w : World) : nat :=
  match fst (main w) with
  | Ok _ => 0
  | Raise _ => 1
  end.

(** ** Vocabulary of the specification *)

(** A loaded frame has at least one column, and every column is as long
    as the index. *)
Definition well_formed (df : DataFrame) : Prop :=
  columns df <> [] /\
  Forall (fun c => column_length c = shape0 df) (columns df).

(** The test of [handle_missing_values]: [dtype in [np.float64, np.int64]]. *)
Definition is_numeric (c : Series) : bool :=
  dtype_in (dtype_of c) [float64; int64].

Definition has_present (c : Series) : Prop :=
  dropna (cells (values c)) <> [].

(** [v'] is [v] with every missing cell set to [m] and every present
    cell kept. *)
Definition fills {A} (m : A) (v v' : list (option A)) : Prop :=
  List.length v' = List.length v /\
  forall i,
    (nth_error v i = Some None -> nth_error v' i = Some (Some m)) /\
    (forall x, nth_error v i = Some (Some x) -> nth_error v' i = Some (Some x)).

(** The same for a column of floats, whose missing cells are the [NaN]s.
    When [m] itself is [NaN] the missing cells stay missing. *)
Definition fills_gaps (m : float) (v v' : list float) : Prop :=
  List.length v' = List.length v /\
  forall i x, nth_error v i = Some x ->
    nth_error v' i = Some (if PrimFloat.is_nan x then m else x).

(** [s] is a float64 sum of the numbers of [l]: they are added two at a
    time, in some order and grouping, every addition rounding its result;
    the sum of no number is 0.0. *)
Inductive adds_up : list float -> float -> Prop :=
| adds_none : adds_up [] 0%float
| adds_one x : adds_up [x] x
| adds_two l1 l2 s1 s2 :
    adds_up l1 s1 -> adds_up l2 s2 -> adds_up (l1 ++ l2) (s1 + s2)%float
| adds_any_order l l' s : Permutation l l' -> adds_up l s -> adds_up l' s.

(** [m] is a float64 mean of the column [v]: a float64 sum of its cells,
    the missing ones counting as 0.0, divided in float64 by the number of
    present cells; [NaN] when no cell is present. *)
Definition float64_mean (m : float) (v : list float) : Prop :=
  match filter (fun x => negb (PrimFloat.is_nan x)) v with
  | [] => PrimFloat.is_nan m = true
  | present =>
      exists s,
        adds_up (map (fun x => if PrimFloat.is_nan x then 0%float else x) v) s /\
        m = (s / PrimFloat.of_uint63 (Uint63.of_Z (Z.of_nat (List.length present))))%float
  end.

(** [m] occurs in [p], and no value occurs more often. *)
Definition most_common {A} (eq_dec : forall x y : A, {x = y} + {x <> y})
    (m : A) (p : list A) : Prop :=
  In m p /\ forall x, (count_occ eq_dec p x <= count_occ eq_dec p m)%nat.

(** [m] is the least, in the order [le], of the values that occur most
    often in [p]. *)
Definition least_common {A} (eq_dec : forall x y : A, {x = y} + {x <> y})
    (le : A -> A -> bool) (m : A) (p : list A) : Prop :=
  most_common eq_dec m p /\
  forall x, In x p -> count_occ eq_dec p x = count_occ eq_dec p m -> le m x = true.

(** What imputation does to one column. *)
Definition imputed (c c' : Series) : Prop :=
  name c' = name c /\
  match values c, values c' with
  | Float64Col v, Float64Col v' =>
      exists m, float64_mean m v /\ fills_gaps m v v'
  | Int64Col v, Int64Col v' => v' = v
  | BoolCol v, BoolCol v' =>
      exists m, most_common Bool.bool_dec m (dropna v) /\ fills m v v'
  | ObjectCol v, ObjectCol v' =>
      exists m, most_common string_dec m (dropna v) /\ fills m v v'
  | DatetimeCol v, DatetimeCol v' =>
      exists m, most_common Z.eq_dec m (dropna v) /\ fills m v v'
  | _, _ => False
  end.

(** The tie-break of imputation on one non-numeric column: strings in
    the order of their code points, [False] before [True], timestamps in
    the order of time. *)
Definition imputed_least_mode (c c' : Series) : Prop :=
  name c' = name c /\
  match values c, values c' with
  | BoolCol v, BoolCol v' =>
      exists m, least_common Bool.bool_dec implb m (dropna v) /\ fills m v v'
  | ObjectCol v, ObjectCol v' =>
      exists m, least_common string_dec String.leb m (dropna v) /\ fills m v v'
  | DatetimeCol v, DatetimeCol v' =>
      exists m, least_common Z.eq_dec Z.leb m (dropna v) /\ fills m v v'
  | _, _ => False
  end.

(** The number of rows that a mask selects. *)
Definition count_true (mask : list bool) : nat :=
  List.length (filter (fun b => b) mask).

(** Row [i] repeats an earlier row. *)
Definition earlier_duplicate (rs : list row) (i : nat) : Prop :=
  exists j r, (j < i)%nat /\ nth_error rs j = Some r /\ nth_error rs i = Some r.

(** The string [digits] is a decimal numeral of the number [n]. *)
Definition numeral_of (digits : string) (n : nat) : Prop :=
  option_map Z.of_int (NilZero.int_of_string digits) = Some (Z.of_nat n).

(** *** Title case of ASCII text *)

(** The character is one of the 128 ASCII characters. *)
Definition is_ascii (c : ascii) : bool :=
  match c with Ascii _ _ _ _ _ _ _ high => negb high end.

Fixpoint string_forallb (f : ascii -> bool) (s : string) : bool :=
  match s with
  | EmptyString => true
  | String c s' => f c && string_forallb f s'
  end.

Definition ascii_text (s : string) : bool := string_forallb is_ascii s.

Definition small_letters : string := "abcdefghijklmnopqrstuvwxyz".
Definition capital_letters : string := "ABCDEFGHIJKLMNOPQRSTUVWXYZ".

(** Where [c] stands in [s]. *)
Fixpoint position (c : ascii) (s : string) : option nat :=
  match s with
  | EmptyString => None
  | String a s' => if Ascii.eqb c a then Some 0%nat else option_map S (position c s')
  end.

(** The letter of [into] that stands where [c] stands in [from]; [c]
    itself when it is not in [from]. *)
Definition counterpart (from into : string) (c : ascii) : ascii :=
  match position c from with
  | Some k => match String.get k into with
              | Some d => d
              | None => c
              end
  | None => c
  end.

Definition capital (c : ascii) : ascii := counterpart small_letters capital_letters c.

Definition small (c : ascii) : ascii := counterpart capital_letters small_letters c.

Definition is_letter (c : ascii) : bool :=
  match position c small_letters, position c capital_letters with
  | None, None => false
  | _, _ => true
  end.

(** Title case as the specification words it, with words delimited by
    whitespace: the first character of a word is capitalised and the
    others are lowercased. *)
Fixpoint title_whitespace_from (at_word_start : bool) (s : string) : string :=
  match s with
  | EmptyString => EmptyString
  | String c s' =>
      String (if at_word_start then capital c else small c)
             (title_whitespace_from (is_space c) s')
  end.

Definition title_whitespace (s : string) : string := title_whitespace_from true s.

(** The character before position [i] of [s] is a letter. *)
Definition follows_letter (s : string) (i : nat) : bool :=
  match i with
  | O => false
  | S j => match String.get j s with
           | Some p => is_letter p
           | None => false
           end
  end.

(** [s'] is [s] in title case.  It is what [str.title] makes of [s].
    For ASCII text that is, character by character: a letter is
    capitalised unless the character before it is a letter, in which case
    it is lowercased; other characters are kept.  On a string of letters
    and whitespace this is the whitespace-delimited rule. *)
Definition titled (s s' : string) : Prop :=
  s' = title s /\
  (ascii_text s = true ->
   String.length s' = String.length s /\
   (forall i c, String.get i s = Some c ->
      String.get i s' =
        Some (if follows_letter s i then small c else capital c)) /\
   (string_forallb (fun c => is_letter c || is_space c) s = true ->
      s' = title_whitespace s)).

(** An [object] column that holds Python booleans: [read_csv] makes one
    of a column of [True] and [False] with an empty field. *)
Definition holds_booleans (c : Series) : bool :=
  match values c with
  | BoolCol v => existsb isnull v && existsb (fun x => negb (isnull x)) v
  | _ => false
  end.

(** What format fixing does to one column. *)
Definition formatted (c c' : Series) : Prop :=
  name c' = name c /\
  match values c, values c' with
  | ObjectCol v, ObjectCol v' =>
      List.length v' = List.length v /\
      forall i,
        (nth_error v i = Some None -> nth_error v' i = Some None) /\
        (forall s, nth_error v i = Some (Some s) ->
           exists s', nth_error v' i = Some (Some s') /\ titled s s')
  | Int64Col v, Int64Col v' => v' = v
  | Float64Col v, Float64Col v' => v' = v
  | BoolCol v, BoolCol v' => v' = v
  | DatetimeCol v, DatetimeCol v' => v' = v
  | _, _ => False
  end.


(** The world after one more [print]. *)
Definition printing (w : World) (ps : list printed) : World :=
  mk_world (pd_read_csv w) (open_for_writing w) (files w) (stdout w ++ ps).

(** A run that returns [s] and whose only effect is to print [ps]. *)
Definition returns_printing (r : result self * World) (s : self) (w : World)
    (ps : list printed) : Prop :=
  r = (Ok s, printing w ps).

(** The world after [path] is written with [doc] and [ps] is printed. *)
Definition writing (w : World) (path : string) (doc : csv) (ps : list printed) : World :=
  mk_world (pd_read_csv w) (open_for_writing w) ((path, doc) :: files w)
           (stdout w ++ ps).

(** The document [doc] is the frame [df] written out without its index:
    the first record holds the column labels in order; record [i + 1]
    holds, field by field, the cells of row [i] in the order of the
    columns, and nothing else. *)
Definition serialised (df : DataFrame) (doc : csv) : Prop :=
  List.length doc = S (shape0 df) /\
  (exists header,
      nth_error doc 0 = Some header /\
      List.length header = List.length (columns df) /\
      forall j c, nth_error (columns df) j = Some c ->
                  nth_error header j = Some (Label (name c))) /\
  (forall i, (i < shape0 df)%nat ->
     exists record,
       nth_error doc (S i) = Some record /\
       List.length record = List.length (columns df) /\
       forall j c, nth_error (columns df) j = Some c ->
                   nth_error record j = Some (Value (nth i (cells (values c)) None))).

(** ** Vocabulary of the further properties *)

(** Some cell of the column is missing. *)
Definition has_missing (c : Series) : bool :=
  existsb isnull (cells (values c)).

(** Which cells of the column are missing. *)
Definition missing_mask (c : Series) : list bool :=
  map isnull (cells (values c)).

(** The loop body of [handle_missing_values] returns on the column: the
    column is numeric or has a present value. *)
Definition can_impute (c : Series) : Prop :=
  is_numeric c = false -> has_present c.

(** The column is not numeric and has no present value. *)
Definition blank (c : Series) : Prop :=
  is_numeric c = false /\ ~ has_present c.

(** What imputation leaves of a column: its label and length; its
    dtype, except that an [object] column of booleans becomes a [bool]
    column; and a missing cell only in a [float64] column that it did not
    touch. *)
Definition fully_imputed (c c' : Series) : Prop :=
  name c' = name c /\
  column_length c' = column_length c /\
  dtype_of c' = (if holds_booleans c then bool_ else dtype_of c) /\
  (has_missing c' = true -> dtype_of c = float64 /\ c' = c).

(** The labels of the columns, in order. *)
Definition labels (df : DataFrame) : list string := map name (columns df).

(** The exception is one that [__init__] handles. *)
Definition handled (e : exn) : bool :=
  isinstance e FileNotFoundError || isinstance e EmptyDataError
  || isinstance e ParserError.

(** What the driver prints, from the load to the format fixing, when the
    frame [df] is loaded and imputation leaves the columns [cols']. *)
Definition transcript (df : DataFrame) (cols' : list Series) : list printed :=
  [ Line "Data successfully loaded.";
    Line "Dataset Summary:";
    Line "===================================";
    InfoTable df;
    Line "None";
    Line "Descriptive Statistics:";
    DescribeTable df;
    Line "Missing Values Summary:";
    Line "===================================";
    CountTable (map (fun c => (name c, null_count c))
                    (filter has_missing (columns df)));
    Line "Missing values handled by mean/mode imputation.";
    Line ("Duplicates removed: "
          ++ str_of_Z (Z.of_nat (shape0 (mk_df (index df) cols'))
                       - Z.of_nat (shape0 (drop_duplicates
                                             (mk_df (index df) cols')))));
    Line "Inconsistent formats fixed where applicable." ].

(** ** Notions used in the proofs *)

(** [str.title] on ASCII text, character by character. *)
Fixpoint title_ascii_from (previous_is_letter : bool) (s : string) : string :=
  match s with
  | EmptyString => EmptyString
  | String c s' =>
      String (if previous_is_letter then small c else capital c)
             (title_ascii_from (is_letter c) s')
  end.

(** [str.lower] on ASCII text. *)
Fixpoint lower_ascii (s : string) : string :=
  match s with
  | EmptyString => EmptyString
  | String c s' => String (small c) (lower_ascii s')
  end.

(** [m] occurs in [p], and no value occurs more often, by the count of
    [mode]; [m] is the least such value. *)
Definition most_frequent {A} `{Ordered A} (m : A) (p : list A) : Prop :=
  In m p /\ forall x, (count x p <= count m p)%nat.

Definition least_mode {A} `{Ordered A} (m : A) (p : list A) : Prop :=
  most_frequent m p /\
  forall x, In x p -> count x p = count m p -> leb m x = true.

(** Every element of [l] is at or above the head of [l]. *)
Definition head_least {A} `{Ordered A} (l : list A) : Prop :=
  match l with
  | [] => True
  | m :: _ => forall x, In x l -> leb m x = true
  end.

(** One more number at the end of each of the lists. *)
Definition snoc_each (ls : list (list float)) (block : list float) : list (list float) :=
  map (fun p => fst p ++ [snd p]) (combine ls block).

(** What [unrolled_sum] does once fewer than 8 numbers are left. *)
Definition finish_sum (r a : list float) : float :=
  match r with
  | [r0; r1; r2; r3; r4; r5; r6; r7] =>
      add_all (((r0 + r1) + (r2 + r3)) + ((r4 + r5) + (r6 + r7)))%float a
  | _ => add_all (add_all 0%float r) a
  end.

(** The values of a column after format fixing, when it returns. *)
Definition retitled (d : column_data) : column_data :=
  match d with
  | ObjectCol v => ObjectCol (map (option_map title) v)
  | _ => d
  end.

(** No cell of a column of booleans is missing. *)
Definition booleans_complete (c : Series) : Prop :=
  match values c with
  | BoolCol v => existsb isnull v = false
  | _ => True
  end.

(** A column and a frame after format fixing, when it returns. *)
Definition fixed_column (c : Series) : Series :=
  mk_series (name c) (retitled (values c)).

Definition fixed (df : DataFrame) : DataFrame :=
  mk_df (index df) (map fixed_column (columns df)).

(** The frame that the driver saves, when imputation leaves the columns
    [cols']. *)
Definition cleaned (df : DataFrame) (cols' : list Series) : DataFrame :=
  fixed (drop_duplicates (mk_df (index df) cols')).

(** ** Sample data *)

(** A world in which no file can be read, every path can be written and
    nothing has been printed. *)
Definition bare_world : World :=
  mk_world (fun path => Raise (mk_exn FileNotFoundError
                                 ("[Errno 2] No such file or directory: " ++ path)))
           (fun _ => None) [] [].

(** [bare_world] with [df] stored at [path]. *)
Definition world_with (path : string) (df : DataFrame) : World :=
  mk_world (fun p => if String.eqb p path then Ok df else pd_read_csv bare_world p)
           (fun _ => None) [] [].

(** [bare_world] where reading [path] raises [e]. *)
Definition world_raising (path : string) (e : exn) : World :=
  mk_world (fun p => if String.eqb p path then Raise e else pd_read_csv bare_world p)
           (fun _ => None) [] [].

(** [bare_world] where nothing can be written. *)
Definition read_only_world : World :=
  mk_world (pd_read_csv bare_world)
           (fun path => Some (mk_exn PermissionError
                                ("[Errno 13] Permission denied: " ++ path)))
           [] [].

(** The world in which the input of the driver is [df] and every path
    can be written. *)
Definition driver_world (df : DataFrame) : World :=
  world_with "path_to_dirty_dataset.csv" df.

(** The numeric column [1, null, 3] and the text column
    ["a", "a", null, "b"]. *)
Definition scores : Series :=
  mk_series "score" (Float64Col [1; nan; 3]%float).

Definition grades : Series :=
  mk_series "grade" (ObjectCol [Some "a"; Some "a"; None; Some "b"]).


(** The rows (1, "x"), (2, "y"), (1, "x"). *)
Definition repeated_frame : DataFrame :=
  mk_df [0; 1; 2]%nat
    [ mk_series "id" (Int64Col [1; 2; 1]%Z);
      mk_series "tag" (ObjectCol [Some "x"; Some "y"; Some "x"]) ].

(** A frame whose [float64] column has no present value, as read from
    the lines [id,score], [1,] and [2,]. *)
Definition blank_frame : DataFrame :=
  mk_df [0; 1]%nat
    [ mk_series "id" (Int64Col [1; 2]%Z);
      mk_series "score" (Float64Col [nan; nan]) ].

(** The frame of a file that has a header and no row. *)
Definition header_only_frame : DataFrame :=
  mk_df [] [ mk_series "name" (ObjectCol []) ].




(** Text columns. *)
Definition greetings_frame : DataFrame :=
  mk_df [0; 1]%nat
    [ mk_series "greeting" (ObjectCol [Some "hello world"; Some "they're here"]);
      mk_series "n" (Int64Col [7; 8]%Z) ].




(** A column of booleans with an empty field, as read from the lines
    [id,ok], [1,True], [2,] and [3,False]. *)
Definition flags_frame : DataFrame :=
  mk_df [0; 1; 2]%nat
    [ mk_series "id" (Int64Col [1; 2; 3]%Z);
      mk_series "ok" (BoolCol [Some true; None; Some false]) ].

(** A column with two values tied for most frequent, and one with two
    values tied for most frequent and a lesser value that is less
    frequent. *)
Definition tied_frame : DataFrame :=
  mk_df [0; 1; 2; 3; 4]%nat
    [ mk_series "city" (ObjectCol [Some "rome"; Some "oslo"; None; Some "rome"; Some "oslo"]) ].


(** A frame with a missing cell in each kind of column that can have one. *)
Definition survey_frame : DataFrame :=
  mk_df [0; 1; 2; 3]%nat
    [ mk_series "id" (Int64Col [1; 2; 3; 4]%Z);
      mk_series "score" (Float64Col [1; nan; 3; nan]%float);
      mk_series "grade" (ObjectCol [Some "a"; Some "a"; None; Some "b"]);
      mk_series "ok" (BoolCol [Some true; Some false; None; Some true]) ].

(** The object that holds [survey_frame]. *)
Definition survey : self := mk_self "in.csv" (Some survey_frame).

(** Text cells that differ in case only. *)
Definition shouting : Series :=
  mk_series "city" (ObjectCol [Some "new york"; None; Some "NEW YORK"]).

(* ================================================================== *)
(** * Part II: properties *)
(* ================================================================== *)

(** Case analysis on the kind of a column, and on a character. *)
Ltac by_dtype c :=
  let nm := fresh "nm" in
  let v := fresh "v" in
  destruct c as [nm [v|v|v|v|v]].

Ltac by_character c := destruct c as [[] [] [] [] [] [] [] []].

(** ** The dtypes and the branches they select *)

Lemma numeric_dtypes c :
  is_numeric c = true <->
  (exists v, values c = Float64Col v) \/ (exists v, values c = Int64Col v).
Proof.
  by_dtype c; unfold is_numeric, dtype_of; cbn [values];
    try destruct (existsb isnull v); cbn; split; intros H;
    try reflexivity; try discriminate H; eauto;
    destruct H as [[x E]|[x E]]; discriminate E.
Qed.

Lemma datetime_dtype c :
  is_datetime64_any_dtype c = true <-> exists v, values c = DatetimeCol v.
Proof.
  by_dtype c; unfold is_datetime64_any_dtype, dtype_of; cbn [values];
    try destruct (existsb isnull v); cbn; split; intros H;
    try reflexivity; try discriminate H; eauto;
    destruct H as [x E]; discriminate E.
Qed.

Lemma string_dtype c :
  is_string_dtype c = true <->
  (exists v, values c = ObjectCol v) \/
  (exists v, values c = BoolCol v /\ existsb isnull v = true).
Proof.
  by_dtype c; unfold is_string_dtype, dtype_of; cbn [values];
    try destruct (existsb isnull v) eqn:Hv; cbn; split; intros H;
    try reflexivity; try discriminate H; eauto;
    destruct H as [[x E]|[x [E Hx]]]; try discriminate E.
  injection E as <-. congruence.
Qed.

(** ** ASCII text and [str.title]

    On ASCII characters the tables of [Unicode] say what the two
    alphabets say, and a character is its own UTF-8 encoding. *)

Lemma ascii_case c :
  is_ascii c = true ->
  (N_of_ascii c <? 128)%N = true /\
  (N_of_ascii c =? 931)%N = false /\
  Unicode.is_cased (N_of_ascii c) = is_letter c /\
  Unicode.to_title_full (N_of_ascii c) = [N_of_ascii (capital c)] /\
  Unicode.to_lower_full (N_of_ascii c) = [N_of_ascii (small c)] /\
  encode_point (N_of_ascii (capital c)) = String (capital c) EmptyString /\
  encode_point (N_of_ascii (small c)) = String (small c) EmptyString.
Proof.
  by_character c; intros H; try discriminate H; vm_compute; repeat split.
Qed.

Lemma letters_are_ascii c :
  is_ascii c = true -> is_ascii (capital c) = true /\ is_ascii (small c) = true.
Proof. by_character c; intros H; try discriminate H; split; reflexivity. Qed.


Lemma is_letter_small c : is_letter (small c) = is_letter c.
Proof. by_character c; reflexivity. Qed.


Lemma small_idem c : small (small c) = small c.
Proof. by_character c; reflexivity. Qed.

Lemma capital_small c : capital (small c) = capital c.
Proof. by_character c; reflexivity. Qed.

Lemma small_capital c : small (capital c) = small c.
Proof. by_character c; reflexivity. Qed.

Lemma letter_or_space c :
  (is_letter c || is_space c) = true -> is_letter c = negb (is_space c).
Proof. by_character c; simpl; intros H; try reflexivity; discriminate H. Qed.

Lemma title_points_ascii s : forall b before,
  ascii_text s = true ->
  encode_utf8 (title_points b before (decode_utf8_from 0 0%N s)) =
  title_ascii_from b s.
Proof.
  induction s as [|c s IH]; intros b before Hs; [reflexivity|].
  cbn [ascii_text string_forallb] in Hs. apply andb_prop in Hs.
  destruct Hs as [Hc Hs].
  destruct (ascii_case c Hc) as [Hlow [Hsigma [Hcased [Htitle [Hlower [Ecap Esmall]]]]]].
  cbn [decode_utf8_from]. rewrite Hlow. cbn [title_points title_ascii_from].
  unfold lower_at. rewrite Hsigma, Hcased, Htitle, Hlower.
  destruct b; cbn [app encode_utf8];
    rewrite ?Ecap, ?Esmall; cbn [append]; f_equal; apply IH; exact Hs.
Qed.

Lemma title_ascii s : ascii_text s = true -> title s = title_ascii_from false s.
Proof. intros Hs. unfold title, decode_utf8. now apply title_points_ascii. Qed.




Lemma title_ascii_from_length b s :
  String.length (title_ascii_from b s) = String.length s.
Proof.
  revert b; induction s as [|c s IH]; intros b; simpl; [reflexivity|].
  now rewrite IH.
Qed.

Lemma title_ascii_from_get b s i c :
  String.get i s = Some c ->
  String.get i (title_ascii_from b s) =
    Some (if match i with O => b | S _ => follows_letter s i end
          then small c else capital c).
Proof.
  revert b i; induction s as [|a s IH]; intros b i Hget; simpl in *; [discriminate|].
  destruct i as [|i].
  - inversion Hget; subst; reflexivity.
  - rewrite (IH (is_letter a) i Hget).
    destruct i as [|i]; reflexivity.
Qed.

Lemma title_ascii_from_whitespace b s :
  string_forallb (fun c => is_letter c || is_space c) s = true ->
  title_ascii_from b s = title_whitespace_from (negb b) s.
Proof.
  revert b; induction s as [|c s IH]; intros b H; simpl in *; [reflexivity|].
  apply andb_prop in H; destruct H as [Hc Hs].
  rewrite (IH _ Hs), (letter_or_space c Hc), negb_involutive.
  destruct b; reflexivity.
Qed.

Lemma title_titled s : titled s (title s).
Proof.
  unfold titled. split; [reflexivity|]. intros Hs.
  rewrite (title_ascii s Hs).
  split; [apply title_ascii_from_length|]. split.
  - intros i c Hget. rewrite (title_ascii_from_get false s i c Hget).
    destruct i; reflexivity.
  - intros Hw. unfold title_whitespace.
    now rewrite (title_ascii_from_whitespace false s Hw).
Qed.

(** ** Equality of cells and rows *)

Lemma same_number_eq a b : same_number a b = true <-> a = b.
Proof.
  destruct a as [s|s| |s m e], b as [t|t| |t n f]; simpl;
    try (split; intros E; (reflexivity || discriminate E)).
  - rewrite Bool.eqb_true_iff. split; intros E; [now subst | now inversion E].
  - rewrite Bool.eqb_true_iff. split; intros E; [now subst | now inversion E].
  - rewrite !andb_true_iff, Bool.eqb_true_iff, Pos.eqb_eq, Z.eqb_eq.
    split; [intros [[-> ->] ->]; reflexivity | intros E; inversion E; auto].
Qed.

Lemma float_eqb_eq x y : float_eqb x y = true <-> x = y.
Proof.
  unfold float_eqb. rewrite same_number_eq. split.
  - apply Prim2SF_inj.
  - intros ->. reflexivity.
Qed.

Lemma scalar_eqb_eq a b : scalar_eqb a b = true <-> a = b.
Proof.
  destruct a, b; simpl; try (split; intros E; discriminate E).
  - rewrite Z.eqb_eq. split; intros E; [now subst | now inversion E].
  - rewrite float_eqb_eq. split; intros E; [now subst | now inversion E].
  - rewrite Bool.eqb_true_iff. split; intros E; [now subst | now inversion E].
  - rewrite String.eqb_eq. split; intros E; [now subst | now inversion E].
  - rewrite Z.eqb_eq. split; intros E; [now subst | now inversion E].
Qed.

Lemma cell_eqb_eq a b : cell_eqb a b = true <-> a = b.
Proof.
  destruct a as [x|], b as [y|]; simpl; try (split; intros E; discriminate E).
  - rewrite scalar_eqb_eq. split; intros E; [now subst | now inversion E].
  - split; reflexivity.
Qed.

Lemma row_eqb_eq r1 r2 : row_eqb r1 r2 = true <-> r1 = r2.
Proof.
  revert r2; induction r1 as [|a r1 IH]; intros [|b r2]; simpl;
    try (split; intros E; (reflexivity || discriminate E)).
  rewrite andb_true_iff, cell_eqb_eq, IH.
  split; [intros [-> ->]; reflexivity | intros E; inversion E; auto].
Qed.

Lemma seen_row r seen : existsb (row_eqb r) seen = true <-> In r seen.
Proof.
  rewrite existsb_exists. split.
  - intros [x [Hin E]]. apply row_eqb_eq in E. now subst.
  - intros Hin. exists r. split; [assumption | now apply row_eqb_eq].
Qed.

(** ** Boolean indexing and rows *)

Lemma select_nil {A} mask : @select A mask [] = [].
Proof. destruct mask as [|[] mask]; reflexivity. Qed.

Lemma select_map {A B} (f : A -> B) mask l :
  select mask (map f l) = map f (select mask l).
Proof.
  revert l; induction mask as [|b mask IH]; intros [|x l]; simpl; try reflexivity.
  destruct b; simpl; now rewrite IH.
Qed.

Lemma select_length {A} mask (l : list A) :
  List.length mask = List.length l ->
  List.length (select mask l) = count_true mask.
Proof.
  revert l; induction mask as [|b mask IH]; intros [|x l] Hlen; simpl in *;
    try reflexivity; try discriminate.
  injection Hlen as Hlen. unfold count_true in *.
  destruct b; simpl; now rewrite IH.
Qed.

Lemma select_all {A} (l : list A) n :
  List.length l = n -> select (repeat true n) l = l.
Proof.
  revert n; induction l as [|x l IH]; intros [|n] Hlen; simpl in *;
    try reflexivity; try discriminate.
  injection Hlen as Hlen. now rewrite IH.
Qed.

Lemma transpose_length n cols : List.length (transpose n cols) = n.
Proof.
  revert cols; induction n as [|n IH]; intros cols; simpl; [reflexivity|].
  now rewrite IH.
Qed.

Lemma select_transpose mask cols :
  select mask (transpose (List.length mask) cols) =
  transpose (count_true mask) (map (select mask) cols).
Proof.
  revert cols; induction mask as [|b mask IH]; intros cols; [reflexivity|].
  assert (Htl : map (@tl cell) (map (select (true :: mask)) cols)
                = map (select mask) (map (@tl cell) cols)).
  { rewrite !map_map. apply map_ext. intros [|x c]; simpl;
      [now rewrite select_nil | reflexivity]. }
  assert (Hhd : map (hd None) (map (select (true :: mask)) cols)
                = map (hd None) cols).
  { rewrite map_map. apply map_ext. intros [|x c]; reflexivity. }
  assert (Hskip : map (select (false :: mask)) cols
                  = map (select mask) (map (@tl cell) cols)).
  { rewrite map_map. apply map_ext. intros [|x c]; simpl;
      [now rewrite select_nil | reflexivity]. }
  destruct b.
  - change (count_true (true :: mask)) with (S (count_true mask)).
    change (transpose (S (count_true mask)) (map (select (true :: mask)) cols))
      with (map (hd None) (map (select (true :: mask)) cols)
            :: transpose (count_true mask)
                 (map (@tl cell) (map (select (true :: mask)) cols))).
    rewrite Hhd, Htl, <- IH. reflexivity.
  - change (count_true (false :: mask)) with (count_true mask).
    rewrite Hskip, <- IH. reflexivity.
Qed.

Lemma cells_select_column mask c :
  cells (values (select_column mask c)) = select mask (cells (values c)).
Proof.
  destruct c as [n [v|v|v|v|v]]; simpl; now rewrite select_map.
Qed.

(** ** [duplicated] *)

Lemma duplicated_from_length seen rs :
  List.length (duplicated_from seen rs) = List.length rs.
Proof.
  revert seen; induction rs as [|r rs IH]; intros seen; simpl; [reflexivity|].
  destruct (existsb (row_eqb r) seen); simpl; now rewrite IH.
Qed.

Lemma duplicated_from_spec rs : forall seen i,
  nth_error (duplicated_from seen rs) i = Some true <->
  exists r, nth_error rs i = Some r /\
            (In r seen \/ exists j, (j < i)%nat /\ nth_error rs j = Some r).
Proof.
  induction rs as [|r rs IH]; intros seen i.
  - simpl. split.
    + destruct i; discriminate.
    + intros [r [E _]]. destruct i; discriminate.
  - simpl. destruct (existsb (row_eqb r) seen) eqn:Hseen.
    + apply seen_row in Hseen. destruct i as [|i]; simpl.
      * split; [intros _; exists r; auto | reflexivity].
      * rewrite IH. split; intros [r0 [E H]]; exists r0; (split; [exact E|]).
        -- destruct H as [H|[j [Hj Ej]]]; [now left|].
           right. exists (S j). split; [lia | exact Ej].
        -- destruct H as [H|[j [Hj Ej]]]; [now left|].
           destruct j as [|j]; simpl in Ej.
           ++ injection Ej as <-. now left.
           ++ right. exists j. split; [lia | exact Ej].
    + assert (Hnot : ~ In r seen).
      { intros Hin. apply seen_row in Hin. congruence. }
      destruct i as [|i]; simpl.
      * split; [discriminate|].
        intros [r0 [E [H|[j [Hj _]]]]]; [|lia].
        injection E as <-. contradiction.
      * rewrite IH. split; intros [r0 [E H]]; exists r0; (split; [exact E|]).
        -- destruct H as [[<-|H]|[j [Hj Ej]]].
           ++ right. exists 0%nat. split; [lia | reflexivity].
           ++ now left.
           ++ right. exists (S j). split; [lia | exact Ej].
        -- destruct H as [H|[j [Hj Ej]]]; [left; now right|].
           destruct j as [|j]; simpl in Ej.
           ++ injection Ej as <-. left. now left.
           ++ right. exists j. split; [lia | exact Ej].
Qed.

Lemma duplicated_spec rs i :
  nth_error (duplicated_from [] rs) i = Some true <-> earlier_duplicate rs i.
Proof.
  rewrite duplicated_from_spec. unfold earlier_duplicate. split.
  - intros [r [E [[]|[j [Hj Ej]]]]]. exists j, r. auto.
  - intros [j [r [Hj [Ej E]]]]. exists r. split; [exact E|].
    right. exists j. auto.
Qed.


Lemma count_true_negb mask :
  (count_true (map negb mask) + count_true mask = List.length mask)%nat.
Proof.
  unfold count_true. induction mask as [|[] mask IH]; simpl; lia.
Qed.

Lemma count_true_repeat_false n : count_true (repeat false n) = 0%nat.
Proof. unfold count_true. induction n; simpl; auto. Qed.

Lemma map_negb_repeat_false n : map negb (repeat false n) = repeat true n.
Proof. induction n; simpl; congruence. Qed.

(** ** [drop_duplicates] on a frame *)

Lemma duplicated_length df : List.length (duplicated df) = shape0 df.
Proof.
  unfold duplicated, rows. now rewrite duplicated_from_length, transpose_length.
Qed.

Lemma column_length_select mask c :
  List.length mask = column_length c ->
  column_length (select_column mask c) = count_true mask.
Proof.
  intros Hlen. unfold column_length in *.
  rewrite cells_select_column. now apply select_length.
Qed.

Lemma select_column_all c n :
  column_length c = n -> select_column (repeat true n) c = c.
Proof.
  unfold column_length.
  destruct c as [nm [v|v|v|v|v]]; simpl; rewrite length_map; intros Hlen;
    unfold select_column; simpl; now rewrite select_all.
Qed.

Lemma empty_false_iff df :
  empty df = false <-> shape0 df <> 0%nat /\ columns df <> [].
Proof.
  unfold empty. rewrite orb_false_iff, !Nat.eqb_neq.
  split; intros [H1 H2]; (split; [exact H1|]).
  - intros E. apply H2. now rewrite E.
  - intros E. apply H2. now destruct (columns df).
Qed.

Lemma rows_drop_duplicates df :
  well_formed df ->
  rows (drop_duplicates df) = select (map negb (duplicated df)) (rows df).
Proof.
  intros [Hcols Hlen]. unfold drop_duplicates.
  destruct (empty df) eqn:Hempty.
  - assert (Hz : shape0 df = 0%nat).
    { unfold empty in Hempty. apply orb_true_iff in Hempty.
      destruct Hempty as [E|E]; apply Nat.eqb_eq in E; [exact E|].
      destruct (columns df); [now contradiction Hcols | discriminate E]. }
    unfold rows. rewrite Hz. simpl. now rewrite select_nil.
  - unfold rows at 1. unfold shape0 at 1. cbn [columns index].
    rewrite select_length
      by (rewrite length_map, duplicated_length; reflexivity).
    rewrite map_map.
    rewrite (map_ext _ (fun s => select (map negb (duplicated df)) (cells (values s))))
      by (intros c; apply cells_select_column).
    rewrite <- (map_map (fun s => cells (values s)) (select (map negb (duplicated df)))).
    rewrite <- select_transpose.
    rewrite length_map, duplicated_length. reflexivity.
Qed.

Lemma shape0_drop_duplicates df :
  well_formed df ->
  shape0 (drop_duplicates df) = count_true (map negb (duplicated df)).
Proof.
  intros Hwf.
  rewrite <- (transpose_length (shape0 (drop_duplicates df))
                (map (fun s => cells (values s)) (columns (drop_duplicates df)))).
  fold (rows (drop_duplicates df)). rewrite rows_drop_duplicates by exact Hwf.
  apply select_length.
  rewrite length_map, duplicated_length. unfold rows. now rewrite transpose_length.
Qed.

Lemma well_formed_drop_duplicates df :
  well_formed df -> well_formed (drop_duplicates df).
Proof.
  intros Hwf. pose proof (shape0_drop_duplicates df Hwf) as Hshape.
  destruct Hwf as [Hcols Hlen]. revert Hshape. unfold drop_duplicates.
  destruct (empty df); [intros _; now split|].
  intros Hshape. split; cbn [columns].
  - destruct (columns df); [now contradiction Hcols | discriminate].
  - rewrite Forall_forall in *. intros c' Hin.
    apply in_map_iff in Hin. destruct Hin as [c [<- Hin]].
    rewrite Hshape. apply column_length_select.
    rewrite length_map, duplicated_length. symmetry. now apply Hlen.
Qed.



Lemma In_select_duplicated rs : forall seen r,
  In r (select (map negb (duplicated_from seen rs)) rs) <->
  In r rs /\ ~ In r seen.
Proof.
  induction rs as [|r0 rs IH]; intros seen r; simpl; [tauto|].
  destruct (existsb (row_eqb r0) seen) eqn:Hseen; simpl.
  - apply seen_row in Hseen. rewrite IH. split.
    + intros [Hin Hnot]. auto.
    + intros [[<-|Hin] Hnot]; [contradiction | auto].
  - assert (Hnot0 : ~ In r0 seen).
    { intros Hin. apply seen_row in Hin. congruence. }
    rewrite IH. simpl. split.
    + intros [<-|[Hin Hnot]]; [auto|]. split; [auto|]. intros Hs. apply Hnot. auto.
    + intros [[<-|Hin] Hnot]; [auto|].
      destruct (row_eqb r0 r) eqn:E.
      * apply row_eqb_eq in E. auto.
      * right. split; [exact Hin|]. intros [->|Hs]; [|contradiction].
        assert (row_eqb r r = true) by now apply row_eqb_eq. congruence.
Qed.

Lemma NoDup_select_duplicated rs : forall seen,
  NoDup (select (map negb (duplicated_from seen rs)) rs).
Proof.
  induction rs as [|r rs IH]; intros seen; simpl; [constructor|].
  destruct (existsb (row_eqb r) seen); simpl; [apply IH|].
  constructor; [|apply IH].
  rewrite In_select_duplicated. intros [_ Hnot]. apply Hnot. now left.
Qed.

(** ** Running the methods *)

Lemma remove_duplicates_run s df w :
  data s = Some df ->
  remove_duplicates s w =
    (Ok (mk_self (file_path s) (Some (drop_duplicates df))),
     printing w [Line ("Duplicates removed: "
                       ++ str_of_Z (Z.of_nat (shape0 df)
                                    - Z.of_nat (shape0 (drop_duplicates df))))]).
Proof. intros Hd. unfold remove_duplicates. rewrite Hd. reflexivity. Qed.
(** ** Removing duplicates *)

Lemma str_of_Z_numeral n : numeral_of (str_of_Z (Z.of_nat n)) n.
Proof.
  unfold numeral_of, str_of_Z.
  rewrite NilZero.isi.
  - cbn [option_map]. now rewrite DecimalZ.of_to.
  - destruct (Z.of_nat n) as [|p|p]; unfold Z.to_int; intros E;
      try discriminate E.
    injection E as E. exact (DecimalPos.Unsigned.to_uint_nonnil p E).
  - destruct (Z.of_nat n) as [|p|p]; unfold Z.to_int; intros E;
      try discriminate E.
    injection E as E. exact (DecimalPos.Unsigned.to_uint_nonnil p E).
Qed.

(** C2.  On a loaded frame [remove_duplicates] returns normally; row [i]
    is deleted exactly when it repeats an earlier row, so the first
    occurrence of every row stays; the rows that stay keep their order;
    no row is left twice and no row is lost altogether; the line printed
    is "Duplicates removed: " followed by a decimal numeral of the number
    of rows deleted. *)
Theorem remove_duplicates_spec s df w :
  data s = Some df ->
  well_formed df ->
  exists df' digits,
    returns_printing (remove_duplicates s w)
      (mk_self (file_path s) (Some df')) w
      [Line ("Duplicates removed: " ++ digits)] /\
    numeral_of digits (count_true (duplicated df)) /\
    List.length (duplicated df) = List.length (rows df) /\
    (forall i, nth_error (duplicated df) i = Some true
               <-> earlier_duplicate (rows df) i) /\
    rows df' = select (map negb (duplicated df)) (rows df) /\
    (List.length (rows df') + count_true (duplicated df))%nat = List.length (rows df) /\
    NoDup (rows df') /\
    (forall r, In r (rows df) <-> In r (rows df')).
Proof.
  intros Hd Hwf.
  exists (drop_duplicates df), (str_of_Z (Z.of_nat (count_true (duplicated df)))).
  pose proof (rows_drop_duplicates df Hwf) as Hrows.
  pose proof (shape0_drop_duplicates df Hwf) as Hshape.
  pose proof (count_true_negb (duplicated df)) as Hcount.
  rewrite duplicated_length in Hcount.
  assert (Hlen : List.length (rows df) = shape0 df)
    by (unfold rows; apply transpose_length).
  split; [|split; [apply str_of_Z_numeral|]].
  - unfold returns_printing. rewrite (remove_duplicates_run s df w Hd).
    replace (Z.of_nat (shape0 df) - Z.of_nat (shape0 (drop_duplicates df)))%Z
      with (Z.of_nat (count_true (duplicated df))) by lia.
    reflexivity.
  - repeat split.
    + now rewrite duplicated_length.
    + apply duplicated_spec.
    + apply duplicated_spec.
    + exact Hrows.
    + rewrite Hrows, select_length; [lia|].
      now rewrite length_map, duplicated_length.
    + rewrite Hrows. apply NoDup_select_duplicated.
    + intros Hin. rewrite Hrows. apply In_select_duplicated. auto.
    + rewrite Hrows. intros Hin. now apply In_select_duplicated in Hin.
Qed.

(** ** [fillna] *)

Lemma fills_fillna {A} (m : A) v : fills m v (fillna m v).
Proof.
  unfold fills, fillna. split; [apply length_map|].
  intros i. split.
  - intros E. rewrite nth_error_map, E. reflexivity.
  - intros x E. rewrite nth_error_map, E. reflexivity.
Qed.

Lemma fills_gaps_fillna m v : fills_gaps m v (fillna_float m v).
Proof.
  unfold fills_gaps, fillna_float. split; [apply length_map|].
  intros i x E. rewrite nth_error_map, E. reflexivity.
Qed.

Lemma dropna_nil_iff {A} (v : list (option A)) :
  dropna v = [] <-> forall x, In x v -> x = None.
Proof.
  induction v as [|[a|] v IH]; simpl.
  - split; [intros _ x [] | reflexivity].
  - split; [discriminate|]. intros Hall.
    specialize (Hall (Some a) (or_introl eq_refl)). discriminate.
  - rewrite IH. split.
    + intros Hall x [<-|Hin]; [reflexivity | now apply Hall].
    + intros Hall x Hin. apply Hall. now right.
Qed.

(** ** [mode] *)

Section ModeFacts.
Context {A : Type} `{Ordered A}.
Hypothesis eqb_eq : forall x y : A, eqb x y = true <-> x = y.
Hypothesis leb_total : forall x y : A, leb x y = true \/ leb y x = true.
Hypothesis leb_trans :
  forall x y z : A, leb x y = true -> leb y z = true -> leb x z = true.
Hypothesis leb_antisym :
  forall x y : A, leb x y = true -> leb y x = true -> x = y.

Lemma count_absent (x : A) l : ~ In x l -> count x l = 0%nat.
Proof.
  unfold count. induction l as [|y l IH]; simpl; [reflexivity|].
  intros Hnot. destruct (eqb x y) eqn:E.
  - apply eqb_eq in E. subst. exfalso. apply Hnot. now left.
  - apply IH. intros Hin. apply Hnot. now right.
Qed.

Lemma count_present (x : A) l : In x l -> (0 < count x l)%nat.
Proof.
  unfold count. induction l as [|y l IH]; simpl; [intros []|].
  intros [->|Hin].
  - assert (E : eqb x x = true) by now apply eqb_eq.
    rewrite E. simpl. lia.
  - destruct (eqb x y); simpl; [lia | now apply IH].
Qed.

Lemma max_bounds (f : A -> nat) l x :
  In x l -> (f x <= fold_right Nat.max 0%nat (map f l))%nat.
Proof.
  induction l as [|y l IH]; simpl; [intros []|].
  intros [->|Hin]; [lia|]. specialize (IH Hin). lia.
Qed.

Lemma max_attained (f : A -> nat) l :
  l <> [] -> exists x, In x l /\ f x = fold_right Nat.max 0%nat (map f l).
Proof.
  induction l as [|y l IH]; [congruence|]. intros _. simpl.
  destruct l as [|z l].
  - exists y. simpl. split; [now left | lia].
  - destruct IH as [x [Hin Hx]]; [discriminate|].
    destruct (Nat.le_ge_cases (f y) (fold_right Nat.max 0%nat (map f (z :: l))))
      as [Hle|Hge].
    + exists x. split; [now right|]. rewrite Hx. lia.
    + exists y. split; [now left|]. lia.
Qed.

Lemma count_le_max_count (x : A) p : (count x p <= max_count p)%nat.
Proof.
  destruct (existsb (eqb x) p) eqn:E.
  - apply existsb_exists in E. destruct E as [y [Hin E]].
    apply eqb_eq in E. subst y.
    apply (max_bounds (fun y => count y p) p x Hin).
  - rewrite count_absent; [lia|]. intros Hin.
    assert (existsb (eqb x) p = true); [|congruence].
    apply existsb_exists. exists x. split; [exact Hin | now apply eqb_eq].
Qed.

Lemma In_unique_from l : forall seen (x : A),
  In x (unique_from seen l) <-> In x l /\ ~ In x seen.
Proof.
  induction l as [|y l IH]; intros seen x; simpl; [tauto|].
  destruct (existsb (eqb y) seen) eqn:E.
  - apply existsb_exists in E. destruct E as [z [Hz E]].
    apply eqb_eq in E. subst z. rewrite IH. split.
    + intros [Hin Hnot]. auto.
    + intros [[<-|Hin] Hnot]; [contradiction | auto].
  - assert (Hy : ~ In y seen).
    { intros Hin. assert (existsb (eqb y) seen = true); [|congruence].
      apply existsb_exists. exists y. split; [exact Hin | now apply eqb_eq]. }
    simpl. rewrite IH. simpl. split.
    + intros [<-|[Hin Hnot]]; [auto|]. split; [auto|].
      intros Hs. apply Hnot. now right.
    + intros [[<-|Hin] Hnot]; [auto|].
      destruct (eqb y x) eqn:Eyx.
      * apply eqb_eq in Eyx. auto.
      * right. split; [exact Hin|]. intros [->|Hs]; [|contradiction].
        assert (eqb x x = true) by now apply eqb_eq. congruence.
Qed.

Lemma In_unique (x : A) l : In x (unique l) <-> In x l.
Proof. unfold unique. rewrite In_unique_from. simpl. tauto. Qed.

Lemma In_insert_sorted (x y : A) l :
  In x (insert_sorted y l) <-> x = y \/ In x l.
Proof.
  induction l as [|z l IH]; simpl; [intuition congruence|].
  destruct (leb y z); simpl; [intuition congruence|].
  rewrite IH. intuition congruence.
Qed.

Lemma In_sort (x : A) l : In x (sort l) <-> In x l.
Proof.
  unfold sort. induction l as [|y l IH]; simpl; [tauto|].
  rewrite In_insert_sorted, IH. intuition congruence.
Qed.

Lemma leb_refl (x : A) : leb x x = true.
Proof. destruct (leb_total x x); assumption. Qed.

Lemma insert_sorted_head_least (y : A) l :
  head_least l -> head_least (insert_sorted y l).
Proof.
  destruct l as [|m l]; simpl.
  - intros _ x [<-|[]]. apply leb_refl.
  - intros Hm. destruct (leb y m) eqn:E; simpl.
    + intros x [<-|[<-|Hin]].
      * apply leb_refl.
      * exact E.
      * apply (leb_trans y m x E). apply Hm. now right.
    + assert (Hmy : leb m y = true).
      { destruct (leb_total m y) as [L|L]; [exact L | congruence]. }
      intros x [<-|Hin]; [apply leb_refl|].
      apply In_insert_sorted in Hin. destruct Hin as [->|Hin]; [exact Hmy|].
      apply Hm. now right.
Qed.

Lemma sort_head_least l : head_least (sort l).
Proof.
  unfold sort. induction l as [|y l IH]; simpl; [exact I|].
  now apply insert_sorted_head_least.
Qed.

Lemma In_mode (m : A) v :
  In m (mode v) <->
  In m (dropna v) /\ count m (dropna v) = max_count (dropna v).
Proof.
  unfold mode. rewrite In_sort, filter_In, In_unique, Nat.eqb_eq. tauto.
Qed.

Lemma mode_of_nothing v : dropna v = [] -> mode v = [].
Proof. intros E. unfold mode. rewrite E. reflexivity. Qed.

Lemma getitem0_mode v :
  dropna v <> [] ->
  exists m, getitem0 (mode v) = Ok m /\ least_mode m (dropna v).
Proof.
  intros Hp.
  destruct (max_attained (fun x => count x (dropna v)) (dropna v) Hp)
    as [x [Hx Hmax]].
  fold (max_count (dropna v)) in Hmax.
  assert (Hin : In x (mode v)) by (apply In_mode; auto).
  pose proof (sort_head_least
                (filter (fun x => (count x (dropna v) =? max_count (dropna v))%nat)
                        (unique (dropna v)))) as Hleast.
  fold (mode v) in Hleast.
  destruct (mode v) as [|m t] eqn:Emode; [destruct Hin|].
  exists m. split; [reflexivity|].
  assert (Hm : In m (mode v)) by (rewrite Emode; now left).
  apply In_mode in Hm. destruct Hm as [Hmin Hmcount].
  repeat split.
  - exact Hmin.
  - intros y. rewrite Hmcount. apply count_le_max_count.
  - intros y Hy Hcount. apply Hleast. rewrite <- Emode. apply In_mode.
    split; [exact Hy | congruence].
Qed.

Lemma least_mode_unique (m m' : A) p :
  least_mode m p -> least_mode m' p -> m = m'.
Proof.
  intros [[Hin Hmax] Hleast] [[Hin' Hmax'] Hleast'].
  assert (E : count m p = count m' p).
  { apply Nat.le_antisymm; [apply Hmax' | apply Hmax]. }
  apply leb_antisym; [apply Hleast | apply Hleast']; auto.
Qed.

(** The count of [mode] is the number of occurrences. *)
Variable eq_dec : forall x y : A, {x = y} + {x <> y}.

Lemma count_occurrences (x : A) l : count x l = count_occ eq_dec l x.
Proof.
  unfold count. induction l as [|y l IH]; simpl; [reflexivity|].
  destruct (eq_dec y x) as [->|Hne].
  - assert (E : eqb x x = true) by now apply eqb_eq.
    rewrite E. simpl. now rewrite IH.
  - destruct (eqb x y) eqn:E; [apply eqb_eq in E; congruence | exact IH].
Qed.

Lemma least_mode_common (m : A) p :
  least_mode m p <-> least_common eq_dec leb m p.
Proof.
  unfold least_mode, least_common, most_frequent, most_common.
  split; intros [[Hin Hmax] Hleast]; (split; [split; [exact Hin|]|]).
  - intros x. rewrite <- !count_occurrences. apply Hmax.
  - intros x Hx. rewrite <- !count_occurrences. now apply Hleast.
  - intros x. rewrite !count_occurrences. apply Hmax.
  - intros x Hx. rewrite !count_occurrences. now apply Hleast.
Qed.

End ModeFacts.

(** ** The orders of the column values *)

Lemma string_leb_trans (x y z : string) :
  String.leb x y = true -> String.leb y z = true -> String.leb x z = true.
Proof.
  unfold String.leb. revert y z.
  induction x as [|a x IH]; intros [|b y] [|c z]; simpl; try congruence.
  unfold Ascii.compare.
  destruct (N.compare_spec (N_of_ascii a) (N_of_ascii b)) as [Eab|Lab|Gab];
    try congruence.
  - rewrite Eab. destruct (N.compare (N_of_ascii b) (N_of_ascii c));
      [apply IH | congruence | congruence].
  - intros _.
    destruct (N.compare_spec (N_of_ascii b) (N_of_ascii c)) as [Ebc|Lbc|Gbc];
      try congruence; intros _.
    + rewrite <- Ebc. apply N.compare_lt_iff in Lab. now rewrite Lab.
    + assert (L : (N_of_ascii a < N_of_ascii c)%N) by lia.
      apply N.compare_lt_iff in L. now rewrite L.
Qed.

Lemma bool_leb_total (x y : bool) : implb x y = true \/ implb y x = true.
Proof. destruct x, y; auto. Qed.

Lemma bool_leb_trans (x y z : bool) :
  implb x y = true -> implb y z = true -> implb x z = true.
Proof. destruct x, y, z; auto. Qed.


Lemma Z_leb_total (x y : Z) : Z.leb x y = true \/ Z.leb y x = true.
Proof. rewrite !Z.leb_le. lia. Qed.

Lemma Z_leb_trans (x y z : Z) :
  Z.leb x y = true -> Z.leb y z = true -> Z.leb x z = true.
Proof. rewrite !Z.leb_le. lia. Qed.


Lemma getitem0_mode_string (v : list (option string)) :
  dropna v <> [] ->
  exists m, getitem0 (mode v) = Ok m /\ least_mode m (dropna v).
Proof.
  apply getitem0_mode;
    [exact String.eqb_eq | exact String.leb_total | exact string_leb_trans].
Qed.

Lemma getitem0_mode_bool (v : list (option bool)) :
  dropna v <> [] ->
  exists m, getitem0 (mode v) = Ok m /\ least_mode m (dropna v).
Proof.
  apply getitem0_mode;
    [exact Bool.eqb_true_iff | exact bool_leb_total | exact bool_leb_trans].
Qed.

Lemma getitem0_mode_Z (v : list (option Z)) :
  dropna v <> [] ->
  exists m, getitem0 (mode v) = Ok m /\ least_mode m (dropna v).
Proof.
  apply getitem0_mode; [exact Z.eqb_eq | exact Z_leb_total | exact Z_leb_trans].
Qed.

Lemma least_common_string m (p : list string) :
  least_mode m p <-> least_common string_dec String.leb m p.
Proof. exact (@least_mode_common _ Ordered_string String.eqb_eq string_dec m p). Qed.

Lemma least_common_bool m (p : list bool) :
  least_mode m p <-> least_common Bool.bool_dec implb m p.
Proof. exact (@least_mode_common _ Ordered_bool Bool.eqb_true_iff Bool.bool_dec m p). Qed.

Lemma least_common_Z m (p : list Z) :
  least_mode m p <-> least_common Z.eq_dec Z.leb m p.
Proof. exact (@least_mode_common _ Ordered_Z Z.eqb_eq Z.eq_dec m p). Qed.

(** ** The columns seen as cells *)

Lemma dropna_map {A B} (f : A -> B) v :
  dropna (map (option_map f) v) = map f (dropna v).
Proof.
  induction v as [|[x|] v IH]; simpl; [reflexivity | now rewrite IH | exact IH].
Qed.

Lemma dropna_map_Some {A B} (f : A -> B) v :
  dropna (map (fun x => Some (f x)) v) = map f v.
Proof. induction v as [|x v IH]; simpl; [reflexivity | now rewrite IH]. Qed.

Lemma map_not_nil {A B} (f : A -> B) l : map f l <> [] -> l <> [].
Proof. destruct l; [intros H; now contradiction H | discriminate]. Qed.

Lemma dropna_Some {A} (v : list A) : dropna (map Some v) = v.
Proof. induction v as [|x v IH]; simpl; [reflexivity | now rewrite IH]. Qed.
(** ** [ndarray.sum] and [Series.mean]

    Whatever the number of elements, the pairwise summation adds every
    element once. *)

Lemma add_all_adds l s rest :
  adds_up l s -> adds_up (l ++ rest) (add_all s rest).
Proof.
  revert l s. induction rest as [|x rest IH]; intros l s Hs.
  - now rewrite app_nil_r.
  - change (add_all s (x :: rest)) with (add_all (s + x)%float rest).
    replace (l ++ x :: rest) with ((l ++ [x]) ++ rest)
      by (now rewrite <- app_assoc).
    apply IH. apply adds_two; [exact Hs | apply adds_one].
Qed.

Lemma add_lanes_adds ls r : forall block,
  Forall2 adds_up ls r ->
  List.length block = List.length r ->
  Forall2 adds_up (snoc_each ls block) (add_lanes r block).
Proof.
  intros block Hls. revert block.
  induction Hls as [|l s ls r Hl _ IH]; intros [|x block] Hlen;
    try discriminate Hlen; [constructor|].
  injection Hlen as Hlen. unfold snoc_each, add_lanes. cbn [combine map fst snd].
  constructor; [|now apply IH].
  apply adds_two; [exact Hl | apply adds_one].
Qed.

Lemma concat_snoc_each ls : forall block,
  List.length ls = List.length block ->
  Permutation (List.concat (snoc_each ls block)) (List.concat ls ++ block).
Proof.
  induction ls as [|l ls IH]; intros [|x block] Hlen; try discriminate Hlen;
    [constructor|].
  injection Hlen as Hlen. unfold snoc_each. cbn [combine map fst snd List.concat].
  fold (snoc_each ls block).
  rewrite (IH block Hlen), <- !app_assoc.
  apply Permutation_app_head. cbn [app]. apply Permutation_middle.
Qed.

Lemma finish_sum_adds ls r a :
  Forall2 adds_up ls r ->
  List.length r = 8%nat ->
  adds_up (List.concat ls ++ a) (finish_sum r a).
Proof.
  intros Hls Hlen.
  destruct r as [|r0 [|r1 [|r2 [|r3 [|r4 [|r5 [|r6 [|r7 [|r8 r]]]]]]]]];
    try discriminate Hlen.
  repeat match goal with
         | H : Forall2 _ _ (_ :: _) |- _ => inversion H; subst; clear H
         | H : Forall2 _ _ [] |- _ => inversion H; subst; clear H
         end.
  cbn [finish_sum List.concat]. apply add_all_adds. rewrite app_nil_r.
  match goal with
  | |- adds_up (?l0 ++ ?l1 ++ ?l2 ++ ?l3 ++ ?l4 ++ ?l5 ++ ?l6 ++ ?l7) _ =>
      replace (l0 ++ l1 ++ l2 ++ l3 ++ l4 ++ l5 ++ l6 ++ l7)
        with (((l0 ++ l1) ++ (l2 ++ l3)) ++ ((l4 ++ l5) ++ (l6 ++ l7)))
        by (now rewrite <- !app_assoc)
  end.
  repeat apply adds_two; assumption.
Qed.

Lemma unrolled_sum_short r a :
  (List.length a < 8)%nat -> unrolled_sum r a = finish_sum r a.
Proof.
  intros Hlen.
  destruct a as [|a0 [|a1 [|a2 [|a3 [|a4 [|a5 [|a6 [|a7 a]]]]]]]];
    try reflexivity.
  cbn [List.length] in Hlen. lia.
Qed.

Lemma unrolled_sum_adds n : forall a ls r seen,
  List.length a = n ->
  Forall2 adds_up ls r ->
  List.length r = 8%nat ->
  Permutation (List.concat ls) seen ->
  adds_up (seen ++ a) (unrolled_sum r a).
Proof.
  induction n as [n IH] using lt_wf_ind. intros a ls r seen Hn Hls Hr Hseen.
  destruct (Nat.lt_ge_cases (List.length a) 8) as [Hshort|Hlong].
  - rewrite (unrolled_sum_short r a Hshort).
    apply (adds_any_order (List.concat ls ++ a));
      [now apply Permutation_app_tail | now apply finish_sum_adds].
  - destruct a as [|a0 [|a1 [|a2 [|a3 [|a4 [|a5 [|a6 [|a7 a]]]]]]]];
      cbn [List.length] in Hlong; try lia.
    cbn [unrolled_sum].
    replace (seen ++ a0 :: a1 :: a2 :: a3 :: a4 :: a5 :: a6 :: a7 :: a)
      with ((seen ++ [a0; a1; a2; a3; a4; a5; a6; a7]) ++ a)
      by (now rewrite <- app_assoc).
    apply (IH (List.length a)) with
      (ls := snoc_each ls [a0; a1; a2; a3; a4; a5; a6; a7]).
    + subst n. cbn [List.length]. lia.
    + reflexivity.
    + apply add_lanes_adds; [exact Hls | now rewrite Hr].
    + unfold add_lanes. rewrite length_map, length_combine, Hr. reflexivity.
    + rewrite concat_snoc_each.
      * now apply Permutation_app_tail.
      * apply Forall2_length in Hls. now rewrite Hls, Hr.
Qed.

Lemma unrolled_sum_start a :
  (8 <= List.length a)%nat ->
  adds_up a (unrolled_sum (firstn 8 a) (skipn 8 a)).
Proof.
  intros Hlen. rewrite <- (firstn_skipn 8 a) at 1.
  apply (unrolled_sum_adds (List.length (skipn 8 a)))
    with (ls := map (fun x => [x]) (firstn 8 a)).
  - reflexivity.
  - induction (firstn 8 a) as [|x l IHl]; constructor;
      [apply adds_one | exact IHl].
  - rewrite length_firstn. lia.
  - induction (firstn 8 a) as [|x l IHl]; cbn [map List.concat app];
      [constructor | now constructor].
Qed.

Lemma pairwise_sum_adds depth : forall a, adds_up a (pairwise_sum depth a).
Proof.
  induction depth as [|depth IH]; intros a; cbn [pairwise_sum];
    destruct (List.length a <? 8)%nat eqn:Hshort;
    try (apply (add_all_adds [] 0%float a); apply adds_none);
    apply Nat.ltb_ge in Hshort.
  - now apply unrolled_sum_start.
  - destruct (List.length a <=? 128)%nat; [now apply unrolled_sum_start|].
    rewrite <- (firstn_skipn (List.length a / 2 - (List.length a / 2) mod 8) a)
      at 1.
    apply adds_two; apply IH.
Qed.

Lemma np_sum_adds a : adds_up a (np_sum a).
Proof.
  unfold np_sum. apply (adds_two [] a); [apply adds_none | apply pairwise_sum_adds].
Qed.

Lemma mean_float64_mean v : float64_mean (mean v) v.
Proof.
  unfold float64_mean, mean, notna.
  destruct (filter (fun x => negb (PrimFloat.is_nan x)) v) as [|x p] eqn:Hp.
  - reflexivity.
  - exists (np_sum (fillna_float 0%float v)). split; [apply np_sum_adds | reflexivity].
Qed.

Lemma mean_of_nothing v : notna v = [] -> mean v = nan.
Proof. intros E. unfold mean. now rewrite E. Qed.

(** ** Imputation, column by column *)

Lemma has_present_object nm v :
  has_present (mk_series nm (ObjectCol v)) <-> dropna v <> [].
Proof.
  unfold has_present. simpl. rewrite dropna_map.
  split; [apply map_not_nil | destruct (dropna v); [tauto | discriminate]].
Qed.

Lemma has_present_datetime nm v :
  has_present (mk_series nm (DatetimeCol v)) <-> dropna v <> [].
Proof.
  unfold has_present. simpl. rewrite dropna_map.
  split; [apply map_not_nil | destruct (dropna v); [tauto | discriminate]].
Qed.

Lemma has_present_bool nm v :
  has_present (mk_series nm (BoolCol v)) <-> dropna v <> [].
Proof.
  unfold has_present. simpl. rewrite dropna_map.
  split; [apply map_not_nil | destruct (dropna v); [tauto | discriminate]].
Qed.

Lemma not_numeric_bool nm v : is_numeric (mk_series nm (BoolCol v)) = false.
Proof.
  unfold is_numeric, dtype_of. cbn [values].
  destruct (existsb isnull v); reflexivity.
Qed.

Lemma impute_column_least_mode c :
  is_numeric c = false ->
  has_present c ->
  exists c', impute_column c = Ok c' /\ imputed_least_mode c c'.
Proof.
  destruct c as [nm [v|v|v|v|v]]; intros Hnum Hp; try discriminate Hnum;
    unfold impute_column, imputed_least_mode; cbn [values name].
  - apply has_present_bool in Hp.
    destruct (getitem0_mode_bool v Hp) as [m [E Hm]].
    rewrite E. simpl. eexists. split; [reflexivity|]. cbn [values name].
    split; [reflexivity|]. exists m.
    split; [now apply least_common_bool | apply fills_fillna].
  - apply has_present_object in Hp.
    destruct (getitem0_mode_string v Hp) as [m [E Hm]].
    rewrite E. simpl. eexists. split; [reflexivity|]. cbn [values name].
    split; [reflexivity|]. exists m.
    split; [now apply least_common_string | apply fills_fillna].
  - apply has_present_datetime in Hp.
    destruct (getitem0_mode_Z v Hp) as [m [E Hm]].
    rewrite E. simpl. eexists. split; [reflexivity|]. cbn [values name].
    split; [reflexivity|]. exists m.
    split; [now apply least_common_Z | apply fills_fillna].
Qed.

Lemma impute_column_imputed c :
  (is_numeric c = false -> has_present c) ->
  exists c', impute_column c = Ok c' /\ imputed c c'.
Proof.
  intros Hp. destruct (is_numeric c) eqn:Hnum.
  - destruct c as [nm [v|v|v|v|v]];
      try (rewrite not_numeric_bool in Hnum); try discriminate Hnum;
      unfold impute_column, imputed; cbn [values name].
    + eexists. split; [reflexivity|]. cbn [values name]. auto.
    + eexists. split; [reflexivity|]. cbn [values name].
      split; [reflexivity|]. exists (mean v).
      split; [apply mean_float64_mean | apply fills_gaps_fillna].
  - destruct (impute_column_least_mode c Hnum (Hp eq_refl)) as [c' [E Hc']].
    exists c'. split; [exact E|]. destruct Hc' as [Hname Hc'].
    split; [exact Hname|].
    destruct (values c) as [v|v|v|v|v], (values c') as [v'|v'|v'|v'|v'];
      try contradiction; destruct Hc' as [m [[Hm _] Hf]]; eauto.
Qed.

Lemma for_each_Forall2 {A B} (body : A -> result B) (P : A -> Prop)
    (R : A -> B -> Prop) l :
  (forall x, P x -> exists y, body x = Ok y /\ R x y) ->
  Forall P l ->
  exists l', for_each body l = Ok l' /\ Forall2 R l l'.
Proof.
  intros Hbody. induction 1 as [|x l Hx Hl IH]; simpl.
  - exists []. split; [reflexivity | constructor].
  - destruct (Hbody x Hx) as [y [Ey Hy]]. destruct IH as [l' [El' Hl']].
    rewrite Ey; simpl. rewrite El'; simpl.
    exists (y :: l'). split; [reflexivity | now constructor].
Qed.

Lemma handle_missing_values_run s df w cols' :
  data s = Some df ->
  for_each impute_column (columns df) = Ok cols' ->
  handle_missing_values s w =
    (Ok (mk_self (file_path s) (Some (mk_df (index df) cols'))),
     printing w [Line "Missing values handled by mean/mode imputation."]).
Proof.
  intros Hd Hcols. unfold handle_missing_values. rewrite Hd.
  unfold bind, lift. rewrite Hcols. reflexivity.
Qed.






(** ** Imputation on a column with no present value *)

(** C3, on the code.  A [float64] column whose cells are all missing goes
    through [handle_missing_values] unchanged: the call returns, prints
    the confirmation it always prints and nothing about the column, and
    the two cells of the column are still missing.  On the frame of a header-only file,
    whose [object] column has no cell at all, the call raises [KeyError]
    and prints nothing. *)
Theorem blank_column_passes_silently :
  handle_missing_values (mk_self "in.csv" (Some blank_frame)) bare_world =
    (Ok (mk_self "in.csv" (Some blank_frame)),
     printing bare_world [Line "Missing values handled by mean/mode imputation."]) /\
  map null_count (columns blank_frame) = [0%nat; 2%nat] /\
  handle_missing_values (mk_self "in.csv" (Some header_only_frame)) bare_world =
    (Raise (mk_exn KeyError "0"), bare_world).
Proof. repeat split. Qed.

(** ** Format fixing *)

Lemma existsb_present {A} (v : list (option A)) :
  existsb (fun x => negb (isnull x)) v =
  match dropna v with [] => false | _ :: _ => true end.
Proof.
  induction v as [|[x|] v IH]; simpl; [reflexivity | reflexivity | exact IH].
Qed.

Lemma to_datetime_coerce_id d : to_datetime_coerce d = d.
Proof.
  destruct d as [v|v|v|v|v]; try reflexivity. unfold to_datetime_coerce.
  f_equal. rewrite <- (map_id v) at 2.
  apply map_ext. intros [t|]; reflexivity.
Qed.

(** The loop body of [fix_inconsistent_formats] raises on an [object]
    column that holds booleans; on every other column it returns, with
    the strings in title case and everything else as it was. *)
Lemma fix_column_run c :
  fix_column c =
    if holds_booleans c
    then Raise (mk_exn AttributeError
                  "Can only use .str accessor with string values!")
    else Ok (fixed_column c).
Proof.
  destruct c as [nm [v|v|v|v|v]];
    unfold fix_column, is_datetime64_any_dtype, is_string_dtype, dtype_of,
      holds_booleans, fixed_column;
    cbn [values name]; try reflexivity.
  - destruct (existsb isnull v); cbn; [|reflexivity].
    rewrite existsb_present. destruct (dropna v); reflexivity.
  - cbn [dtype_eqb]. now rewrite to_datetime_coerce_id.
Qed.

Lemma for_each_fix_returns l :
  Forall (fun c => holds_booleans c = false) l ->
  for_each fix_column l = Ok (map fixed_column l).
Proof.
  induction 1 as [|c l Hc _ IH]; [reflexivity|].
  cbn [for_each map]. rewrite fix_column_run, Hc, IH. reflexivity.
Qed.

Lemma for_each_fix_raises l :
  Exists (fun c => holds_booleans c = true) l ->
  for_each fix_column l =
    Raise (mk_exn AttributeError "Can only use .str accessor with string values!").
Proof.
  induction l as [|c l IH]; intros Hex; [inversion Hex|].
  cbn [for_each]. rewrite fix_column_run.
  destruct (holds_booleans c) eqn:Hc; [reflexivity|].
  cbn [result_bind]. rewrite IH; [reflexivity|].
  inversion Hex; subst; [congruence | assumption].
Qed.

Lemma fix_inconsistent_formats_run s df w :
  data s = Some df ->
  Forall (fun c => holds_booleans c = false) (columns df) ->
  fix_inconsistent_formats s w =
    (Ok (mk_self (file_path s) (Some (fixed df))),
     printing w [Line "Inconsistent formats fixed where applicable."]).
Proof.
  intros Hd Hc. unfold fix_inconsistent_formats. rewrite Hd.
  unfold bind, lift. rewrite (for_each_fix_returns _ Hc). reflexivity.
Qed.

Lemma fix_inconsistent_formats_raise s df w :
  data s = Some df ->
  Exists (fun c => holds_booleans c = true) (columns df) ->
  fix_inconsistent_formats s w =
    (Raise (mk_exn AttributeError "Can only use .str accessor with string values!"),
     w).
Proof.
  intros Hd Hc. unfold fix_inconsistent_formats. rewrite Hd.
  unfold bind, lift. rewrite (for_each_fix_raises _ Hc). reflexivity.
Qed.

Lemma fixed_column_formatted c : formatted c (fixed_column c).
Proof.
  destruct c as [nm [v|v|v|v|v]]; unfold formatted, fixed_column;
    cbn [values name retitled]; split; try reflexivity.
  split; [apply length_map|]. intros i. split.
  - intros E. rewrite nth_error_map, E. reflexivity.
  - intros s E. exists (title s). split; [|apply title_titled].
    rewrite nth_error_map, E. reflexivity.
Qed.

Lemma Forall2_map_graph {A B} (R : A -> B -> Prop) (f : A -> B) l :
  (forall x, R x (f x)) -> Forall2 R l (map f l).
Proof. intros Hf. induction l; simpl; constructor; auto. Qed.

(** C4, as the code has it.  On a loaded frame none of whose [object]
    columns holds booleans, [fix_inconsistent_formats] returns normally
    and leaves the index as it was.  Every present cell of every column of
    strings is put in title case by [str.title], whose words are the runs
    of cased characters.  In ASCII text: a letter is capitalised when it
    opens the string or follows a character that is not a letter
    (whitespace, but also a digit, an apostrophe, a hyphen), and
    lowercased when it follows a letter; characters that are not letters
    are kept; on text made of letters and whitespace this is the
    whitespace-delimited rule.  Missing cells stay missing, and the other
    columns are as they were. *)
Theorem fix_inconsistent_formats_titles s df w :
  data s = Some df ->
  Forall (fun c => holds_booleans c = false) (columns df) ->
  exists cols',
    returns_printing (fix_inconsistent_formats s w)
      (mk_self (file_path s) (Some (mk_df (index df) cols'))) w
      [Line "Inconsistent formats fixed where applicable."] /\
    Forall2 formatted (columns df) cols'.
Proof.
  intros Hd Hc. exists (map fixed_column (columns df)). split.
  - apply (fix_inconsistent_formats_run s df w Hd Hc).
  - apply Forall2_map_graph. apply fixed_column_formatted.
Qed.

(** C4, as stated, fails: the text "they're here" of a text column comes
    out as "They'Re Here", where the whitespace-delimited rule gives
    "They're Here" ("hello world" comes out as "Hello World"). *)
Lemma title_breaks_words_at_apostrophes :
  fix_inconsistent_formats (mk_self "in.csv" (Some greetings_frame)) bare_world =
    (Ok (mk_self "in.csv"
           (Some (mk_df [0; 1]%nat
                    [ mk_series "greeting"
                        (ObjectCol [Some "Hello World"; Some "They'Re Here"]);
                      mk_series "n" (Int64Col [7; 8]%Z) ]))),
     printing bare_world [Line "Inconsistent formats fixed where applicable."]) /\
  title_whitespace "they're here" = "They're Here" /\
  title "they're here" <> title_whitespace "they're here".
Proof. vm_compute. repeat split. discriminate. Qed.


(** ** Running a step twice *)





(** ** Loading *)

Lemma init_run file_path w :
  __init__ file_path w =
    match pd_read_csv w file_path with
    | Ok df =>
        (Ok (mk_self file_path (Some df)),
         printing w [Line "Data successfully loaded."])
    | Raise e =>
        if isinstance e FileNotFoundError then
          (Ok (mk_self file_path None),
           printing w [Line ("Error: File not found at " ++ file_path)])
        else if isinstance e EmptyDataError then
          (Ok (mk_self file_path None),
           printing w [Line "Error: The file is empty."])
        else if isinstance e ParserError then
          (Ok (mk_self file_path None),
           printing w [Line "Error: Could not parse the file."])
        else (Raise e, w)
    end.
Proof.
  unfold __init__, try_except, bind, read_csv.
  destruct (pd_read_csv w file_path) as [df|e]; [reflexivity|].
  cbn [find fst snd].
  destruct (isinstance e FileNotFoundError); [reflexivity|].
  destruct (isinstance e EmptyDataError); [reflexivity|].
  destruct (isinstance e ParserError); reflexivity.
Qed.

(** C6, on the code.  A file that exists and may not be read makes the
    read raise [PermissionError], which is none of the three errors that
    [__init__] handles: [__init__] raises, and the program ends there
    with exit status 1, where [save_clean_data], whose handler takes every
    [Exception], reports the same error of a write and goes on.  A file
    that has a header and no row is loaded as a frame without rows:
    [__init__] reports success, and the program ends later, in
    [handle_missing_values], with exit status 1. *)
Theorem unreadable_file_ends_the_program :
  let e := mk_exn PermissionError
             "[Errno 13] Permission denied: 'path_to_dirty_dataset.csv'" in
  let w := world_raising "path_to_dirty_dataset.csv" e in
  isinstance e FileNotFoundError = false /\
  isinstance e EmptyDataError = false /\
  isinstance e ParserError = false /\
  __init__ "path_to_dirty_dataset.csv" w = (Raise e, w) /\
  main w = (Raise e, w) /\
  exit_status w = 1%nat /\
  save_clean_data "out.csv" (mk_self "in.csv" (Some repeated_frame)) read_only_world =
    (Ok (mk_self "in.csv" (Some repeated_frame)),
     printing read_only_world
       [Line "Error when saving data: [Errno 13] Permission denied: out.csv"]) /\
  __init__ "path_to_dirty_dataset.csv" (driver_world header_only_frame) =
    (Ok (mk_self "path_to_dirty_dataset.csv" (Some header_only_frame)),
     printing (driver_world header_only_frame) [Line "Data successfully loaded."]) /\
  fst (main (driver_world header_only_frame)) = Raise (mk_exn KeyError "0") /\
  exit_status (driver_world header_only_frame) = 1%nat.
Proof. repeat split. Qed.

(** ** Saving *)

Lemma isinstance_Exception e : isinstance e Exception = true.
Proof. destruct e as [[] msg]; reflexivity. Qed.

Lemma save_clean_data_run s df output_path w :
  data s = Some df ->
  save_clean_data output_path s w =
    match open_for_writing w output_path with
    | None =>
        (Ok s, writing w output_path (to_csv false df)
                 [Line ("Cleaned data saved to " ++ output_path)])
    | Some e =>
        (Ok s, printing w [Line ("Error when saving data: " ++ exn_msg e)])
    end.
Proof.
  intros Hd. unfold save_clean_data, try_except, bind, write_csv. rewrite Hd.
  destruct (open_for_writing w output_path) as [e|] eqn:E; [|reflexivity].
  cbn [find fst snd]. now rewrite isinstance_Exception.
Qed.

Lemma map_snd_combine {A B C} (g : B -> C) (l1 : list A) (l2 : list B) :
  List.length l1 = List.length l2 ->
  map (fun p => g (snd p)) (combine l1 l2) = map g l2.
Proof.
  revert l2; induction l1 as [|x l1 IH]; intros [|y l2] Hlen; simpl in *;
    try reflexivity; try discriminate.
  injection Hlen as Hlen. now rewrite IH.
Qed.

Lemma to_csv_records df :
  to_csv false df =
    map (fun c => Label (name c)) (columns df) :: map (map Value) (rows df).
Proof.
  unfold to_csv. simpl. f_equal. apply map_snd_combine.
  unfold rows. now rewrite transpose_length.
Qed.

Lemma transpose_nth n : forall cols i,
  (i < n)%nat ->
  nth_error (transpose n cols) i = Some (map (fun col => nth i col None) cols).
Proof.
  induction n as [|n IH]; intros cols i Hi; [lia|].
  cbn [transpose]. destruct i as [|i]; cbn [nth_error].
  - f_equal. apply map_ext. intros [|x col]; reflexivity.
  - rewrite IH by lia. f_equal. rewrite map_map.
    apply map_ext. intros [|x col]; [destruct i|]; reflexivity.
Qed.

Lemma to_csv_serialised df : serialised df (to_csv false df).
Proof.
  rewrite to_csv_records. unfold serialised.
  split; [|split].
  - cbn [List.length]. rewrite length_map. unfold rows.
    now rewrite transpose_length.
  - eexists. split; [reflexivity|]. split; [apply length_map|].
    intros j c Hj. now rewrite nth_error_map, Hj.
  - intros i Hi. cbn [nth_error]. unfold rows.
    rewrite nth_error_map, (transpose_nth _ _ i Hi). cbn [option_map].
    eexists. split; [reflexivity|]. split; [now rewrite !length_map|].
    intros j c Hj. rewrite !nth_error_map, Hj. reflexivity.
Qed.

(** C8.  On a loaded frame [save_clean_data] returns normally and leaves
    the object as it was.  When the path can be written, the file holds
    the record of the column labels first and then one record per row,
    in order; a record has one field per column, the cell of that column
    in that row, so nothing stands for the index; the confirmation is
    printed.  When writing raises an exception, whatever its class, it is
    caught, nothing is written and the line printed ends with the message
    of the exception. *)
Theorem save_clean_data_writes_or_reports s df output_path w :
  data s = Some df ->
  match open_for_writing w output_path with
  | None =>
      exists doc,
        save_clean_data output_path s w =
          (Ok s, writing w output_path doc
                   [Line ("Cleaned data saved to " ++ output_path)]) /\
        serialised df doc
  | Some e =>
      returns_printing (save_clean_data output_path s w) s w
        [Line ("Error when saving data: " ++ exn_msg e)]
  end.
Proof.
  intros Hd. unfold returns_printing.
  rewrite (save_clean_data_run s df output_path w Hd).
  destruct (open_for_writing w output_path); [reflexivity|].
  exists (to_csv false df). split; [reflexivity | apply to_csv_serialised].
Qed.

(** ** A failed load *)

Lemma no_data_steps s w output_path :
  data s = None ->
  returns_printing (summarize_data s w) s w [Line "No data to summarize."] /\
  returns_printing (identify_missing_values s w) s w
    [Line "No data to analyze for missing values."] /\
  returns_printing (handle_missing_values s w) s w
    [Line "No data to handle missing values."] /\
  returns_printing (remove_duplicates s w) s w
    [Line "No data from which to remove duplicates."] /\
  returns_printing (fix_inconsistent_formats s w) s w [Line "No data to fix formats."] /\
  returns_printing (save_clean_data output_path s w) s w [Line "No data to save."].
Proof.
  intros Hd.
  unfold returns_printing, summarize_data, identify_missing_values,
    handle_missing_values, remove_duplicates, fix_inconsistent_formats,
    save_clean_data.
  rewrite Hd. repeat split.
Qed.

Lemma main_after_failed_load w diagnostic :
  __init__ "path_to_dirty_dataset.csv" w =
    (Ok (mk_self "path_to_dirty_dataset.csv" None), printing w [Line diagnostic]) ->
  main w =
    (Ok (mk_self "path_to_dirty_dataset.csv" None),
     printing w [ Line diagnostic;
                  Line "No data to summarize.";
                  Line "No data to analyze for missing values.";
                  Line "No data to handle missing values.";
                  Line "No data from which to remove duplicates.";
                  Line "No data to fix formats.";
                  Line "No data to save." ]).
Proof.
  intros Hinit. unfold main. unfold bind at 1. rewrite Hinit.
  unfold printing. cbn. rewrite <- !app_assoc. reflexivity.
Qed.

(** C9.  When the read raises one of the three errors that [__init__]
    handles, [data] is null; then each of the six steps, in any world,
    returns normally, leaves the object as it was, writes no file and
    prints one advisory line; the driver runs to its end, having printed
    the diagnostic of the load and the six advisories and written no
    file, and the exit status is 0. *)
Theorem failed_load_makes_every_step_advisory w e :
  pd_read_csv w "path_to_dirty_dataset.csv" = Raise e ->
  (isinstance e FileNotFoundError || isinstance e EmptyDataError
   || isinstance e ParserError) = true ->
  let s := mk_self "path_to_dirty_dataset.csv" None in
  (forall w' output_path,
     returns_printing (summarize_data s w') s w' [Line "No data to summarize."] /\
     returns_printing (identify_missing_values s w') s w'
       [Line "No data to analyze for missing values."] /\
     returns_printing (handle_missing_values s w') s w'
       [Line "No data to handle missing values."] /\
     returns_printing (remove_duplicates s w') s w'
       [Line "No data from which to remove duplicates."] /\
     returns_printing (fix_inconsistent_formats s w') s w'
       [Line "No data to fix formats."] /\
     returns_printing (save_clean_data output_path s w') s w'
       [Line "No data to save."]) /\
  (exists diagnostic,
     returns_printing (main w) s w
       [ Line diagnostic;
         Line "No data to summarize.";
         Line "No data to analyze for missing values.";
         Line "No data to handle missing values.";
         Line "No data from which to remove duplicates.";
         Line "No data to fix formats.";
         Line "No data to save." ]) /\
  exit_status w = 0%nat.
Proof.
  intros Hread Hcaught s.
  split; [intros w' output_path; now apply no_data_steps|].
  assert (Hinit : exists diagnostic,
             __init__ "path_to_dirty_dataset.csv" w
             = (Ok s, printing w [Line diagnostic])).
  { rewrite init_run, Hread.
    destruct (isinstance e FileNotFoundError); [eexists; reflexivity|].
    destruct (isinstance e EmptyDataError); [eexists; reflexivity|].
    destruct (isinstance e ParserError); [eexists; reflexivity|].
    discriminate Hcaught. }
  destruct Hinit as [diagnostic Hinit].
  pose proof (main_after_failed_load w diagnostic Hinit) as Hmain.
  split; [exists diagnostic; exact Hmain|].
  unfold exit_status. now rewrite Hmain.
Qed.

(** ** The examples of the specification *)

(** The numeric column [1, null, 3] has its missing cell set to 2.0. *)
Example impute_scores :
  impute_column scores = Ok (mk_series "score" (Float64Col [1; 2; 3]%float)).
Proof. vm_compute. reflexivity. Qed.

(** The text column ["a", "a", null, "b"] has its missing cell set to "a". *)
Example impute_grades :
  impute_column grades =
    Ok (mk_series "grade" (ObjectCol [Some "a"; Some "a"; Some "a"; Some "b"])).
Proof. reflexivity. Qed.

(** Of "oslo" and "rome", tied at two occurrences, "oslo" is chosen. *)
Example impute_tied :
  for_each impute_column (columns tied_frame) =
    Ok [ mk_series "city"
           (ObjectCol [Some "rome"; Some "oslo"; Some "oslo"; Some "rome"; Some "oslo"]) ].
Proof. reflexivity. Qed.

(** The column of booleans [True, null, False] is filled with [False],
    the lesser of its two values, and is a [bool] column afterwards; before
    that, format fixing raises on it. *)
Example impute_flags :
  map dtype_of (columns flags_frame) = [int64; object_] /\
  for_each impute_column (columns flags_frame) =
    Ok [ mk_series "id" (Int64Col [1; 2; 3]%Z);
         mk_series "ok" (BoolCol [Some true; Some false; Some false]) ] /\
  dtype_of (mk_series "ok" (BoolCol [Some true; Some false; Some false])) = bool_ /\
  fix_inconsistent_formats (mk_self "in.csv" (Some flags_frame)) bare_world =
    (Raise (mk_exn AttributeError "Can only use .str accessor with string values!"),
     bare_world).
Proof. repeat split. Qed.

(** A file that is not there: [data] is null and the diagnostic names
    the path. *)
Example init_missing_file :
  __init__ "nowhere.csv" bare_world =
    (Ok (mk_self "nowhere.csv" None),
     printing bare_world [Line "Error: File not found at nowhere.csv"]).
Proof. reflexivity. Qed.

(** ** The theorems at sample data *)

(** The frame of the three rows is well formed. *)
Lemma well_formed_repeated_frame : well_formed repeated_frame.
Proof. split; [discriminate | repeat constructor]. Defined.


(** Removal of duplicates from the rows (1, "x"), (2, "y"), (1, "x"):
    the rows (1, "x"), (2, "y") are left and 1 row is reported. *)
Lemma remove_duplicates_spec_at_repeated :
  well_formed repeated_frame /\
  remove_duplicates (mk_self "in.csv" (Some repeated_frame)) bare_world =
    (Ok (mk_self "in.csv"
           (Some (mk_df [0; 1]%nat
                    [ mk_series "id" (Int64Col [1; 2]%Z);
                      mk_series "tag" (ObjectCol [Some "x"; Some "y"]) ]))),
     printing bare_world [Line "Duplicates removed: 1"]) /\
  exists df' digits,
    returns_printing
      (remove_duplicates (mk_self "in.csv" (Some repeated_frame)) bare_world)
      (mk_self "in.csv" (Some df')) bare_world
      [Line ("Duplicates removed: " ++ digits)] /\
    numeral_of digits (count_true (duplicated repeated_frame)) /\
    List.length (duplicated repeated_frame) = List.length (rows repeated_frame) /\
    (forall i, nth_error (duplicated repeated_frame) i = Some true
               <-> earlier_duplicate (rows repeated_frame) i) /\
    rows df' = select (map negb (duplicated repeated_frame)) (rows repeated_frame) /\
    (List.length (rows df') + count_true (duplicated repeated_frame))%nat
      = List.length (rows repeated_frame) /\
    NoDup (rows df') /\
    (forall r, In r (rows repeated_frame) <-> In r (rows df')).
Proof.
  split; [exact well_formed_repeated_frame|]. split; [reflexivity|].
  exact (remove_duplicates_spec
           (mk_self "in.csv" (Some repeated_frame)) repeated_frame bare_world
           eq_refl well_formed_repeated_frame).
Defined.



(** Format fixing of the frame with the greetings. *)
Lemma fix_inconsistent_formats_titles_at_greetings :
  Forall (fun c => holds_booleans c = false) (columns greetings_frame) /\
  exists cols',
    returns_printing
      (fix_inconsistent_formats (mk_self "in.csv" (Some greetings_frame)) bare_world)
      (mk_self "in.csv" (Some (mk_df [0; 1]%nat cols'))) bare_world
      [Line "Inconsistent formats fixed where applicable."] /\
    Forall2 formatted (columns greetings_frame) cols'.
Proof.
  assert (Hb : Forall (fun c => holds_booleans c = false) (columns greetings_frame))
    by (repeat constructor).
  split; [exact Hb|].
  exact (fix_inconsistent_formats_titles
           (mk_self "in.csv" (Some greetings_frame)) greetings_frame bare_world
           eq_refl Hb).
Defined.

(** Saving the rows (1, "x"), (2, "y"), (1, "x"): where the path can be
    written, the file holds the labels and the three rows; where it
    cannot, the error is reported and the call returns. *)
Lemma save_clean_data_at_bare_world :
  save_clean_data "out.csv" (mk_self "in.csv" (Some repeated_frame)) bare_world =
    (Ok (mk_self "in.csv" (Some repeated_frame)),
     writing bare_world "out.csv"
       [ [Label "id"; Label "tag"];
         [Value (Some (SInt 1)); Value (Some (SStr "x"))];
         [Value (Some (SInt 2)); Value (Some (SStr "y"))];
         [Value (Some (SInt 1)); Value (Some (SStr "x"))] ]
       [Line "Cleaned data saved to out.csv"]) /\
  (exists doc,
      save_clean_data "out.csv" (mk_self "in.csv" (Some repeated_frame)) bare_world =
        (Ok (mk_self "in.csv" (Some repeated_frame)),
         writing bare_world "out.csv" doc [Line "Cleaned data saved to out.csv"]) /\
      serialised repeated_frame doc) /\
  returns_printing
    (save_clean_data "out.csv" (mk_self "in.csv" (Some repeated_frame)) read_only_world)
    (mk_self "in.csv" (Some repeated_frame)) read_only_world
    [Line "Error when saving data: [Errno 13] Permission denied: out.csv"].
Proof.
  split; [reflexivity|]. split.
  - exact (save_clean_data_writes_or_reports
             (mk_self "in.csv" (Some repeated_frame)) repeated_frame "out.csv"
             bare_world eq_refl).
  - exact (save_clean_data_writes_or_reports
             (mk_self "in.csv" (Some repeated_frame)) repeated_frame "out.csv"
             read_only_world eq_refl).
Defined.

(** The driver where the input file is not there. *)
Lemma failed_load_at_bare_world :
  pd_read_csv bare_world "path_to_dirty_dataset.csv" =
    Raise (mk_exn FileNotFoundError
             "[Errno 2] No such file or directory: path_to_dirty_dataset.csv") /\
  exit_status bare_world = 0%nat /\
  exists diagnostic,
    returns_printing (main bare_world)
      (mk_self "path_to_dirty_dataset.csv" None) bare_world
      [ Line diagnostic;
        Line "No data to summarize.";
        Line "No data to analyze for missing values.";
        Line "No data to handle missing values.";
        Line "No data from which to remove duplicates.";
        Line "No data to fix formats.";
        Line "No data to save." ].
Proof.
  split; [reflexivity|].
  destruct (failed_load_makes_every_step_advisory bare_world
              (mk_exn FileNotFoundError
                 "[Errno 2] No such file or directory: path_to_dirty_dataset.csv")
              eq_refl eq_refl) as [_ [Hmain Hexit]].
  split; [exact Hexit | exact Hmain].
Defined.

(* ================================================================== *)
(** * Part III: further properties of the methods *)
(* ================================================================== *)

(** ** Counting missing cells *)

Lemma filter_map_swap {A B} (p : B -> bool) (f : A -> B) l :
  filter p (map f l) = map f (filter (fun x => p (f x)) l).
Proof.
  induction l as [|x l IH]; simpl; [reflexivity|].
  destruct (p (f x)); simpl; now rewrite IH.
Qed.

Lemma null_count_positive c : (0 <? null_count c)%nat = has_missing c.
Proof.
  unfold null_count, has_missing.
  induction (cells (values c)) as [|x l IH]; simpl; [reflexivity|].
  destruct (isnull x); simpl; [reflexivity | exact IH].
Qed.

Lemma null_count_mask c : null_count c = count_true (missing_mask c).
Proof.
  unfold null_count, missing_mask, count_true.
  induction (cells (values c)) as [|x l IH]; simpl; [reflexivity|].
  destruct (isnull x); simpl; now rewrite IH.
Qed.
Lemma no_null_after_fillna {A B} (f : A -> B) (m : A) v :
  filter isnull (map (option_map f) (fillna m v)) = [].
Proof. induction v as [|[x|] v IH]; simpl; [reflexivity | exact IH | exact IH]. Qed.

Lemma fillna_full {A} (m : A) v :
  filter isnull v = [] -> fillna m v = v.
Proof.
  induction v as [|[x|] v IH]; simpl; intros E; try reflexivity.
  - now rewrite IH.
  - discriminate E.
Qed.

(** ** Inspection *)

Lemma identify_missing_values_run s df w :
  data s = Some df ->
  identify_missing_values s w =
    (Ok s,
     printing w
       [ Line "Missing Values Summary:";
         Line "===================================";
         CountTable (map (fun c => (name c, null_count c))
                         (filter has_missing (columns df))) ]).
Proof.
  intros Hd. unfold identify_missing_values. rewrite Hd.
  rewrite filter_map_swap. cbn [snd].
  rewrite (filter_ext _ has_missing) by (intros c; apply null_count_positive).
  unfold printing, bind, print, ret. cbn. rewrite <- !app_assoc. reflexivity.
Qed.

(** X1.  On a loaded frame [identify_missing_values] returns normally,
    leaves the object as it was and writes no file; the table it prints
    lists, in the order of the columns, exactly the columns that have a
    missing cell, each with the number of its missing cells, which is
    never 0. *)
Theorem identify_missing_values_lists_columns_with_gaps s df w :
  data s = Some df ->
  exists table,
    returns_printing (identify_missing_values s w) s w
      [ Line "Missing Values Summary:";
        Line "===================================";
        CountTable table ] /\
    table = map (fun c => (name c, null_count c))
                (filter has_missing (columns df)) /\
    (forall nm n,
       In (nm, n) table <->
       exists c, In c (columns df) /\ name c = nm /\ null_count c = n
                 /\ In None (cells (values c))) /\
    Forall (fun entry => (0 < snd entry)%nat) table.
Proof.
  intros Hd. eexists. split; [apply (identify_missing_values_run s df w Hd)|].
  split; [reflexivity|]. split.
  - intros nm n. rewrite in_map_iff. split.
    + intros [c [E Hc]]. apply filter_In in Hc. destruct Hc as [Hc Hm].
      exists c. injection E as <- <-. repeat split; try assumption.
      unfold has_missing in Hm. apply existsb_exists in Hm.
      destruct Hm as [[x|] [Hin Hx]]; [discriminate Hx | exact Hin].
    + intros [c [Hc [<- [<- Hnone]]]]. exists c. split; [reflexivity|].
      apply filter_In. split; [exact Hc|].
      unfold has_missing. apply existsb_exists. exists None. auto.
  - apply Forall_map. apply Forall_forall. intros c Hc.
    apply filter_In in Hc. destruct Hc as [_ Hm]. cbn [snd].
    rewrite <- null_count_positive in Hm. now apply Nat.ltb_lt.
Qed.
(** ** When imputation raises *)

Lemma can_impute_or_blank c : can_impute c \/ blank c.
Proof.
  unfold can_impute, blank, has_present.
  destruct (is_numeric c); [left; discriminate|].
  destruct (dropna (cells (values c))) as [|x p].
  - right. split; [reflexivity | intros H; now apply H].
  - left. intros _. discriminate.
Qed.

Lemma can_impute_not_blank c : can_impute c -> ~ blank c.
Proof. intros Hc [Hnum Hp]. apply Hp. now apply Hc. Qed.

Lemma Forall_can_impute_or_Exists_blank l :
  Forall can_impute l \/ Exists blank l.
Proof.
  induction l as [|c l [IH|IH]].
  - left. constructor.
  - destruct (can_impute_or_blank c) as [Hc|Hb].
    + left. now constructor.
    + right. now constructor.
  - right. now constructor 2.
Qed.

Lemma impute_column_blank c :
  blank c -> impute_column c = Raise (mk_exn KeyError "0").
Proof.
  intros [Hnum Hp]. unfold impute_column.
  destruct c as [nm [v|v|v|v|v]]; try discriminate Hnum; cbn [values name].
  - rewrite has_present_bool in Hp.
    rewrite mode_of_nothing; [reflexivity|].
    destruct (dropna v); [reflexivity | exfalso; apply Hp; discriminate].
  - rewrite has_present_object in Hp.
    rewrite mode_of_nothing; [reflexivity|].
    destruct (dropna v); [reflexivity | exfalso; apply Hp; discriminate].
  - rewrite has_present_datetime in Hp.
    rewrite mode_of_nothing; [reflexivity|].
    destruct (dropna v); [reflexivity | exfalso; apply Hp; discriminate].
Qed.

Lemma impute_column_returns c :
  can_impute c -> exists c', impute_column c = Ok c'.
Proof.
  intros Hc. destruct (impute_column_imputed c Hc) as [c' [E _]]. eauto.
Qed.

Lemma for_each_impute_blank l :
  Exists blank l -> for_each impute_column l = Raise (mk_exn KeyError "0").
Proof.
  induction l as [|c l IH]; intros Hex; [inversion Hex|]. simpl.
  destruct (can_impute_or_blank c) as [Hc|Hb].
  - destruct (impute_column_returns c Hc) as [c' E]. rewrite E. simpl.
    rewrite IH; [reflexivity|].
    inversion Hex; subst; [|assumption].
    now contradiction (can_impute_not_blank c Hc).
  - now rewrite (impute_column_blank c Hb).
Qed.

Lemma for_each_impute_returns l :
  Forall can_impute l -> exists l', for_each impute_column l = Ok l'.
Proof.
  intros Hl.
  destruct (for_each_Forall2 impute_column _ imputed l impute_column_imputed Hl)
    as [l' [E _]].
  eauto.
Qed.

Lemma handle_missing_values_raise s df w :
  data s = Some df ->
  Exists blank (columns df) ->
  handle_missing_values s w = (Raise (mk_exn KeyError "0"), w).
Proof.
  intros Hd Hex. unfold handle_missing_values. rewrite Hd.
  unfold bind, lift. now rewrite (for_each_impute_blank _ Hex).
Qed.

(** X3.  On a loaded frame [handle_missing_values] raises exactly when
    some column that is not numeric has no present value; the exception
    is then the [KeyError] of [mode()[0]], nothing is printed and no file
    is written.  In every other case it returns. *)
Theorem handle_missing_values_raises_on_blank_columns s df w :
  data s = Some df ->
  (Exists blank (columns df) <->
   handle_missing_values s w = (Raise (mk_exn KeyError "0"), w)) /\
  (Forall can_impute (columns df) <->
   exists s', fst (handle_missing_values s w) = Ok s').
Proof.
  intros Hd. split; split.
  - apply (handle_missing_values_raise s df w Hd).
  - intros Hraise.
    destruct (Forall_can_impute_or_Exists_blank (columns df)) as [Hall|Hex];
      [|exact Hex].
    destruct (for_each_impute_returns _ Hall) as [cols' E].
    rewrite (handle_missing_values_run s df w cols' Hd E) in Hraise.
    discriminate Hraise.
  - intros Hall. destruct (for_each_impute_returns _ Hall) as [cols' E].
    rewrite (handle_missing_values_run s df w cols' Hd E). eexists. reflexivity.
  - intros [s' Hok].
    destruct (Forall_can_impute_or_Exists_blank (columns df)) as [Hall|Hex];
      [exact Hall|].
    rewrite (handle_missing_values_raise s df w Hd Hex) in Hok.
    discriminate Hok.
Qed.
(** ** Imputation twice *)

Lemma fillna_no_null {A} (m : A) v : filter isnull (fillna m v) = [].
Proof. induction v as [|[x|] v IH]; simpl; [reflexivity | exact IH | exact IH]. Qed.

Lemma dropna_fillna_present {A} (m : A) v :
  dropna v <> [] -> dropna (fillna m v) <> [].
Proof. destruct v as [|[x|] v]; simpl; [congruence | discriminate | discriminate]. Qed.

Lemma getitem0_mode_present {A} `{Ordered A} (v : list (option A)) m :
  getitem0 (mode v) = Ok m -> dropna v <> [].
Proof.
  intros E Hnil. rewrite (mode_of_nothing v Hnil) in E. discriminate E.
Qed.

(** There is one [NaN]. *)
Lemma nan_unique x : PrimFloat.is_nan x = true -> x = nan.
Proof.
  unfold PrimFloat.is_nan. rewrite eqb_spec. intros H.
  apply Prim2SF_inj. change (Prim2SF nan) with S754_nan.
  destruct (Prim2SF x) as [s|s| |s m e]; try reflexivity;
    unfold SFeqb, SFcompare in H.
  - discriminate H.
  - destruct s; discriminate H.
  - rewrite Z.compare_refl, Pos.compare_cont_refl in H.
    destruct s; discriminate H.
Qed.

Lemma fillna_float_nan m v : PrimFloat.is_nan m = true -> fillna_float m v = v.
Proof.
  intros Hm. unfold fillna_float. rewrite <- (map_id v) at 2.
  apply map_ext. intros x. destruct (PrimFloat.is_nan x) eqn:Hx; [|reflexivity].
  now rewrite (nan_unique m Hm), (nan_unique x Hx).
Qed.

Lemma fillna_float_full m v :
  notna v = v -> fillna_float m v = v.
Proof.
  unfold notna, fillna_float. intros Hv. rewrite <- (map_id v) at 2.
  apply map_ext_in. intros x Hx. rewrite <- Hv in Hx.
  apply filter_In in Hx. destruct Hx as [_ Hx].
  now destruct (PrimFloat.is_nan x).
Qed.

Lemma notna_fillna_float m v :
  PrimFloat.is_nan m = false -> notna (fillna_float m v) = fillna_float m v.
Proof.
  intros Hm. unfold notna, fillna_float.
  induction v as [|x v IH]; cbn [map filter]; [reflexivity|].
  destruct (PrimFloat.is_nan x) eqn:Hx; rewrite ?Hm, ?Hx; cbn [negb];
    now rewrite IH.
Qed.

Lemma fillna_float_again v :
  fillna_float (mean (fillna_float (mean v) v)) (fillna_float (mean v) v) =
  fillna_float (mean v) v.
Proof.
  destruct (PrimFloat.is_nan (mean v)) eqn:Hm.
  - rewrite (fillna_float_nan (mean v) v Hm). now apply fillna_float_nan.
  - apply fillna_float_full. now apply notna_fillna_float.
Qed.

Lemma impute_column_again c c' :
  impute_column c = Ok c' -> impute_column c' = Ok c'.
Proof.
  unfold impute_column.
  destruct c as [nm [v|v|v|v|v]]; cbn [values name].
  - intros E. injection E as <-. reflexivity.
  - intros E. injection E as <-. cbn [values name]. do 3 f_equal.
    apply fillna_float_again.
  - destruct (getitem0 (mode v)) as [m|e] eqn:E; simpl; intros E';
      [|discriminate E'].
    injection E' as <-. cbn [values name].
    apply getitem0_mode_present in E.
    destruct (getitem0_mode_bool (fillna m v)) as [m' [E' _]];
      [now apply dropna_fillna_present|].
    rewrite E'. simpl. do 3 f_equal. apply fillna_full. apply fillna_no_null.
  - destruct (getitem0 (mode v)) as [m|e] eqn:E; simpl; intros E';
      [|discriminate E'].
    injection E' as <-. cbn [values name].
    apply getitem0_mode_present in E.
    destruct (getitem0_mode_string (fillna m v)) as [m' [E' _]];
      [now apply dropna_fillna_present|].
    rewrite E'. simpl. do 3 f_equal. apply fillna_full. apply fillna_no_null.
  - destruct (getitem0 (mode v)) as [m|e] eqn:E; simpl; intros E';
      [|discriminate E'].
    injection E' as <-. cbn [values name].
    apply getitem0_mode_present in E.
    destruct (getitem0_mode_Z (fillna m v)) as [m' [E' _]];
      [now apply dropna_fillna_present|].
    rewrite E'. simpl. do 3 f_equal. apply fillna_full. apply fillna_no_null.
Qed.

Lemma for_each_impute_again l : forall l',
  for_each impute_column l = Ok l' -> for_each impute_column l' = Ok l'.
Proof.
  induction l as [|c l IH]; intros l'; simpl.
  - intros E. injection E as <-. reflexivity.
  - destruct (impute_column c) as [c'|e] eqn:Ec; simpl; [|discriminate].
    destruct (for_each impute_column l) as [l0|e] eqn:El; simpl; [|discriminate].
    intros E. injection E as <-. simpl.
    rewrite (impute_column_again c c' Ec). simpl.
    rewrite (IH l0 eq_refl). reflexivity.
Qed.

(** X6.  [handle_missing_values] is idempotent: when no column is blank,
    a second call returns the object that the first call returned, after
    printing the confirmation again. *)
Theorem handle_missing_values_twice s df w :
  data s = Some df ->
  Forall can_impute (columns df) ->
  exists s1 w1,
    handle_missing_values s w = (Ok s1, w1) /\
    returns_printing (handle_missing_values s1 w1) s1 w1
      [Line "Missing values handled by mean/mode imputation."].
Proof.
  intros Hd Hc. destruct (for_each_impute_returns _ Hc) as [cols' E].
  eexists _, _. split; [apply (handle_missing_values_run s df w cols' Hd E)|].
  unfold returns_printing.
  rewrite (handle_missing_values_run
             (mk_self (file_path s) (Some (mk_df (index df) cols')))
             (mk_df (index df) cols') _ cols' eq_refl
             (for_each_impute_again _ _ E)).
  reflexivity.
Qed.

(** ** The mode under imputation *)

Section ModeUnderImputation.
Context {A : Type} `{Ordered A}.
Hypothesis eqb_eq : forall x y : A, eqb x y = true <-> x = y.
Hypothesis leb_total : forall x y : A, leb x y = true \/ leb y x = true.

Lemma count_filled (x m : A) v :
  count x (dropna (fillna m v)) =
  (count x (dropna v)
   + if eqb x m then List.length (filter isnull v) else 0)%nat.
Proof.
  unfold count, fillna.
  induction v as [|[y|] v IH]; cbn [map dropna filter isnull List.length].
  - destruct (eqb x m); reflexivity.
  - destruct (eqb x y); cbn [List.length]; rewrite IH; reflexivity.
  - destruct (eqb x m); cbn [List.length]; rewrite IH; lia.
Qed.

Lemma In_filled (x m : A) v :
  In x (dropna (fillna m v)) -> In x (dropna v) \/ x = m.
Proof.
  unfold fillna. induction v as [|[y|] v IH]; cbn [map dropna]; simpl.
  - tauto.
  - intros [E|H']; [auto | destruct (IH H'); auto].
  - intros [E|H']; [auto | destruct (IH H'); auto].
Qed.

Lemma In_filled_of_present (x m : A) v :
  In x (dropna v) -> In x (dropna (fillna m v)).
Proof.
  unfold fillna. induction v as [|[y|] v IH]; cbn [map dropna]; simpl.
  - tauto.
  - intros [E|H']; auto.
  - intros H'. auto.
Qed.

Lemma least_mode_filled (m : A) v :
  least_mode m (dropna v) -> least_mode m (dropna (fillna m v)).
Proof.
  intros [[Hin Hmax] Hleast].
  assert (Hmm : eqb m m = true) by now apply eqb_eq.
  split; [split|].
  - now apply In_filled_of_present.
  - intros x. rewrite !count_filled, Hmm.
    specialize (Hmax x). destruct (eqb x m); lia.
  - intros x Hx. rewrite !count_filled, Hmm. intros Hc.
    destruct (eqb x m) eqn:Exm.
    + apply eqb_eq in Exm. subst x. destruct (leb_total m m); assumption.
    + apply In_filled in Hx. destruct Hx as [Hx | ->]; [|congruence].
      apply Hleast; [exact Hx|]. specialize (Hmax x). lia.
Qed.

End ModeUnderImputation.

(** X9.  Imputation keeps the mode of a text column: on an [object]
    column that has a present value the loop body of
    [handle_missing_values] returns, and [mode()[0]] of the column it
    leaves is the value it filled the missing cells with. *)
Theorem imputation_keeps_the_mode nm (v : list (option string)) :
  dropna v <> [] ->
  exists m v',
    getitem0 (mode v) = Ok m /\
    impute_column (mk_series nm (ObjectCol v)) = Ok (mk_series nm (ObjectCol v')) /\
    getitem0 (mode v') = Ok m.
Proof.
  intros Hp. destruct (getitem0_mode_string v Hp) as [m [E Hm]].
  exists m, (fillna m v). split; [exact E|]. split.
  - unfold impute_column. cbn [values name]. now rewrite E.
  - destruct (getitem0_mode_string (fillna m v)) as [m' [E' Hm']];
      [now apply dropna_fillna_present|].
    rewrite E'. f_equal.
    eapply least_mode_unique; [exact String.leb_antisym | exact Hm' |].
    apply least_mode_filled;
      [exact String.eqb_eq | exact String.leb_total | exact Hm].
Qed.

(** ** Frames without repeated rows, and the first row *)

Lemma duplicated_from_NoDup rs : forall seen,
  NoDup rs ->
  (forall r, In r rs -> ~ In r seen) ->
  duplicated_from seen rs = repeat false (List.length rs).
Proof.
  induction rs as [|r rs IH]; intros seen Hnd Hfresh; simpl; [reflexivity|].
  inversion Hnd as [|r0 rs0 Hnotin Hnd']; subst.
  destruct (existsb (row_eqb r) seen) eqn:Hseen.
  - apply seen_row in Hseen. exfalso. apply (Hfresh r); [now left | exact Hseen].
  - f_equal. apply IH; [exact Hnd'|].
    intros r' Hin [<-|Hs]; [contradiction|].
    apply (Hfresh r'); [now right | exact Hs].
Qed.

Lemma rows_length df : List.length (rows df) = shape0 df.
Proof. unfold rows. apply transpose_length. Qed.

Lemma drop_duplicates_of_distinct df :
  well_formed df -> NoDup (rows df) -> drop_duplicates df = df.
Proof.
  intros [_ Hlen] Hnd. unfold drop_duplicates.
  destruct (empty df); [reflexivity|].
  unfold duplicated. rewrite (duplicated_from_NoDup (rows df) [] Hnd)
    by (intros r _ []).
  rewrite map_negb_repeat_false, rows_length.
  rewrite select_all by reflexivity.
  destruct df as [idx cols]; cbn [index columns] in *. f_equal.
  transitivity (map (fun c : Series => c) cols); [|apply map_id].
  apply map_ext_in. intros c Hin. apply select_column_all.
  rewrite Forall_forall in Hlen. now apply Hlen.
Qed.

(** X13.  On a well-formed frame [remove_duplicates] changes nothing
    exactly when no two rows are equal: then it reports 0 rows and
    returns the object as it was; and whenever it returns the object as
    it was, the rows of the frame are pairwise different. *)
Theorem remove_duplicates_keeps_distinct_rows s df w :
  data s = Some df ->
  well_formed df ->
  (NoDup (rows df) ->
   returns_printing (remove_duplicates s w) s w [Line "Duplicates removed: 0"]) /\
  (fst (remove_duplicates s w) = Ok s -> NoDup (rows df)).
Proof.
  intros Hd Hwf. rewrite (remove_duplicates_run s df w Hd). split.
  - intros Hnd. unfold returns_printing.
    rewrite (drop_duplicates_of_distinct df Hwf Hnd), Z.sub_diag.
    destruct s as [p d]. cbn [data file_path] in *. subst d. reflexivity.
  - cbn [fst]. intros E. injection E as E.
    assert (Hdf : drop_duplicates df = df).
    { destruct s as [p d]. cbn [data file_path] in *. subst d.
      injection E as E. exact E. }
    rewrite <- Hdf, (rows_drop_duplicates df Hwf).
    apply NoDup_select_duplicated.
Qed.

Lemma count_true_le mask : (count_true mask <= List.length mask)%nat.
Proof. unfold count_true. apply filter_length_le. Qed.

(** X14.  [remove_duplicates] never empties a frame: on a well-formed
    frame with at least one row the first row stays first, and the
    number of rows reported as removed is less than the number of
    rows. *)
Theorem remove_duplicates_keeps_the_first_row s df w :
  data s = Some df ->
  well_formed df ->
  shape0 df <> 0%nat ->
  exists df',
    fst (remove_duplicates s w) = Ok (mk_self (file_path s) (Some df')) /\
    hd_error (rows df') = hd_error (rows df) /\
    hd_error (rows df') <> None /\
    (count_true (duplicated df) < shape0 df)%nat.
Proof.
  intros Hd Hwf Hn. exists (drop_duplicates df).
  rewrite (remove_duplicates_run s df w Hd). split; [reflexivity|].
  rewrite (rows_drop_duplicates df Hwf).
  pose proof (duplicated_length df) as Hlen. unfold duplicated in *.
  pose proof (rows_length df) as Hrows.
  destruct (rows df) as [|r rs]; [simpl in Hrows; congruence|].
  cbn [duplicated_from existsb] in *. cbn [map negb select hd_error].
  split; [reflexivity|]. split; [discriminate|].
  cbn [List.length] in Hlen.
  change (count_true (false :: duplicated_from [r] rs))
    with (count_true (duplicated_from [r] rs)).
  pose proof (count_true_le (duplicated_from [r] rs)). lia.
Qed.

(** ** The driver on a loaded frame *)

Lemma bind_ok {A B} (c : M A) (k : A -> M B) w a w' :
  c w = (Ok a, w') -> bind c k w = k a w'.
Proof. intros E. unfold bind. now rewrite E. Qed.

Lemma bind_raise {A B} (c : M A) (k : A -> M B) w e w' :
  c w = (Raise e, w') -> bind c k w = (Raise e, w').
Proof. intros E. unfold bind. now rewrite E. Qed.

Lemma printing_app w ps qs : printing (printing w ps) qs = printing w (ps ++ qs).
Proof. unfold printing. cbn. now rewrite <- app_assoc. Qed.

Lemma summarize_data_run s df w :
  data s = Some df ->
  columns df <> [] ->
  summarize_data s w =
    (Ok s, printing w [ Line "Dataset Summary:";
                        Line "===================================";
                        InfoTable df;
                        Line "None";
                        Line "Descriptive Statistics:";
                        DescribeTable df ]).
Proof.
  intros Hd Hc. unfold summarize_data. rewrite Hd.
  destruct df as [idx [|c cols]]; [now contradiction Hc|].
  unfold printing. cbn. rewrite <- !app_assoc. reflexivity.
Qed.

Lemma summarize_data_raise s df w :
  data s = Some df ->
  columns df = [] ->
  exists e w', summarize_data s w = (Raise e, w').
Proof.
  intros Hd Hc. unfold summarize_data. rewrite Hd.
  destruct df as [idx [|c cols]]; [|discriminate Hc].
  eexists _, _. reflexivity.
Qed.

(** After imputation no column of booleans has a missing cell, so none
    is an [object] column, and removing rows does not change that. *)

Lemma existsb_isnull_fillna {A} (m : A) v : existsb isnull (fillna m v) = false.
Proof. induction v as [|[x|] v IH]; simpl; [reflexivity | exact IH | exact IH]. Qed.

Lemma impute_column_booleans c c' :
  impute_column c = Ok c' -> booleans_complete c'.
Proof.
  unfold impute_column, booleans_complete.
  destruct c as [nm [v|v|v|v|v]]; cbn [values name];
    try (destruct (getitem0 (mode v)) as [m|e]; cbn [result_bind]);
    intros E; try discriminate E; injection E as <-; cbn [values];
    try exact I.
  apply existsb_isnull_fillna.
Qed.

Lemma for_each_impute_booleans l : forall l',
  for_each impute_column l = Ok l' -> Forall booleans_complete l'.
Proof.
  induction l as [|c l IH]; intros l'; simpl.
  - intros E. injection E as <-. constructor.
  - destruct (impute_column c) as [c'|e] eqn:Ec; simpl; [|discriminate].
    destruct (for_each impute_column l) as [l0|e] eqn:El; simpl; [|discriminate].
    intros E. injection E as <-.
    constructor; [now apply (impute_column_booleans c) | now apply IH].
Qed.

Lemma existsb_select {A} (p : A -> bool) mask : forall l,
  existsb p l = false -> existsb p (select mask l) = false.
Proof.
  induction mask as [|b mask IH]; intros [|x l] Hl; try reflexivity.
  cbn [existsb] in Hl. apply orb_false_iff in Hl. destruct Hl as [Hx Hl].
  destruct b; cbn [select existsb]; rewrite ?Hx; now apply IH.
Qed.

Lemma booleans_complete_select mask c :
  booleans_complete c -> booleans_complete (select_column mask c).
Proof.
  unfold booleans_complete, select_column.
  destruct c as [nm [v|v|v|v|v]]; cbn [values]; auto.
  apply existsb_select.
Qed.

Lemma booleans_complete_drop_duplicates df :
  Forall booleans_complete (columns df) ->
  Forall booleans_complete (columns (drop_duplicates df)).
Proof.
  intros Hc. unfold drop_duplicates. destruct (empty df); [exact Hc|].
  cbn [columns]. apply Forall_map.
  eapply Forall_impl; [|exact Hc]. intros c. apply booleans_complete_select.
Qed.

Lemma booleans_complete_fixable c :
  booleans_complete c -> holds_booleans c = false.
Proof.
  unfold booleans_complete, holds_booleans.
  destruct (values c); try reflexivity. now intros ->.
Qed.

Lemma main_loaded w df cols' :
  pd_read_csv w "path_to_dirty_dataset.csv" = Ok df ->
  columns df <> [] ->
  for_each impute_column (columns df) = Ok cols' ->
  main w =
    save_clean_data "path_to_clean_dataset.csv"
      (mk_self "path_to_dirty_dataset.csv" (Some (cleaned df cols')))
      (printing w (transcript df cols')).
Proof.
  intros Hread Hc Himp. unfold main.
  erewrite bind_ok by (rewrite init_run, Hread; reflexivity).
  erewrite bind_ok by (apply summarize_data_run; [reflexivity | exact Hc]).
  erewrite bind_ok by (apply identify_missing_values_run; reflexivity).
  erewrite bind_ok
    by (apply (handle_missing_values_run _ df _ cols'); [reflexivity | exact Himp]).
  erewrite bind_ok by (apply remove_duplicates_run; reflexivity).
  erewrite bind_ok.
  2:{ apply fix_inconsistent_formats_run; [reflexivity|].
      eapply Forall_impl; [intros c; apply booleans_complete_fixable|].
      apply booleans_complete_drop_duplicates. cbn [columns].
      now apply (for_each_impute_booleans (columns df)). }
  cbn [file_path]. rewrite !printing_app. cbn [app].
  unfold cleaned, transcript.
  reflexivity.
Qed.

Lemma save_clean_data_returns output_path s w :
  exists w', save_clean_data output_path s w = (Ok s, w').
Proof.
  destruct (data s) as [df|] eqn:Hd.
  - rewrite (save_clean_data_run s df output_path w Hd).
    destruct (open_for_writing w output_path); eexists; reflexivity.
  - unfold save_clean_data. rewrite Hd. eexists. reflexivity.
Qed.

Lemma main_without_columns w df :
  pd_read_csv w "path_to_dirty_dataset.csv" = Ok df ->
  columns df = [] ->
  exists e w', main w = (Raise e, w').
Proof.
  intros Hread Hc. unfold main.
  erewrite bind_ok by (rewrite init_run, Hread; reflexivity).
  destruct (summarize_data_raise
              (mk_self "path_to_dirty_dataset.csv" (Some df)) df
              (printing w [Line "Data successfully loaded."]) eq_refl Hc)
    as [e [w' E]].
  exists e, w'. now apply bind_raise.
Qed.

Lemma main_with_blank_column w df :
  pd_read_csv w "path_to_dirty_dataset.csv" = Ok df ->
  columns df <> [] ->
  Exists blank (columns df) ->
  exists w', main w = (Raise (mk_exn KeyError "0"), w').
Proof.
  intros Hread Hc Hex. unfold main.
  erewrite bind_ok by (rewrite init_run, Hread; reflexivity).
  erewrite bind_ok by (apply summarize_data_run; [reflexivity | exact Hc]).
  erewrite bind_ok by (apply identify_missing_values_run; reflexivity).
  eexists. apply bind_raise.
  apply (handle_missing_values_raise _ df); [reflexivity | exact Hex].
Qed.

Lemma main_unhandled w e :
  pd_read_csv w "path_to_dirty_dataset.csv" = Raise e ->
  handled e = false ->
  main w = (Raise e, w).
Proof.
  intros Hread Hh. unfold main. apply bind_raise.
  rewrite init_run, Hread. unfold handled in Hh.
  apply orb_false_iff in Hh. destruct Hh as [Hh Hp].
  apply orb_false_iff in Hh. destruct Hh as [Hf He].
  now rewrite Hf, He, Hp.
Qed.

Lemma main_handled w e :
  pd_read_csv w "path_to_dirty_dataset.csv" = Raise e ->
  handled e = true ->
  exists s w', main w = (Ok s, w').
Proof.
  intros Hread Hh.
  assert (Hinit : exists diagnostic,
             __init__ "path_to_dirty_dataset.csv" w
             = (Ok (mk_self "path_to_dirty_dataset.csv" None),
                printing w [Line diagnostic])).
  { rewrite init_run, Hread. unfold handled in Hh.
    destruct (isinstance e FileNotFoundError); [eexists; reflexivity|].
    destruct (isinstance e EmptyDataError); [eexists; reflexivity|].
    destruct (isinstance e ParserError); [eexists; reflexivity|].
    discriminate Hh. }
  destruct Hinit as [diagnostic Hinit].
  rewrite (main_after_failed_load w diagnostic Hinit). eexists _, _. reflexivity.
Qed.

(** X15.  The driver ends with exit status 0 exactly in two cases: the
    read raised one of the three errors that [__init__] handles; or it
    returned a frame that has a column and no blank column.  In every
    other case an exception reaches the top level.  Whether the output
    path can be written plays no part. *)
Theorem driver_exit_status w :
  exit_status w = 0%nat <->
  match pd_read_csv w "path_to_dirty_dataset.csv" with
  | Ok df => columns df <> [] /\ Forall can_impute (columns df)
  | Raise e => handled e = true
  end.
Proof.
  unfold exit_status.
  destruct (pd_read_csv w "path_to_dirty_dataset.csv") as [df|e] eqn:Hread.
  - destruct (columns df) as [|c cols] eqn:Hc.
    + destruct (main_without_columns w df Hread Hc) as [e [w' E]].
      rewrite E. cbn. split; [discriminate | intros [H _]; now contradiction H].
    + assert (Hne : columns df <> []) by (rewrite Hc; discriminate).
      rewrite <- Hc.
      destruct (Forall_can_impute_or_Exists_blank (columns df)) as [Hall|Hex].
      * destruct (for_each_impute_returns _ Hall) as [cols' E].
        rewrite (main_loaded w df cols' Hread Hne E).
        destruct (save_clean_data_returns "path_to_clean_dataset.csv"
                    (mk_self "path_to_dirty_dataset.csv" (Some (cleaned df cols')))
                    (printing w (transcript df cols'))) as [w' Es].
        rewrite Es. cbn. tauto.
      * destruct (main_with_blank_column w df Hread Hne Hex) as [w' E].
        rewrite E. cbn. split; [discriminate|]. intros [_ Hall]. exfalso.
        apply Exists_exists in Hex. destruct Hex as [c0 [Hin Hb]].
        rewrite Forall_forall in Hall.
        exact (can_impute_not_blank c0 (Hall c0 Hin) Hb).
  - destruct (handled e) eqn:Hh.
    + destruct (main_handled w e Hread Hh) as [s [w' E]]. rewrite E. cbn. tauto.
    + rewrite (main_unhandled w e Hread Hh). cbn.
      split; discriminate.
Qed.

(** ** What imputation leaves *)

Lemma has_missing_fillna {A B} (f : A -> B) (m : A) v :
  existsb isnull (map (option_map f) (fillna m v)) = false.
Proof. induction v as [|[x|] v IH]; simpl; [reflexivity | exact IH | exact IH]. Qed.

Lemma has_missing_fillna_float m v :
  PrimFloat.is_nan m = false ->
  existsb isnull (map float_cell (fillna_float m v)) = false.
Proof.
  intros Hm. unfold fillna_float, float_cell.
  induction v as [|x v IH]; [reflexivity|]. cbn [map existsb].
  destruct (PrimFloat.is_nan x) eqn:Hx; rewrite ?Hm, ?Hx; exact IH.
Qed.

Lemma has_missing_total {A B} (f : A -> B) (v : list A) :
  existsb isnull (map (fun x => Some (f x)) v) = false.
Proof. induction v as [|x v IH]; simpl; [reflexivity | exact IH]. Qed.

Lemma holds_booleans_present nm v :
  dropna v <> [] ->
  holds_booleans (mk_series nm (BoolCol v)) = existsb isnull v.
Proof.
  intros Hp. unfold holds_booleans. cbn [values]. rewrite existsb_present.
  destruct (dropna v); [now contradiction Hp | apply andb_true_r].
Qed.

Lemma impute_column_fully_imputed c :
  can_impute c ->
  exists c', impute_column c = Ok c' /\ fully_imputed c c'.
Proof.
  unfold can_impute, fully_imputed, impute_column, column_length, has_missing.
  destruct c as [nm [v|v|v|v|v]]; cbn [values name cells]; intros Hc.
  - eexists. split; [reflexivity|]. cbn [values name cells].
    split; [reflexivity|]. split; [reflexivity|]. split; [reflexivity|].
    rewrite has_missing_total. discriminate.
  - eexists. split; [reflexivity|]. cbn [values name cells].
    split; [reflexivity|].
    split; [unfold fillna_float; now rewrite !length_map|].
    split; [reflexivity|].
    destruct (PrimFloat.is_nan (mean v)) eqn:Hm.
    + intros _. split; [reflexivity|]. now rewrite fillna_float_nan.
    + rewrite (has_missing_fillna_float _ v Hm). discriminate.
  - specialize (Hc (not_numeric_bool nm v)). apply has_present_bool in Hc.
    destruct (getitem0_mode_bool v Hc) as [m [E _]].
    rewrite E. simpl. eexists. split; [reflexivity|]. cbn [values name cells].
    split; [reflexivity|]. split; [unfold fillna; now rewrite !length_map|].
    split.
    + rewrite (holds_booleans_present nm v Hc). unfold dtype_of. cbn [values].
      rewrite existsb_isnull_fillna. now destruct (existsb isnull v).
    + rewrite has_missing_fillna. discriminate.
  - specialize (Hc eq_refl). apply has_present_object in Hc.
    destruct (getitem0_mode_string v Hc) as [m [E _]].
    rewrite E. simpl. eexists. split; [reflexivity|]. cbn [values name cells].
    split; [reflexivity|]. split; [unfold fillna; now rewrite !length_map|].
    split; [reflexivity|]. rewrite has_missing_fillna. discriminate.
  - specialize (Hc eq_refl). apply has_present_datetime in Hc.
    destruct (getitem0_mode_Z v Hc) as [m [E _]].
    rewrite E. simpl. eexists. split; [reflexivity|]. cbn [values name cells].
    split; [reflexivity|]. split; [unfold fillna; now rewrite !length_map|].
    split; [reflexivity|]. rewrite has_missing_fillna. discriminate.
Qed.

(** X4.  When no column is blank, [handle_missing_values] returns and
    leaves, column by column, the same label and length, and the same
    dtype but for an [object] column of booleans, which becomes a [bool]
    column; a column that still has a missing cell is a [float64] column
    that the call did not change. *)
Theorem handle_missing_values_leaves_no_gap s df w :
  data s = Some df ->
  Forall can_impute (columns df) ->
  exists cols',
    returns_printing (handle_missing_values s w)
      (mk_self (file_path s) (Some (mk_df (index df) cols'))) w
      [Line "Missing values handled by mean/mode imputation."] /\
    Forall2 fully_imputed (columns df) cols'.
Proof.
  intros Hd Hcols.
  destruct (for_each_Forall2 impute_column _ fully_imputed (columns df)
              impute_column_fully_imputed Hcols) as [cols' [E Himp]].
  exists cols'. split; [|exact Himp].
  apply (handle_missing_values_run s df w cols' Hd E).
Qed.

Lemma Forall2_In_right {A B} (R : A -> B -> Prop) l l' y :
  Forall2 R l l' -> In y l' -> exists x, In x l /\ R x y.
Proof.
  induction 1 as [|a b l l' Hab _ IH]; intros Hin; [destruct Hin|].
  destruct Hin as [<-|Hin].
  - exists a. split; [now left | exact Hab].
  - destruct (IH Hin) as [x [Hx Hr]]. exists x. split; [now right | exact Hr].
Qed.

(** X5.  After [handle_missing_values], the table of
    [identify_missing_values] lists [float64] columns only, and each of
    them as it was before the call, with the number of missing cells it
    had. *)
Theorem identify_after_handle_finds_floats_only s df w :
  data s = Some df ->
  Forall can_impute (columns df) ->
  exists s1 w1 table,
    handle_missing_values s w = (Ok s1, w1) /\
    returns_printing (identify_missing_values s1 w1) s1 w1
      [ Line "Missing Values Summary:";
        Line "===================================";
        CountTable table ] /\
    forall nm n,
      In (nm, n) table ->
      exists c, In c (columns df) /\ name c = nm /\ null_count c = n /\
                dtype_of c = float64 /\ (0 < n)%nat.
Proof.
  intros Hd Hc.
  destruct (for_each_Forall2 impute_column _ fully_imputed (columns df)
              impute_column_fully_imputed Hc) as [cols' [E Himp]].
  eexists _, _, _. split; [apply (handle_missing_values_run s df w cols' Hd E)|].
  split; [apply identify_missing_values_run; reflexivity|].
  cbn [columns]. intros nm n Hin.
  apply in_map_iff in Hin. destruct Hin as [c' [Ec' Hc']].
  apply filter_In in Hc'. destruct Hc' as [Hc' Hmiss].
  destruct (Forall2_In_right _ _ _ _ Himp Hc') as [c [Hin [_ [_ [_ Hkeep]]]]].
  destruct (Hkeep Hmiss) as [Hfloat ->].
  injection Ec' as <- <-. exists c. repeat split; try assumption.
  apply Nat.ltb_lt. now rewrite null_count_positive.
Qed.

(** ** The shape of the frame along the steps *)

Lemma fully_imputed_well_formed idx l l' :
  Forall2 fully_imputed l l' ->
  well_formed (mk_df idx l) -> well_formed (mk_df idx l').
Proof.
  intros Hs [Hne Hlen]. unfold well_formed, shape0 in *. cbn [columns index] in *.
  split.
  - destruct Hs; [now contradiction Hne | discriminate].
  - clear Hne. induction Hs as [|c c' l l' [_ [Hl _]] _ IH]; [constructor|].
    inversion Hlen; subst. constructor; [congruence | now apply IH].
Qed.

Lemma fully_imputed_labels l l' :
  Forall2 fully_imputed l l' -> map name l' = map name l.
Proof.
  induction 1 as [|c c' l l' [Hn _] _ IH]; simpl; [reflexivity|].
  now rewrite Hn, IH.
Qed.

Lemma labels_drop_duplicates df : labels (drop_duplicates df) = labels df.
Proof.
  unfold drop_duplicates. destruct (empty df); [reflexivity|].
  unfold labels. cbn [columns]. rewrite map_map. apply map_ext.
  intros c. reflexivity.
Qed.

Lemma column_length_fixed c : column_length (fixed_column c) = column_length c.
Proof.
  unfold column_length, fixed_column.
  destruct c as [nm [v|v|v|v|v]]; cbn [values retitled cells];
    now rewrite ?length_map.
Qed.

Lemma well_formed_fixed df : well_formed df -> well_formed (fixed df).
Proof.
  intros [Hne Hlen]. unfold well_formed, fixed, shape0 in *.
  cbn [columns index]. split.
  - destruct (columns df); [now contradiction Hne | discriminate].
  - apply Forall_map. eapply Forall_impl; [|exact Hlen].
    intros c Hc. now rewrite column_length_fixed.
Qed.

Lemma holds_booleans_decided l :
  Forall (fun c => holds_booleans c = false) l \/
  Exists (fun c => holds_booleans c = true) l.
Proof.
  induction l as [|c l [IH|IH]].
  - left. constructor.
  - destruct (holds_booleans c) eqn:Hc.
    + right. now constructor.
    + left. now constructor.
  - right. now constructor 2.
Qed.

Lemma fix_inconsistent_formats_returned s df w s' w' :
  data s = Some df ->
  fix_inconsistent_formats s w = (Ok s', w') ->
  Forall (fun c => holds_booleans c = false) (columns df) /\
  s' = mk_self (file_path s) (Some (fixed df)).
Proof.
  intros Hd Hrun.
  destruct (holds_booleans_decided (columns df)) as [Hall|Hex].
  - split; [exact Hall|].
    rewrite (fix_inconsistent_formats_run s df w Hd Hall) in Hrun.
    now injection Hrun as <- _.
  - rewrite (fix_inconsistent_formats_raise s df w Hd Hex) in Hrun.
    discriminate Hrun.
Qed.

(** X10.  The three steps that change the frame keep its shape.  On a
    well-formed frame, each of [handle_missing_values] and
    [fix_inconsistent_formats], when it returns, and [remove_duplicates]
    leaves a well-formed frame with the same column labels in the same
    order; imputation and format fixing also keep the index. *)
Theorem steps_keep_the_shape_of_the_frame s df w :
  data s = Some df ->
  well_formed df ->
  (forall s' w',
      handle_missing_values s w = (Ok s', w') ->
      exists df', data s' = Some df' /\ well_formed df' /\
                  labels df' = labels df /\ index df' = index df) /\
  (exists df',
      fst (remove_duplicates s w) = Ok (mk_self (file_path s) (Some df')) /\
      well_formed df' /\ labels df' = labels df) /\
  (forall s' w',
      fix_inconsistent_formats s w = (Ok s', w') ->
      exists df', data s' = Some df' /\ well_formed df' /\
                  labels df' = labels df /\ index df' = index df).
Proof.
  intros Hd Hwf. split; [|split].
  - intros s' w' Hrun.
    destruct (Forall_can_impute_or_Exists_blank (columns df)) as [Hall|Hex].
    + destruct (for_each_Forall2 impute_column _ fully_imputed (columns df)
                  impute_column_fully_imputed Hall) as [cols' [E Himp]].
      rewrite (handle_missing_values_run s df w cols' Hd E) in Hrun.
      injection Hrun as <- _. eexists. split; [reflexivity|].
      destruct df as [idx cols]. cbn [index columns] in *.
      split; [now apply (fully_imputed_well_formed idx cols)|].
      split; [now apply fully_imputed_labels | reflexivity].
    + rewrite (handle_missing_values_raise s df w Hd Hex) in Hrun.
      discriminate Hrun.
  - exists (drop_duplicates df).
    rewrite (remove_duplicates_run s df w Hd).
    split; [reflexivity|].
    split; [now apply well_formed_drop_duplicates | apply labels_drop_duplicates].
  - intros s' w' Hrun.
    destruct (fix_inconsistent_formats_returned s df w s' w' Hd Hrun) as [_ ->].
    exists (fixed df). split; [reflexivity|].
    split; [now apply well_formed_fixed|].
    split; [|reflexivity].
    unfold labels, fixed. cbn [columns]. rewrite map_map. reflexivity.
Qed.

(** ** Format fixing: when it raises, and the missing cells *)



(** ** Title case and letter case *)

Lemma title_ascii_from_lower b s :
  title_ascii_from b (lower_ascii s) = title_ascii_from b s.
Proof.
  revert b; induction s as [|c s IH]; intros b; simpl; [reflexivity|].
  rewrite is_letter_small, IH.
  destruct b; [now rewrite small_idem | now rewrite capital_small].
Qed.

Lemma lower_title_ascii_from b s :
  lower_ascii (title_ascii_from b s) = lower_ascii s.
Proof.
  revert b; induction s as [|c s IH]; intros b; simpl; [reflexivity|].
  rewrite IH.
  destruct b; [now rewrite small_idem | now rewrite small_capital].
Qed.

Lemma lower_ascii_text s : ascii_text s = true -> ascii_text (lower_ascii s) = true.
Proof.
  induction s as [|c s IH]; intros Hs; [reflexivity|].
  cbn [ascii_text string_forallb] in Hs. apply andb_prop in Hs.
  destruct Hs as [Hc Hs]. destruct (letters_are_ascii c Hc) as [_ Hsmall].
  cbn [lower_ascii ascii_text string_forallb].
  fold (ascii_text (lower_ascii s)). now rewrite Hsmall, (IH Hs).
Qed.

Lemma title_caseless s1 s2 :
  ascii_text s1 = true -> ascii_text s2 = true ->
  lower_ascii s1 = lower_ascii s2 -> title s1 = title s2.
Proof.
  intros H1 H2 E. rewrite (title_ascii s1 H1), (title_ascii s2 H2).
  now rewrite <- (title_ascii_from_lower false s1), E, title_ascii_from_lower.
Qed.

(** X12.  Format fixing removes differences of letter case in ASCII
    text: two cells of a column of strings whose texts are ASCII and
    differ in the case of their letters only hold the same text after the
    loop body of [fix_inconsistent_formats], and that text differs from
    theirs in case only. *)
Theorem format_fixing_unifies_case nm v i j s1 s2 :
  nth_error v i = Some (Some s1) ->
  nth_error v j = Some (Some s2) ->
  ascii_text s1 = true ->
  ascii_text s2 = true ->
  lower_ascii s1 = lower_ascii s2 ->
  exists v' t,
    fix_column (mk_series nm (ObjectCol v)) = Ok (mk_series nm (ObjectCol v')) /\
    nth_error v' i = Some (Some t) /\
    nth_error v' j = Some (Some t) /\
    lower_ascii t = lower_ascii s1.
Proof.
  intros Hi Hj H1 H2 E. exists (map (option_map title) v), (title s1).
  split; [now rewrite fix_column_run|].
  rewrite !nth_error_map, Hi, Hj.
  cbn [option_map]. split; [reflexivity|]. split.
  - now rewrite (title_caseless s1 s2 H1 H2 E).
  - rewrite (title_ascii s1 H1). apply lower_title_ascii_from.
Qed.

(** ** Imputation before format fixing *)

(** X19.  After [handle_missing_values] has returned,
    [fix_inconsistent_formats] returns too: a column of booleans with an
    empty field, on which format fixing raises as long as it is an
    [object] column, has been filled by then and is a [bool] column. *)
Theorem fix_inconsistent_formats_after_imputation s df w s1 w1 :
  data s = Some df ->
  handle_missing_values s w = (Ok s1, w1) ->
  exists df1,
    data s1 = Some df1 /\
    Forall (fun c => holds_booleans c = false) (columns df1) /\
    returns_printing (fix_inconsistent_formats s1 w1)
      (mk_self (file_path s1) (Some (fixed df1))) w1
      [Line "Inconsistent formats fixed where applicable."].
Proof.
  intros Hd Hrun.
  destruct (for_each impute_column (columns df)) as [cols'|e] eqn:E.
  - rewrite (handle_missing_values_run s df w cols' Hd E) in Hrun.
    injection Hrun as <- <-. eexists. split; [reflexivity|].
    assert (Hb : Forall (fun c => holds_booleans c = false) cols').
    { eapply Forall_impl; [intros c; apply booleans_complete_fixable|].
      now apply (for_each_impute_booleans (columns df)). }
    split; [exact Hb|].
    now apply fix_inconsistent_formats_run.
  - unfold handle_missing_values in Hrun. rewrite Hd in Hrun.
    unfold bind, lift in Hrun. rewrite E in Hrun. discriminate Hrun.
Qed.

(** ** The further properties at sample data *)

(** The survey frame is well formed and has no blank column. *)
Lemma well_formed_survey_frame : well_formed survey_frame.
Proof. split; [discriminate | repeat constructor]. Defined.

Lemma survey_frame_can_impute : Forall can_impute (columns survey_frame).
Proof.
  repeat constructor; unfold can_impute, has_present; simpl; intros;
    first [discriminate | congruence].
Defined.

(** The table of missing values of the survey frame. *)
Lemma identify_missing_values_at_survey :
  exists table,
    returns_printing (identify_missing_values survey bare_world) survey bare_world
      [ Line "Missing Values Summary:";
        Line "===================================";
        CountTable table ] /\
    table = map (fun c => (name c, null_count c))
                (filter has_missing (columns survey_frame)) /\
    (forall nm n,
       In (nm, n) table <->
       exists c, In c (columns survey_frame) /\ name c = nm /\ null_count c = n
                 /\ In None (cells (values c))) /\
    Forall (fun entry => (0 < snd entry)%nat) table.
Proof.
  exact (identify_missing_values_lists_columns_with_gaps
           survey survey_frame bare_world eq_refl).
Defined.

(** Imputation of the survey frame returns; that of the header-only frame
    raises. *)
Lemma handle_missing_values_raises_at_header_only :
  (Exists blank (columns header_only_frame) <->
   handle_missing_values (mk_self "in.csv" (Some header_only_frame)) bare_world
     = (Raise (mk_exn KeyError "0"), bare_world)) /\
  (Forall can_impute (columns header_only_frame) <->
   exists s', fst (handle_missing_values
                     (mk_self "in.csv" (Some header_only_frame)) bare_world) = Ok s').
Proof.
  exact (handle_missing_values_raises_on_blank_columns
           (mk_self "in.csv" (Some header_only_frame)) header_only_frame
           bare_world eq_refl).
Defined.

(** Imputation of the survey frame: the scores 1, null, 3, null become
    1, 2, 3, 2; the grades a, a, null, b become a, a, a, b; the column of
    booleans becomes a [bool] column. *)
Lemma handle_missing_values_leaves_no_gap_at_survey :
  for_each impute_column (columns survey_frame) =
    Ok [ mk_series "id" (Int64Col [1; 2; 3; 4]%Z);
         mk_series "score" (Float64Col [1; 2; 3; 2]%float);
         mk_series "grade" (ObjectCol [Some "a"; Some "a"; Some "a"; Some "b"]);
         mk_series "ok" (BoolCol [Some true; Some false; Some true; Some true]) ] /\
  exists cols',
    returns_printing (handle_missing_values survey bare_world)
      (mk_self "in.csv" (Some (mk_df [0; 1; 2; 3]%nat cols'))) bare_world
      [Line "Missing values handled by mean/mode imputation."] /\
    Forall2 fully_imputed (columns survey_frame) cols'.
Proof.
  split; [vm_compute; reflexivity|].
  exact (handle_missing_values_leaves_no_gap survey survey_frame bare_world
           eq_refl survey_frame_can_impute).
Defined.

(** After imputation, the frame whose column of floats has no present
    value still lists that column, with its 2 missing cells. *)
Lemma identify_after_handle_at_blank :
  Forall can_impute (columns blank_frame) /\
  exists s1 w1 table,
    handle_missing_values (mk_self "in.csv" (Some blank_frame)) bare_world
      = (Ok s1, w1) /\
    returns_printing (identify_missing_values s1 w1) s1 w1
      [ Line "Missing Values Summary:";
        Line "===================================";
        CountTable table ] /\
    forall nm n,
      In (nm, n) table ->
      exists c, In c (columns blank_frame) /\ name c = nm /\ null_count c = n /\
                dtype_of c = float64 /\ (0 < n)%nat.
Proof.
  assert (Hc : Forall can_impute (columns blank_frame)).
  { repeat constructor; unfold can_impute; intros H; discriminate H. }
  split; [exact Hc|].
  exact (identify_after_handle_finds_floats_only
           (mk_self "in.csv" (Some blank_frame)) blank_frame bare_world
           eq_refl Hc).
Defined.

Lemma handle_missing_values_twice_at_survey :
  exists s1 w1,
    handle_missing_values survey bare_world = (Ok s1, w1) /\
    returns_printing (handle_missing_values s1 w1) s1 w1
      [Line "Missing values handled by mean/mode imputation."].
Proof.
  exact (handle_missing_values_twice survey survey_frame bare_world
           eq_refl survey_frame_can_impute).
Defined.

Lemma imputation_keeps_the_mode_at_grades :
  exists m v',
    getitem0 (mode [Some "a"; Some "a"; None; Some "b"]) = Ok m /\
    impute_column grades = Ok (mk_series "grade" (ObjectCol v')) /\
    getitem0 (mode v') = Ok m.
Proof.
  apply (imputation_keeps_the_mode "grade" [Some "a"; Some "a"; None; Some "b"]).
  discriminate.
Defined.

Lemma steps_keep_the_shape_at_survey :
  (forall s' w',
      handle_missing_values survey bare_world = (Ok s', w') ->
      exists df', data s' = Some df' /\ well_formed df' /\
                  labels df' = labels survey_frame /\
                  index df' = index survey_frame) /\
  (exists df',
      fst (remove_duplicates survey bare_world) = Ok (mk_self "in.csv" (Some df')) /\
      well_formed df' /\ labels df' = labels survey_frame) /\
  (forall s' w',
      fix_inconsistent_formats survey bare_world = (Ok s', w') ->
      exists df', data s' = Some df' /\ well_formed df' /\
                  labels df' = labels survey_frame /\
                  index df' = index survey_frame).
Proof.
  exact (steps_keep_the_shape_of_the_frame survey survey_frame bare_world
           eq_refl well_formed_survey_frame).
Defined.


(** "new york" and "NEW YORK" come out as one text, "New York". *)
Lemma format_fixing_unifies_case_at_city :
  fix_column shouting =
    Ok (mk_series "city" (ObjectCol [Some "New York"; None; Some "New York"])) /\
  exists v' t,
    fix_column shouting = Ok (mk_series "city" (ObjectCol v')) /\
    nth_error v' 0 = Some (Some t) /\
    nth_error v' 2 = Some (Some t) /\
    lower_ascii t = lower_ascii "new york".
Proof.
  split; [vm_compute; reflexivity|].
  exact (format_fixing_unifies_case "city"
           [Some "new york"; None; Some "NEW YORK"] 0 2 "new york" "NEW YORK"
           eq_refl eq_refl eq_refl eq_refl eq_refl).
Defined.

Lemma remove_duplicates_keeps_distinct_rows_at_survey :
  (NoDup (rows survey_frame) ->
   returns_printing (remove_duplicates survey bare_world) survey bare_world
     [Line "Duplicates removed: 0"]) /\
  (fst (remove_duplicates survey bare_world) = Ok survey ->
   NoDup (rows survey_frame)).
Proof.
  exact (remove_duplicates_keeps_distinct_rows survey survey_frame bare_world
           eq_refl well_formed_survey_frame).
Defined.

Lemma remove_duplicates_keeps_the_first_row_at_repeated :
  exists df',
    fst (remove_duplicates (mk_self "in.csv" (Some repeated_frame)) bare_world)
      = Ok (mk_self "in.csv" (Some df')) /\
    hd_error (rows df') = hd_error (rows repeated_frame) /\
    hd_error (rows df') <> None /\
    (count_true (duplicated repeated_frame) < shape0 repeated_frame)%nat.
Proof.
  apply (remove_duplicates_keeps_the_first_row
           (mk_self "in.csv" (Some repeated_frame)) repeated_frame bare_world
           eq_refl well_formed_repeated_frame).
  discriminate.
Defined.

(** Format fixing raises on the frame with the column of booleans
    [True, null, False] as it is read, and returns once the column is
    imputed. *)
Lemma fix_inconsistent_formats_after_imputation_at_flags :
  fst (fix_inconsistent_formats (mk_self "in.csv" (Some flags_frame)) bare_world) =
    Raise (mk_exn AttributeError "Can only use .str accessor with string values!") /\
  exists s1 w1 df1,
    handle_missing_values (mk_self "in.csv" (Some flags_frame)) bare_world
      = (Ok s1, w1) /\
    data s1 = Some df1 /\
    Forall (fun c => holds_booleans c = false) (columns df1) /\
    returns_printing (fix_inconsistent_formats s1 w1)
      (mk_self (file_path s1) (Some (fixed df1))) w1
      [Line "Inconsistent formats fixed where applicable."].
Proof.
  split; [reflexivity|].
  eexists _, _.
  destruct (fix_inconsistent_formats_after_imputation
              (mk_self "in.csv" (Some flags_frame)) flags_frame bare_world
              _ _ eq_refl eq_refl) as [df1 H].
  exists df1. split; [reflexivity | exact H].
Defined.
